(** * Naksh backend: error taxonomy, response envelopes and toggle routes

    A shallow embedding of the error-handling layer ([utils/errors],
    [utils/response], [middleware/errorHandler]) and of the reaction,
    follow and message routes, followed by the properties established
    about them.

    JavaScript values are embedded as the inductive [Js.JsVal]; numbers are
    the integral ones (plus NaN and the two infinities), which is all the
    modelled code computes with.  An operation that can raise a [TypeError]
    returns a [Js.Completion].  The storage collaborator (Prisma) is a
    record of tables, each a list of rows, threaded explicitly. *)

From Stdlib Require Import ZArith List String Ascii Bool Lia QArith Qround DecimalString.
From Stdlib Require Floats.SpecFloat.
Import ListNotations.
Open Scope string_scope.
Open Scope Z_scope.

(* ================================================================= *)
(** ** JavaScript values *)

Module Js.

Set Warnings "-register-all".

Inductive JsVal : Type :=
| JUndefined
| JNull
| JBool (b : bool)
| JNum (z : Z)
| JNaN
| JInfinity (negative : bool)
| JStr (s : string)
| JArr (items : list JsVal)
| JObj (fields : list (string * JsVal)).

(** Outcome of evaluating an expression: a value, or a thrown [TypeError]
    carrying its message. *)
Inductive Completion (A : Type) : Type :=
| Normal (a : A)
| Throws (msg : string).
Arguments Normal {A} a.
Arguments Throws {A} msg.

Definition bind {A B} (c : Completion A) (k : A -> Completion B) : Completion B :=
  match c with
  | Normal a => k a
  | Throws m => Throws m
  end.

Notation "x <- c ;; k" := (bind c (fun x => k))
  (at level 61, c at next level, right associativity).

Fixpoint mapM {A B} (f : A -> Completion B) (l : list A) : Completion (list B) :=
  match l with
  | [] => Normal []
  | a :: r => b <- f a ;; bs <- mapM f r ;; Normal (b :: bs)
  end.

(** ToBoolean. *)
Definition truthy (v : JsVal) : bool :=
  match v with
  | JUndefined | JNull | JNaN => false
  | JBool b => b
  | JNum z => negb (z =? 0)
  | JInfinity _ => true
  | JStr s => negb (s =? "")%string
  | JArr _ | JObj _ => true
  end.

(** [a || b] on values. *)
Definition or_else (a b : JsVal) : JsVal := if truthy a then a else b.

Fixpoint assoc (k : string) (fs : list (string * JsVal)) : JsVal :=
  match fs with
  | [] => JUndefined
  | (k', v) :: r => if (k =? k')%string then v else assoc k r
  end.

(** Property read [v.k] for the data properties the modelled code reads.
    Reading from [null] or [undefined] throws; primitives and arrays have
    none of those properties. *)
Definition get (v : JsVal) (k : string) : Completion JsVal :=
  match v with
  | JUndefined =>
      Throws ("TypeError: Cannot read properties of undefined (reading '" ++ k ++ "')")
  | JNull =>
      Throws ("TypeError: Cannot read properties of null (reading '" ++ k ++ "')")
  | JObj fs => Normal (assoc k fs)
  | _ => Normal JUndefined
  end.

(** Optional chaining [v?.k]. *)
Definition get_opt (v : JsVal) (k : string) : JsVal :=
  match v with
  | JObj fs => assoc k fs
  | _ => JUndefined
  end.

(** A string is held as the bytes of its UTF-8 encoding.  [code_units c]
    is the number of UTF-16 code units owed to the byte [c]: one for a
    7-bit character and for the lead byte of a two- or three-byte sequence,
    two for the lead byte of a four-byte sequence (a surrogate pair), none
    for a continuation byte. *)
Definition code_units (c : ascii) : nat :=
  let n := nat_of_ascii c in
  if (n <? 128)%nat then 1%nat
  else if (n <? 192)%nat then 0%nat
  else if (n <? 240)%nat then 1%nat
  else 2%nat.

(** [s.length]: the number of UTF-16 code units of [s]. *)
Fixpoint string_length (s : string) : nat :=
  match s with
  | EmptyString => 0%nat
  | String c r => (code_units c + string_length r)%nat
  end.

Definition string_of_Z (z : Z) : string := NilZero.string_of_int (Z.to_int z).

(** ToString, as used by template literals and by the [Error] constructor. *)
Fixpoint to_string (v : JsVal) : string :=
  match v with
  | JUndefined => "undefined"
  | JNull => "null"
  | JBool true => "true"
  | JBool false => "false"
  | JNum z => string_of_Z z
  | JNaN => "NaN"
  | JInfinity false => "Infinity"
  | JInfinity true => "-Infinity"
  | JStr s => s
  | JArr l =>
      (fix elems (l : list JsVal) : string :=
         match l with
         | [] => ""
         | x :: r =>
             let sx := match x with
                       | JUndefined | JNull => ""
                       | _ => to_string x
                       end in
             match r with
             | [] => sx
             | _ :: _ => sx ++ "," ++ elems r
             end
         end) l
  | JObj _ => "[object Object]"
  end.

(** [Array.prototype.join(sep)]. *)
Fixpoint join (sep : string) (l : list JsVal) : string :=
  match l with
  | [] => ""
  | x :: r =>
      let sx := match x with
                | JUndefined | JNull => ""
                | _ => to_string x
                end in
      match r with
      | [] => sx
      | _ :: _ => sx ++ sep ++ join sep r
      end
  end.

(** The method call [v.join(sep)] on an arbitrary value; [callee] is the
    source text of [v.join], which the error message quotes. *)
Definition call_join (callee : string) (v : JsVal) (sep : string) : Completion string :=
  match v with
  | JArr l => Normal (join sep l)
  | JUndefined => Throws "TypeError: Cannot read properties of undefined (reading 'join')"
  | JNull => Throws "TypeError: Cannot read properties of null (reading 'join')"
  | _ => Throws ("TypeError: " ++ callee ++ " is not a function")
  end.

(** The method call [v.startsWith(p)] on an arbitrary value. *)
Definition call_startsWith (callee : string) (v : JsVal) (p : string) : Completion bool :=
  match v with
  | JStr s => Normal (prefix p s)
  | JUndefined =>
      Throws "TypeError: Cannot read properties of undefined (reading 'startsWith')"
  | JNull => Throws "TypeError: Cannot read properties of null (reading 'startsWith')"
  | _ => Throws ("TypeError: " ++ callee ++ " is not a function")
  end.

(** Strict equality with a string or number literal. *)
Definition is_str (v : JsVal) (s : string) : bool :=
  match v with JStr s' => (s' =? s)%string | _ => false end.

Definition is_num (v : JsVal) (n : Z) : bool :=
  match v with JNum z => z =? n | _ => false end.

(** A default parameter value applies exactly when the argument is
    [undefined]. *)
Definition default (arg dflt : JsVal) : JsVal :=
  match arg with JUndefined => dflt | _ => arg end.

(** What a client reads back after [JSON.stringify]: properties holding
    [undefined] are dropped, [undefined] array slots and non-finite numbers
    become [null]. *)
Fixpoint render (v : JsVal) : JsVal :=
  match v with
  | JNaN | JInfinity _ => JNull
  | JArr l =>
      JArr ((fix items (l : list JsVal) : list JsVal :=
               match l with
               | [] => []
               | x :: r =>
                   match x with
                   | JUndefined => JNull :: items r
                   | _ => render x :: items r
                   end
               end) l)
  | JObj fs =>
      JObj ((fix props (fs : list (string * JsVal)) : list (string * JsVal) :=
               match fs with
               | [] => []
               | (k, x) :: r =>
                   match x with
                   | JUndefined => props r
                   | _ => (k, render x) :: props r
                   end
               end) fs)
  | _ => v
  end.

(** [k in v] for an object value. *)
Fixpoint has_key (k : string) (fs : list (string * JsVal)) : bool :=
  match fs with
  | [] => false
  | (k', _) :: r => (k =? k')%string || has_key k r
  end.

Definition has_field (k : string) (v : JsVal) : bool :=
  match v with JObj fs => has_key k fs | _ => false end.

(** Object spread of a conditional, [...(c && { k: v })]: a falsy [c]
    contributes nothing. *)
Definition spread_if (c : JsVal) (fs : list (string * JsVal)) : list (string * JsVal) :=
  if truthy c then fs else [].

End Js.

(* ================================================================= *)
(** ** Error taxonomy and transformer ([utils/errors]) *)

Module Errors.
Import Js.

(** An instance of [APIError] or of one of its subclasses.  [name] is the
    constructor's name; [stack] is whatever [Error.captureStackTrace]
    recorded; [originalError] and [service] are the extra fields of
    [DatabaseError] and [ExternalServiceError] ([undefined] elsewhere). *)
Record APIError : Type := mkAPIError {
  name : string;
  message : string;
  statusCode : JsVal;
  code : JsVal;
  details : JsVal;
  isOperational : bool;
  stack : string;
  originalError : JsVal;
  service : JsVal
}.

(** A value that reaches a [catch]: an [APIError] instance or anything
    else. *)
Inductive Thrown : Type :=
| ThrownAPI (e : APIError)
| ThrownVal (v : JsVal).

(** [super(message)] in [Error]: an [undefined] message leaves the empty
    inherited one, anything else is converted to a string. *)
Definition error_message (m : JsVal) : string :=
  match m with
  | JUndefined => ""
  | _ => to_string m
  end.

Section Constructors.

(** The stack trace captured at construction. *)
Variable trace : string.

Definition newError (cls : string) (msg statusCode code details : JsVal) : APIError :=
  {| name := cls;
     message := error_message msg;
     statusCode := default statusCode (JNum 500);
     code := default code JNull;
     details := default details JNull;
     isOperational := true;
     stack := trace;
     originalError := JUndefined;
     service := JUndefined |}.

Definition newAPIError (msg statusCode code details : JsVal) : APIError :=
  newError "APIError" msg statusCode code details.

Definition ValidationError (msg details : JsVal) : APIError :=
  newError "ValidationError" msg (JNum 400) (JStr "VALIDATION_ERROR")
           (default details JNull).

Definition AuthenticationError (msg : JsVal) : APIError :=
  newError "AuthenticationError" (default msg (JStr "Authentication required"))
           (JNum 401) (JStr "AUTHENTICATION_ERROR") JUndefined.

Definition AuthorizationError (msg : JsVal) : APIError :=
  newError "AuthorizationError" (default msg (JStr "Access denied"))
           (JNum 403) (JStr "AUTHORIZATION_ERROR") JUndefined.

Definition NotFoundError (resource : JsVal) : APIError :=
  newError "NotFoundError"
           (JStr (to_string (default resource (JStr "Resource")) ++ " not found"))
           (JNum 404) (JStr "NOT_FOUND_ERROR") JUndefined.

Definition ConflictError (msg details : JsVal) : APIError :=
  newError "ConflictError" msg (JNum 409) (JStr "CONFLICT_ERROR") (default details JNull).

Definition GoneError (msg : JsVal) : APIError :=
  newError "GoneError" msg (JNum 410) (JStr "GONE_ERROR") JUndefined.

Definition RateLimitError (msg : JsVal) : APIError :=
  newError "RateLimitError" (default msg (JStr "Too many requests"))
           (JNum 429) (JStr "RATE_LIMIT_ERROR") JUndefined.

Definition DatabaseError (msg original : JsVal) : APIError :=
  let e := newError "DatabaseError" (default msg (JStr "Database operation failed"))
                    (JNum 500) (JStr "DATABASE_ERROR") JUndefined in
  {| name := name e; message := message e; statusCode := statusCode e;
     code := code e; details := details e; isOperational := isOperational e;
     stack := stack e;
     originalError := default original JNull;
     service := service e |}.

Definition ExternalServiceError (svc msg : JsVal) : APIError :=
  let m := default msg (JStr "External service unavailable") in
  let e := newError "ExternalServiceError"
                    (JStr (to_string svc ++ ": " ++ to_string m))
                    (JNum 502) (JStr "EXTERNAL_SERVICE_ERROR") JUndefined in
  {| name := name e; message := message e; statusCode := statusCode e;
     code := code e; details := details e; isOperational := isOperational e;
     stack := stack e;
     originalError := originalError e;
     service := svc |}.

(** [transformPrismaError]; the [switch] compares [code] with each label
    by strict equality, in order. *)
Definition transformPrismaError (error : JsVal) : Completion APIError :=
  code <- get error "code" ;;
  m <- get error "meta" ;;
  let meta := or_else m (JObj []) in
  if is_str code "P2002" then
    t <- get meta "target" ;;
    let target := or_else t (JArr [JStr "field"]) in
    let field := match target with
                 | JArr l => JStr (join ", " l)
                 | _ => target
                 end in
    Normal (ConflictError (JStr (to_string field ++ " already exists"))
                          (JObj [("field", field); ("constraint", JStr "unique")]))
  else if is_str code "P2025" then
    Normal (NotFoundError (JStr "Record"))
  else if is_str code "P2003" then
    f <- get meta "field_name" ;;
    Normal (ValidationError (JStr "Invalid reference to related record")
                            (JObj [("constraint", JStr "foreign_key"); ("field", f)]))
  else if is_str code "P2014" then
    f <- get meta "field_name" ;;
    Normal (ValidationError (JStr "Invalid ID provided") (JObj [("field", f)]))
  else if is_str code "P2016" then
    msg <- get error "message" ;;
    Normal (ValidationError (JStr "Query validation failed") (JObj [("details", msg)]))
  else if is_str code "P2020" then
    f <- get meta "field_name" ;;
    Normal (ValidationError (JStr "Value out of range") (JObj [("field", f)]))
  else if is_str code "P2021" then
    Normal (DatabaseError (JStr "Table does not exist") JUndefined)
  else if is_str code "P2024" then
    Normal (DatabaseError (JStr "Connection pool timeout") JUndefined)
  else
    Normal (DatabaseError (JStr "Database operation failed") error).

(** One entry of a Joi [details] array. *)
Definition joiDetail (detail : JsVal) : Completion JsVal :=
  path <- get detail "path" ;;
  field <- call_join "detail.path.join" path "." ;;
  msg <- get detail "message" ;;
  ctx <- get detail "context" ;;
  Normal (JObj [("field", JStr field); ("message", msg); ("value", get_opt ctx "value")]).

(** One entry of a Yup [errors] array. *)
Definition yupDetail (err : JsVal) : Completion JsVal :=
  path <- get err "path" ;;
  msg <- get err "message" ;;
  value <- get err "value" ;;
  Normal (JObj [("field", path); ("message", msg); ("value", value)]).

(** [transformValidationError]. *)
Definition transformValidationError (error : JsVal) : Completion APIError :=
  d <- get error "details" ;;
  match d with
  | JArr ds =>
      details <- mapM joiDetail ds ;;
      Normal (ValidationError (JStr "Validation failed") (JArr details))
  | _ =>
      e <- get error "errors" ;;
      match e with
      | JArr es =>
          details <- mapM yupDetail es ;;
          Normal (ValidationError (JStr "Validation failed") (JArr details))
      | _ =>
          msg <- get error "message" ;;
          Normal (ValidationError msg JUndefined)
      end
  end.

(** [transformClerkError]. *)
Definition transformClerkError (error : JsVal) : Completion APIError :=
  status <- get error "status" ;;
  msg <- get error "message" ;;
  if is_num status 401 then Normal (AuthenticationError msg)
  else if is_num status 403 then Normal (AuthorizationError msg)
  else Normal (newAPIError msg (or_else status (JNum 500)) JUndefined JUndefined).

(** [transformCloudinaryError]. *)
Definition transformCloudinaryError (error : JsVal) : Completion APIError :=
  http_code <- get error "http_code" ;;
  msg <- get error "message" ;;
  if is_num http_code 400 then
    Normal (ValidationError (JStr ("File upload failed: " ++ to_string msg)) JUndefined)
  else if is_num http_code 401 then
    Normal (ExternalServiceError (JStr "Cloudinary") (JStr "Authentication failed"))
  else if is_num http_code 413 then
    Normal (ValidationError (JStr "File size too large") JUndefined)
  else Normal (ExternalServiceError (JStr "Cloudinary") msg).

(** The guards of [transformError], in source order. *)

(** [error.code && error.code.startsWith('P')] *)
Definition isPrismaError (error : JsVal) : Completion bool :=
  code <- get error "code" ;;
  if truthy code then call_startsWith "error.code.startsWith" code "P" else Normal false.

(** [error.clerkError || (error.status && error.message)] *)
Definition isClerkError (error : JsVal) : Completion bool :=
  clerk <- get error "clerkError" ;;
  if truthy clerk then Normal true
  else
    status <- get error "status" ;;
    if truthy status then
      msg <- get error "message" ;; Normal (truthy msg)
    else Normal false.

(** [error.http_code] *)
Definition isCloudinaryError (error : JsVal) : Completion bool :=
  http_code <- get error "http_code" ;; Normal (truthy http_code).

(** [error.isJoi || error.name === 'ValidationError'] *)
Definition isValidationLibError (error : JsVal) : Completion bool :=
  isJoi <- get error "isJoi" ;;
  if truthy isJoi then Normal true
  else n <- get error "name" ;; Normal (is_str n "ValidationError").

(** [error.name === 'MongoError' || error.name === 'MongooseError'] *)
Definition isMongoError (error : JsVal) : Completion bool :=
  n <- get error "name" ;;
  Normal (is_str n "MongoError" || is_str n "MongooseError").

Definition generic_message : string := "An unexpected error occurred".

(** [transformError]. *)
Definition transformError (error : Thrown) : Completion APIError :=
  match error with
  | ThrownAPI e => Normal e
  | ThrownVal v =>
      prisma <- isPrismaError v ;;
      if prisma then transformPrismaError v else
      clerk <- isClerkError v ;;
      if clerk then transformClerkError v else
      cloudinary <- isCloudinaryError v ;;
      if cloudinary then transformCloudinaryError v else
      validation <- isValidationLibError v ;;
      if validation then transformValidationError v else
      mongo <- isMongoError v ;;
      if mongo then Normal (DatabaseError (JStr "Database operation failed") v) else
      msg <- get v "message" ;;
      Normal (newAPIError (or_else msg (JStr generic_message))
                          (JNum 500) (JStr "INTERNAL_ERROR") JUndefined)
  end.

End Constructors.

End Errors.

(* ================================================================= *)
(** ** Response envelope builders ([utils/response]) *)

Module Response.
Import Js.

(** What [res.status(s).json(b)] sends. *)
Record Response : Type := mkResponse {
  status : JsVal;
  body : JsVal
}.

(** The JSON document the client receives. *)
Definition rendered (r : Response) : JsVal := render (body r).

(** The argument of [paginated]: page number, page size and total row
    count, as the route handlers pass them after [parseInt].  They are
    numbers, that is IEEE 754 doubles; the integral ones are modelled, each
    by the integer it is. *)
Record Pagination : Type := mkPagination {
  page : Z;
  limit : Z;
  total : Z
}.

(** The quotient [a / b] of two numbers: a double, given by its exact
    rational value, an infinity or NaN. *)
Inductive Quotient : Type :=
| Finite (q : Q)
| Infinite (negative : bool)
| NotANumber.

(** The binary exponent of the positive rational [n / d]: the [k] with
    [2 ^ k <= n / d < 2 ^ (k + 1)]. *)
Definition magnitude (n d : Z) : Z :=
  let k := Z.log2 n - Z.log2 d in
  if (if 0 <=? k then d * 2 ^ k <=? n else d <=? n * 2 ^ (- k)) then k else k - 1.

(** The integer nearest to [n / d], the even one of the two when [n / d]
    lies halfway. *)
Definition nearest_even (n d : Z) : Z :=
  let q := n / d in
  let r := n mod d in
  if 2 * r <? d then q
  else if d <? 2 * r then q + 1
  else if Z.even q then q else q + 1.

(** The rational [m * 2 ^ e]. *)
Definition scaled (m e : Z) : Q :=
  if 0 <=? e then inject_Z (m * 2 ^ e) else Qmake m (Z.to_pos (2 ^ (- e))).

(** The double nearest to the positive rational [n / d]: a significand of
    53 bits (fewer below the smallest normal number, where the exponent
    stays at -1074), rounded to nearest, ties to even; [None] when the
    rounded value does not fit below [2 ^ 1024]. *)
Definition binary64 (n d : Z) : option Q :=
  let e := Z.max (magnitude n d - 52) (-1074) in
  let m := nearest_even (n * 2 ^ Z.max 0 (- e)) (d * 2 ^ Z.max 0 e) in
  if 1024 <=? Z.log2 m + e then None else Some (scaled m e).

(** [a / b] on numbers: division by zero gives an infinity or NaN, every
    other quotient is rounded to a double.  The sign of a zero is not
    kept: no use made of the quotient here tells [-0] from [0]. *)
Definition divide (a b : Z) : Quotient :=
  if b =? 0 then
    if 0 <? a then Infinite false
    else if a <? 0 then Infinite true
    else NotANumber
  else if a =? 0 then Finite 0
  else
    match binary64 (Z.abs a) (Z.abs b) with
    | Some q => Finite (if Bool.eqb (a <? 0) (b <? 0) then q else - q)%Q
    | None => Infinite (negb (Bool.eqb (a <? 0) (b <? 0)))
    end.

(** The same quotient computed by the Standard Library's specification of
    IEEE 754 binary64 division, for comparison. *)
Definition of_spec_float (f : SpecFloat.spec_float) : Quotient :=
  match f with
  | SpecFloat.S754_zero _ => Finite 0
  | SpecFloat.S754_infinity negative => Infinite negative
  | SpecFloat.S754_nan => NotANumber
  | SpecFloat.S754_finite negative m e =>
      Finite (if negative then - scaled (Zpos m) e else scaled (Zpos m) e)%Q
  end.

Definition SFdivide (a b : Z) : Quotient :=
  of_spec_float
    (SpecFloat.SFdiv 53 1024
       (SpecFloat.binary_normalize 53 1024 a 0 false)
       (SpecFloat.binary_normalize 53 1024 b 0 false)).

Definition same_quotient (x y : Quotient) : bool :=
  match x, y with
  | Finite p, Finite q => Qeq_bool p q
  | Infinite m, Infinite n => Bool.eqb m n
  | NotANumber, NotANumber => true
  | _, _ => false
  end.

(** [Math.ceil]. *)
Definition Math_ceil (x : Quotient) : JsVal :=
  match x with
  | Finite q => JNum (Qceiling q)
  | Infinite n => JInfinity n
  | NotANumber => JNaN
  end.

(** [n < v] for an integral [n] and a numeric [v]. *)
Definition less_than (n : Z) (v : JsVal) : bool :=
  match v with
  | JNum z => n <? z
  | JInfinity negative => negb negative
  | _ => false
  end.

Definition pages (p : Pagination) : JsVal := Math_ceil (divide (total p) (limit p)).
Definition hasNext (p : Pagination) : bool := less_than (page p) (pages p).
Definition hasPrev (p : Pagination) : bool := 1 <? page p.

Section Builders.

(** [new Date().toISOString()] at the time the response is built. *)
Variable now : string.

Definition success (data message statusCode : JsVal) : Response :=
  mkResponse (default statusCode (JNum 200))
    (JObj [("success", JBool true);
           ("message", default message (JStr "Success"));
           ("data", data);
           ("timestamp", JStr now)]).

Definition created (data message : JsVal) : Response :=
  success data (default message (JStr "Resource created successfully")) (JNum 201).

Definition noContent (message : JsVal) : Response :=
  mkResponse (JNum 204)
    (JObj [("success", JBool true);
           ("message", default message (JStr "Operation completed successfully"));
           ("timestamp", JStr now)]).

Definition paginated (data : JsVal) (pagination : Pagination) (message : JsVal)
  : Response :=
  mkResponse (JNum 200)
    (JObj [("success", JBool true);
           ("message", default message (JStr "Success"));
           ("data", data);
           ("pagination",
            JObj [("page", JNum (page pagination));
                  ("limit", JNum (limit pagination));
                  ("total", JNum (total pagination));
                  ("pages", pages pagination);
                  ("hasNext", JBool (hasNext pagination));
                  ("hasPrev", JBool (hasPrev pagination))]);
           ("timestamp", JStr now)]).

Definition error (message statusCode code details : JsVal) : Response :=
  let statusCode := default statusCode (JNum 500) in
  let code := default code JNull in
  let details := default details JNull in
  mkResponse statusCode
    (JObj [("success", JBool false);
           ("error",
            JObj ([("message", message); ("code", code); ("statusCode", statusCode)]
                  ++ spread_if details [("details", details)]));
           ("timestamp", JStr now)]).

Definition validationError (errors message : JsVal) : Response :=
  mkResponse (JNum 400)
    (JObj [("success", JBool false);
           ("error",
            JObj [("message", default message (JStr "Validation failed"));
                  ("code", JStr "VALIDATION_ERROR");
                  ("statusCode", JNum 400);
                  ("details", errors)]);
           ("timestamp", JStr now)]).

(** The shape shared by [unauthorized], [forbidden], [notFound],
    [rateLimited] and [serverError]. *)
Definition fixedError (st : Z) (code : string) (message : JsVal) : Response :=
  mkResponse (JNum st)
    (JObj [("success", JBool false);
           ("error",
            JObj [("message", message); ("code", JStr code); ("statusCode", JNum st)]);
           ("timestamp", JStr now)]).

Definition unauthorized (message : JsVal) : Response :=
  fixedError 401 "AUTHENTICATION_ERROR" (default message (JStr "Authentication required")).

Definition forbidden (message : JsVal) : Response :=
  fixedError 403 "AUTHORIZATION_ERROR" (default message (JStr "Access denied")).

Definition notFound (resource message : JsVal) : Response :=
  let resource := default resource (JStr "Resource") in
  let message := default message JNull in
  fixedError 404 "NOT_FOUND_ERROR"
    (or_else message (JStr (to_string resource ++ " not found"))).

Definition conflict (message details : JsVal) : Response :=
  let details := default details JNull in
  mkResponse (JNum 409)
    (JObj [("success", JBool false);
           ("error",
            JObj ([("message", message); ("code", JStr "CONFLICT_ERROR");
                   ("statusCode", JNum 409)]
                  ++ spread_if details [("details", details)]));
           ("timestamp", JStr now)]).

Definition rateLimited (message : JsVal) : Response :=
  fixedError 429 "RATE_LIMIT_ERROR" (default message (JStr "Too many requests")).

Definition serverError (message : JsVal) : Response :=
  fixedError 500 "INTERNAL_ERROR" (default message (JStr "Internal server error")).

(** [typeof data === 'object' && data !== null] *)
Definition is_object (v : JsVal) : bool :=
  match v with JArr _ | JObj _ => true | _ => false end.

Definition custom (statusCode : Z) (data message : JsVal) : Response :=
  let message := default message JNull in
  let isSuccess := (200 <=? statusCode) && (statusCode <? 300) in
  let response := [("success", JBool isSuccess); ("timestamp", JStr now)] in
  mkResponse (JNum statusCode)
    (JObj (response ++
           if isSuccess then
             [("message", or_else message (JStr "Success")); ("data", data)]
           else
             [("error",
               JObj ([("message", or_else message (JStr "Error"));
                      ("statusCode", JNum statusCode)]
                     ++ (if is_object data then [("details", data)] else [])))])).

End Builders.

End Response.

(* ================================================================= *)
(** ** Terminal error middleware ([middleware/errorHandler]) *)

Module ErrorHandler.
Import Js Errors Response.

(** [sendErrorDev] *)
Definition sendErrorDev (err : APIError) : Response :=
  mkResponse (statusCode err)
    (JObj [("error",
            JObj ([("message", JStr (message err));
                   ("code", code err);
                   ("statusCode", statusCode err);
                   ("stack", JStr (stack err))]
                  ++ spread_if (details err) [("details", details err)]
                  ++ spread_if (originalError err)
                       [("originalError", originalError err)]))]).

(** [sendErrorProd] *)
Definition sendErrorProd (err : APIError) : Response :=
  if isOperational err then
    mkResponse (statusCode err)
      (JObj [("error",
              JObj ([("message", JStr (message err)); ("code", code err)]
                    ++ spread_if (details err) [("details", details err)]))])
  else
    mkResponse (JNum 500)
      (JObj [("error",
              JObj [("message", JStr "Something went wrong!");
                    ("code", JStr "INTERNAL_ERROR")])]).

(** [errorHandler], with [process.env.NODE_ENV] and the stack trace a
    transformed error would capture as parameters.  Logging only writes to
    the console and is left out. *)
Definition errorHandler (trace : string) (node_env : JsVal) (err : Thrown)
  : Completion Response :=
  error <- match err with
           | ThrownAPI e => Normal e
           | ThrownVal _ => transformError trace err
           end ;;
  if is_str node_env "development" then Normal (sendErrorDev error)
  else Normal (sendErrorProd error).

End ErrorHandler.

(* ================================================================= *)
(** ** The storage collaborator (Prisma client over the schema) *)

(** Rows carry the columns the modelled routes read or write.  A
    [DateTime] is its number of milliseconds since the epoch. *)

Module User.
Record t : Type := mk {
  id : string;
  username : option string;
  displayName : option string;
  avatarUrl : option string
}.
End User.

Module Post.
Record t : Type := mk {
  id : string;
  caption : option string;
  expiresAt : Z;
  deletedAt : option Z
}.
End Post.

Module Reaction.
(** [@@id([postId, userId, type])] *)
Record t : Type := mk {
  postId : string;
  userId : string;
  type : string;
  createdAt : Z
}.
End Reaction.

Module Follow.
(** [@@id([followerId, followeeId])] *)
Record t : Type := mk {
  followerId : string;
  followeeId : string;
  createdAt : Z
}.
End Follow.

Module Message.
Record t : Type := mk {
  id : string;
  senderId : string;
  chatId : string;
  body : string;
  createdAt : Z;
  deliveredAt : option Z;
  readAt : option Z
}.
End Message.

Module ChatMember.
(** [@@id([memberId, chatId])] *)
Record t : Type := mk {
  memberId : string;
  chatId : string
}.
End ChatMember.

Module Prisma.

Record Store : Type := mkStore {
  users : list User.t;
  posts : list Post.t;
  reactions : list Reaction.t;
  follows : list Follow.t;
  messages : list Message.t;
  chatMembers : list ChatMember.t
}.

Definition with_reactions (s : Store) (rs : list Reaction.t) : Store :=
  mkStore (users s) (posts s) rs (follows s) (messages s) (chatMembers s).

Definition with_follows (s : Store) (fs : list Follow.t) : Store :=
  mkStore (users s) (posts s) (reactions s) fs (messages s) (chatMembers s).

Definition with_messages (s : Store) (ms : list Message.t) : Store :=
  mkStore (users s) (posts s) (reactions s) (follows s) ms (chatMembers s).

(** A rejected query: a [PrismaClientKnownRequestError] with its code, or
    a [PrismaClientValidationError], raised before the query is sent when an
    argument does not fit the schema, which has no code. *)
Inductive PrismaError : Type :=
| KnownRequestError (code : string)
| ClientValidationError.

(** [error.code === c] *)
Definition has_code (e : PrismaError) (c : string) : bool :=
  match e with
  | KnownRequestError c' => (c' =? c)%string
  | ClientValidationError => false
  end.

Inductive Outcome (A : Type) : Type :=
| Resolved (a : A)
| Rejected (e : PrismaError).
Arguments Resolved {A} a.
Arguments Rejected {A} e.

(** A sequence of awaited queries: from the store before it, the outcome,
    the store after it, and the stores each write left behind on the way,
    oldest first.  Writes made before a rejection stay. *)
Definition DB (A : Type) : Type := Store -> Outcome A * Store * list Store.

Definition ret {A} (a : A) : DB A := fun s => (Resolved a, s, []).

Definition bind {A B} (c : DB A) (k : A -> DB B) : DB B :=
  fun s =>
    match c s with
    | (Resolved a, s1, w1) =>
        match k a s1 with
        | (o, s2, w2) => (o, s2, (w1 ++ w2)%list)
        end
    | (Rejected e, s1, w1) => (Rejected e, s1, w1)
    end.

Definition read {A} (f : Store -> A) : DB A := fun s => (Resolved (f s), s, []).
Definition write (s' : Store) : DB unit := fun _ => (Resolved tt, s', [s']).
Definition reject {A} (code : string) : DB A :=
  fun s => (Rejected (KnownRequestError code), s, []).
Definition invalid {A} : DB A :=
  fun s => (Rejected ClientValidationError, s, []).

Declare Scope db_scope.
Delimit Scope db_scope with db.
Notation "x <- c ;; k" := (bind c (fun x => k))
  (at level 61, c at next level, right associativity) : db_scope.
Notation "c ;; k" := (bind c (fun _ => k))
  (at level 61, right associativity) : db_scope.

Local Open Scope db_scope.

(** *** user *)

Definition user_matches (id : string) (u : User.t) : bool := (User.id u =? id)%string.

Definition user_findUnique (id : string) : DB (option User.t) :=
  read (fun s => find (user_matches id) (users s)).

(** *** post *)

Definition post_matches (id : string) (p : Post.t) : bool := (Post.id p =? id)%string.

Definition post_findUnique (id : string) : DB (option Post.t) :=
  read (fun s => find (post_matches id) (posts s)).

(** *** reaction *)

Definition reaction_of (postId userId : string) (r : Reaction.t) : bool :=
  (Reaction.postId r =? postId)%string && (Reaction.userId r =? userId)%string.

Definition reaction_key (postId userId type : string) (r : Reaction.t) : bool :=
  reaction_of postId userId r && (Reaction.type r =? type)%string.

(** [enum ReactionType] of the schema, the type of the column [type]. *)
Definition ReactionType : list string := ["LIKE"; "LOL"; "SAD"; "LOVE"; "ANGRY"; "WOW"].

Definition is_ReactionType (type : string) : bool :=
  existsb (fun v => (v =? type)%string) ReactionType.

(** [findFirst({ where: { postId, userId } })] *)
Definition reaction_findFirst (postId userId : string) : DB (option Reaction.t) :=
  read (fun s => find (reaction_of postId userId) (reactions s)).

(** [delete({ where: { postId_userId_type } })]: a validation error when
    [type] is no value of the enum, P2025 when no such row. *)
Definition reaction_delete (postId userId type : string) : DB unit :=
  fun s =>
    if negb (is_ReactionType type) then invalid s
    else if existsb (reaction_key postId userId type) (reactions s) then
      write (with_reactions s
               (filter (fun r => negb (reaction_key postId userId type r)) (reactions s))) s
    else reject "P2025" s.

(** [create({ data: { postId, userId, type } })]: a validation error when
    [type] is no value of the enum, P2002 when the key is taken, P2003 when
    the post or the user is missing. *)
Definition reaction_create (now : Z) (postId userId type : string) : DB Reaction.t :=
  fun s =>
    if negb (is_ReactionType type) then invalid s
    else if existsb (reaction_key postId userId type) (reactions s) then reject "P2002" s
    else if negb (existsb (post_matches postId) (posts s)
                  && existsb (user_matches userId) (users s)) then reject "P2003" s
    else
      let row := Reaction.mk postId userId type now in
      (_ <- write (with_reactions s (reactions s ++ [row])%list) ;; ret row) s.

(** *** follow *)

Definition follow_key (followerId followeeId : string) (f : Follow.t) : bool :=
  (Follow.followerId f =? followerId)%string && (Follow.followeeId f =? followeeId)%string.

Definition follow_findUnique (followerId followeeId : string) : DB (option Follow.t) :=
  read (fun s => find (follow_key followerId followeeId) (follows s)).

Definition follow_create (now : Z) (followerId followeeId : string) : DB Follow.t :=
  fun s =>
    if existsb (follow_key followerId followeeId) (follows s) then reject "P2002" s
    else if negb (existsb (user_matches followerId) (users s)
                  && existsb (user_matches followeeId) (users s)) then reject "P2003" s
    else
      let row := Follow.mk followerId followeeId now in
      (_ <- write (with_follows s (follows s ++ [row])%list) ;; ret row) s.

Definition follow_delete (followerId followeeId : string) : DB unit :=
  fun s =>
    if existsb (follow_key followerId followeeId) (follows s) then
      write (with_follows s
               (filter (fun f => negb (follow_key followerId followeeId f)) (follows s))) s
    else reject "P2025" s.

(** *** message and chatMember *)

Definition message_matches (id : string) (m : Message.t) : bool :=
  (Message.id m =? id)%string.

Definition message_findUnique (id : string) : DB (option Message.t) :=
  read (fun s => find (message_matches id) (messages s)).

Definition member_key (memberId chatId : string) (c : ChatMember.t) : bool :=
  (ChatMember.memberId c =? memberId)%string && (ChatMember.chatId c =? chatId)%string.

Definition chatMember_findUnique (memberId chatId : string) : DB (option ChatMember.t) :=
  read (fun s => find (member_key memberId chatId) (chatMembers s)).

(** [update({ where: { id }, data })]: P2025 when no such row; resolves to
    the updated row. *)
Definition message_update (id : string) (data : Message.t -> Message.t) : DB Message.t :=
  fun s =>
    match find (message_matches id) (messages s) with
    | Some m =>
        (_ <- write (with_messages s
                       (map (fun x => if message_matches id x then data x else x)
                            (messages s))) ;;
         ret (data m)) s
    | None => reject "P2025" s
    end.

(** [updateMany({ where, data })]: resolves to the number of rows
    matched. *)
Definition message_updateMany (where_ : Message.t -> bool) (data : Message.t -> Message.t)
  : DB Z :=
  fun s =>
    (_ <- write (with_messages s
                   (map (fun x => if where_ x then data x else x) (messages s))) ;;
     ret (Z.of_nat (List.length (filter where_ (messages s))))) s.

End Prisma.

(* ================================================================= *)
(** ** Route handlers *)

(** A handler is run against a store and yields the response sent, the
    store left behind, and the stores its writes produced on the way.  A
    request field is a string or is absent. *)

Module Route.
Import Js Response Prisma.
Local Open Scope db_scope.

(** [!x] is false exactly for a non-empty string. *)
Definition present (x : option string) : bool :=
  match x with
  | Some s => negb (s =? "")%string
  | None => false
  end.

Definition value (x : option string) : string :=
  match x with Some s => s | None => "" end.

Definition json (st : Z) (b : JsVal) : Response := mkResponse (JNum st) b.

Definition error_body (msg : string) : JsVal := JObj [("error", JStr msg)].

Definition opt_str (x : option string) : JsVal :=
  match x with Some s => JStr s | None => JNull end.

Definition opt_date (x : option Z) : JsVal :=
  match x with Some t => JNum t | None => JNull end.

(** The [try { ... } catch (error) { ... }] around a handler body. *)
Definition try_catch (body : DB Response) (handler : PrismaError -> Response)
  : Store -> Response * Store * list Store :=
  fun s =>
    match body s with
    | (Resolved r, s', w) => (r, s', w)
    | (Rejected e, s', w) => (handler e, s', w)
    end.

(** [select: { id, username, displayName, avatarUrl }] *)
Definition user_card (u : option User.t) : JsVal :=
  match u with
  | Some u =>
      JObj [("id", JStr (User.id u));
            ("username", opt_str (User.username u));
            ("displayName", opt_str (User.displayName u));
            ("avatarUrl", opt_str (User.avatarUrl u))]
  | None => JNull
  end.

End Route.

(** *** [routes/reactions.js] *)

Module Reactions.
Import Js Response Prisma Route.
Local Open Scope db_scope.

Record Body : Type := mkBody {
  postId : option string;
  userId : option string;
  type : option string
}.

Definition validTypes : list string := ["LIKE"; "LOL"; "SAD"; "LOVE"; "ANGRY"; "WOW"].

Definition includes (l : list string) (x : string) : bool :=
  existsb (fun y => (y =? x)%string) l.

(** The created row with its [include]d user and post. *)
Definition reaction_json (r : Reaction.t) (u : option User.t) (p : option Post.t) : JsVal :=
  JObj [("postId", JStr (Reaction.postId r));
        ("userId", JStr (Reaction.userId r));
        ("type", JStr (Reaction.type r));
        ("createdAt", JNum (Reaction.createdAt r));
        ("user", user_card u);
        ("post", match p with
                 | Some p => JObj [("id", JStr (Post.id p));
                                   ("caption", opt_str (Post.caption p))]
                 | None => JNull
                 end)].

Definition create_and_send (now : Z) (postId userId type : string) : DB Response :=
  reaction <- reaction_create now postId userId type ;;
  u <- user_findUnique userId ;;
  p <- post_findUnique postId ;;
  ret (json 201 (reaction_json reaction u p)).

Definition removed_json : JsVal :=
  JObj [("message", JStr "Reaction removed"); ("removed", JBool true)].

(** The handler from [findFirst] on, once the request and the post have
    passed the checks. *)
Definition toggle (now : Z) (postId userId type : string) : DB Response :=
  existingReaction <- reaction_findFirst postId userId ;;
  match existingReaction with
  | Some existing =>
      if (Reaction.type existing =? type)%string then
        reaction_delete postId userId type ;;
        ret (json 200 removed_json)
      else
        reaction_delete (Reaction.postId existing)
                        (Reaction.userId existing)
                        (Reaction.type existing) ;;
        create_and_send now postId userId type
  | None => create_and_send now postId userId type
  end.

(** [POST /api/reactions], with [new Date()] as [now]. *)
Definition post_reaction (now : Z) (req : Body) : Store -> Response * Store * list Store :=
  try_catch
    (if negb (present (postId req)) || negb (present (userId req))
        || negb (present (type req)) then
       ret (json 400 (error_body "Post ID, user ID, and reaction type are required"))
     else
       let postId := value (postId req) in
       let userId := value (userId req) in
       let type := value (type req) in
       if negb (includes validTypes type) then
         ret (json 400
                (error_body ("Invalid reaction type. Must be one of: "
                             ++ String.concat ", " validTypes)))
       else
         post <- post_findUnique postId ;;
         match post with
         | None => ret (json 404 (error_body "Post not found"))
         | Some post =>
             match Post.deletedAt post with
             | Some _ => ret (json 404 (error_body "Post not found"))
             | None =>
                 if Post.expiresAt post <? now then
                   ret (json 400 (error_body "Cannot react to expired post"))
                 else toggle now postId userId type
             end
         end)
    (fun _ => json 500 (error_body "Failed to create reaction")).

End Reactions.

(** *** [routes/follows.js] *)

Module Follows.
Import Js Response Prisma Route.
Local Open Scope db_scope.

Record Body : Type := mkBody {
  followerId : option string;
  followeeId : option string
}.

Definition follow_json (f : Follow.t) (a b : option User.t) : JsVal :=
  JObj [("followerId", JStr (Follow.followerId f));
        ("followeeId", JStr (Follow.followeeId f));
        ("createdAt", JNum (Follow.createdAt f));
        ("follower", user_card a);
        ("followee", user_card b)].

(** [POST /api/follows] *)
Definition post_follow (now : Z) (req : Body) : Store -> Response * Store * list Store :=
  try_catch
    (if negb (present (followerId req)) || negb (present (followeeId req)) then
       ret (json 400 (error_body "Follower ID and followee ID are required"))
     else
       let followerId := value (followerId req) in
       let followeeId := value (followeeId req) in
       if (followerId =? followeeId)%string then
         ret (json 400 (error_body "Users cannot follow themselves"))
       else
         follower <- user_findUnique followerId ;;
         followee <- user_findUnique followeeId ;;
         match follower with
         | None => ret (json 404 (error_body "Follower user not found"))
         | Some _ =>
             match followee with
             | None => ret (json 404 (error_body "Followee user not found"))
             | Some _ =>
                 existingFollow <- follow_findUnique followerId followeeId ;;
                 match existingFollow with
                 | Some _ => ret (json 409 (error_body "Already following this user"))
                 | None =>
                     follow <- follow_create now followerId followeeId ;;
                     a <- user_findUnique followerId ;;
                     b <- user_findUnique followeeId ;;
                     ret (json 201 (follow_json follow a b))
                 end
             end
         end)
    (fun _ => json 500 (error_body "Failed to follow user")).

(** [DELETE /api/follows]; [res.status(204).send()] sends no body. *)
Definition delete_follow (req : Body) : Store -> Response * Store * list Store :=
  try_catch
    (if negb (present (followerId req)) || negb (present (followeeId req)) then
       ret (json 400 (error_body "Follower ID and followee ID are required"))
     else
       follow_delete (value (followerId req)) (value (followeeId req)) ;;
       ret (json 204 JUndefined))
    (fun error =>
       if has_code error "P2025" then
         json 404 (error_body "Follow relationship not found")
       else json 500 (error_body "Failed to unfollow user")).

End Follows.

(** *** [routes/messages.js] *)

Module Messages.
Import Js Response Prisma Route.
Local Open Scope db_scope.

Definition set_delivered (now : Z) (m : Message.t) : Message.t :=
  Message.mk (Message.id m) (Message.senderId m) (Message.chatId m) (Message.body m)
             (Message.createdAt m) (Some now) (Message.readAt m).

Definition set_read (now : Z) (m : Message.t) : Message.t :=
  Message.mk (Message.id m) (Message.senderId m) (Message.chatId m) (Message.body m)
             (Message.createdAt m) (Message.deliveredAt m) (Some now).

Definition is_set (d : option Z) : bool :=
  match d with Some _ => true | None => false end.

(** [PUT /api/messages/:id/delivered] *)
Definition put_delivered (now : Z) (id : string) (userId : option string)
  : Store -> Response * Store * list Store :=
  try_catch
    (if negb (present userId) then
       ret (json 400 (error_body "User ID is required"))
     else
       let userId := value userId in
       message <- message_findUnique id ;;
       match message with
       | None => ret (json 404 (error_body "Message not found"))
       | Some message =>
           isMember <- chatMember_findUnique userId (Message.chatId message) ;;
           match isMember with
           | None => ret (json 403 (error_body "Access denied"))
           | Some _ =>
               if is_set (Message.deliveredAt message)
                  || (Message.senderId message =? userId)%string then
                 ret (json 200
                        (JObj [("message",
                                JStr "Message already delivered or user is sender")]))
               else
                 updated <- message_update id (set_delivered now) ;;
                 ret (json 200
                        (JObj [("id", JStr (Message.id updated));
                               ("deliveredAt", opt_date (Message.deliveredAt updated))]))
           end
       end)
    (fun _ => json 500 (error_body "Failed to mark message as delivered")).

(** The [data] of the update in [PUT /:id/read]: [readAt: now] and, when
    the message read beforehand had no [deliveredAt], [deliveredAt: now]. *)
Definition read_data (now : Z) (message : Message.t) (m : Message.t) : Message.t :=
  if is_set (Message.deliveredAt message) then set_read now m
  else set_delivered now (set_read now m).

(** [PUT /api/messages/:id/read] *)
Definition put_read (now : Z) (id : string) (userId : option string)
  : Store -> Response * Store * list Store :=
  try_catch
    (if negb (present userId) then
       ret (json 400 (error_body "User ID is required"))
     else
       let userId := value userId in
       message <- message_findUnique id ;;
       match message with
       | None => ret (json 404 (error_body "Message not found"))
       | Some message =>
           isMember <- chatMember_findUnique userId (Message.chatId message) ;;
           match isMember with
           | None => ret (json 403 (error_body "Access denied"))
           | Some _ =>
               if is_set (Message.readAt message)
                  || (Message.senderId message =? userId)%string then
                 ret (json 200
                        (JObj [("message", JStr "Message already read or user is sender")]))
               else
                 updated <- message_update id (read_data now message) ;;
                 ret (json 200
                        (JObj [("id", JStr (Message.id updated));
                               ("deliveredAt", opt_date (Message.deliveredAt updated));
                               ("readAt", opt_date (Message.readAt updated))]))
           end
       end)
    (fun _ => json 500 (error_body "Failed to mark message as read")).

(** [where: { chatId, senderId: { not: userId }, readAt: null }] *)
Definition unread_from_others (chatId userId : string) (m : Message.t) : bool :=
  (Message.chatId m =? chatId)%string
  && negb (Message.senderId m =? userId)%string
  && negb (is_set (Message.readAt m)).

(** [data: { readAt: now, deliveredAt: now }] *)
Definition read_all_data (now : Z) (m : Message.t) : Message.t :=
  set_delivered now (set_read now m).

(** [PUT /api/messages/chat/:chatId/read-all] *)
Definition put_read_all (now : Z) (chatId : string) (userId : option string)
  : Store -> Response * Store * list Store :=
  try_catch
    (if negb (present userId) then
       ret (json 400 (error_body "User ID is required"))
     else
       let userId := value userId in
       isMember <- chatMember_findUnique userId chatId ;;
       match isMember with
       | None => ret (json 403 (error_body "Access denied"))
       | Some _ =>
           count <- message_updateMany (unread_from_others chatId userId)
                                       (read_all_data now) ;;
           ret (json 200 (JObj [("message", JStr "Messages marked as read");
                                ("updatedCount", JNum count)]))
       end)
    (fun _ => json 500 (error_body "Failed to mark messages as read")).

End Messages.

(* ================================================================= *)
(** ** Sample inputs *)

Module Samples.
Import Js.

(** A driver error as the MongoDB client raises it: a name, a numeric
    [code] and a message. *)
Definition mongo_duplicate_key : JsVal :=
  JObj [("name", JStr "MongoError");
        ("code", JNum 11000);
        ("message", JStr "E11000 duplicate key error")].

(** A Joi-shaped validation error that also carries a status. *)
Definition joi_with_status : JsVal :=
  JObj [("isJoi", JBool true);
        ("name", JStr "ValidationError");
        ("status", JNum 422);
        ("message", JStr "email is required");
        ("details", JArr [])].

(** An HTTP client error carrying its status also as a numeric [code]. *)
Definition unauthorized_with_numeric_code : JsVal :=
  JObj [("code", JNum 401);
        ("status", JNum 401);
        ("message", JStr "Unauthorized")].

(** An error as [new NotFoundError('Post')] builds it. *)
Definition post_not_found : Errors.APIError := Errors.NotFoundError "" (JStr "Post").

(** A store with one user and one post that expired at instant 1000. *)
Definition expired_post_store : Prisma.Store :=
  Prisma.mkStore
    [User.mk "u1" (Some "alice") None None]
    [Post.mk "p1" (Some "hello") 1000 None]
    [] [] [] [].

(** A store in which alice already reacted LIKE to a live post. *)
Definition liked_store : Prisma.Store :=
  Prisma.mkStore
    [User.mk "u1" (Some "alice") None None]
    [Post.mk "p1" (Some "hello") 9000 None]
    [Reaction.mk "p1" "u1" "LIKE" 500]
    [] [] [].

(** The same store before any reaction. *)
Definition unreacted_store : Prisma.Store :=
  Prisma.with_reactions liked_store [].

(** Two users, alice following bob. *)
Definition follow_store : Prisma.Store :=
  Prisma.mkStore
    [User.mk "u1" (Some "alice") None None; User.mk "u2" (Some "bob") None None]
    [] []
    [Follow.mk "u1" "u2" 10]
    [] [].

(** A chat of alice and bob holding one message from bob, delivered at
    instant 100 and not yet read, and one from alice. *)
Definition chat_store : Prisma.Store :=
  Prisma.mkStore
    [User.mk "u1" (Some "alice") None None; User.mk "u2" (Some "bob") None None]
    [] [] []
    [Message.mk "m1" "u2" "c1" "hi" 90 (Some 100) None;
     Message.mk "m2" "u1" "c1" "hello" 95 None None]
    [ChatMember.mk "u1" "c1"; ChatMember.mk "u2" "c1"].

(** The same chat before bob's message was delivered. *)
Definition undelivered_store : Prisma.Store :=
  Prisma.with_messages chat_store
    [Message.mk "m1" "u2" "c1" "hi" 90 None None;
     Message.mk "m2" "u1" "c1" "hello" 95 None None].

End Samples.

(* ================================================================= *)
(** ** Observing the store *)

Module Observe.
Import Prisma.

(** The reaction rows of one (post, user) pair. *)
Definition rows_of (s : Store) (postId userId : string) : list Reaction.t :=
  filter (reaction_of postId userId) (reactions s).

Definition at_most_one (postId userId : string) (s : Store) : Prop :=
  (List.length (rows_of s postId userId) <= 1)%nat.

(** The pair is in the Following state. *)
Definition following (s : Store) (a b : string) : bool :=
  existsb (follow_key a b) (follows s).

Definition user_exists (s : Store) (id : string) : bool :=
  existsb (user_matches id) (users s).

(** The foreign keys of the follow table: both ends of a row are users. *)
Definition follows_reference_users (s : Store) : Prop :=
  forall f, In f (follows s) ->
    user_exists s (Follow.followerId f) = true
    /\ user_exists s (Follow.followeeId f) = true.

Definition is_member (s : Store) (userId chatId : string) : bool :=
  existsb (member_key userId chatId) (chatMembers s).

End Observe.

(* ================================================================= *)
(** ** Observing a rendered response *)

Module Envelope.
Import Js Response.

(** The JSON document sent has a top-level field [k]. *)
Definition carries (k : string) (r : Response) : bool := has_field k (rendered r).

(** Exactly one of [data] and [error] is there. *)
Definition exactly_one_of_data_error (r : Response) : bool :=
  xorb (carries "data" r) (carries "error" r).

Definition is_undefined (v : JsVal) : bool :=
  match v with JUndefined => true | _ => false end.

Definition is_2xx (statusCode : Z) : bool := (200 <=? statusCode) && (statusCode <? 300).

End Envelope.

(* ================================================================= *)
(** ** Async boundary and route fallback ([utils/asyncHandler],
       [middleware/errorHandler]) *)

Module AsyncHandler.
Import Js Errors.

(** How the promise of a wrapped handler settles. *)
Inductive Settled : Type :=
| Fulfilled
| RejectedWith (error : Thrown).

(** What the wrapper does with it: nothing, a call of [next] with the
    transformed error, or, when the transformer itself throws inside the
    [catch] callback, a rejection nobody handles. *)
Inductive Routed : Type :=
| Untouched
| Next (e : APIError)
| UnhandledRejection (msg : string).

(** [asyncHandler(fn)] on a request whose handler promise settles as
    given. *)
Definition asyncHandler (trace : string) (outcome : Settled) : Routed :=
  match outcome with
  | Fulfilled => Untouched
  | RejectedWith error =>
      match transformError trace error with
      | Normal transformedError => Next transformedError
      | Throws msg => UnhandledRejection msg
      end
  end.

(** [notFoundHandler]: the error handed to [next] for a request to
    [originalUrl]. *)
Definition notFoundHandler (trace : string) (originalUrl : string) : APIError :=
  newAPIError trace (JStr ("Route " ++ originalUrl ++ " not found"))
              (JNum 404) (JStr "ROUTE_NOT_FOUND") JUndefined.

End AsyncHandler.

(* ================================================================= *)
(** ** Health check response ([utils/response]) *)

Module Health.
Import Js Response.

(** [Object.values]: the own property values in property order (the order
    of the field list), the elements of an array, the characters of a
    string, nothing for the other primitives. *)
Fixpoint characters (s : string) : list JsVal :=
  match s with
  | EmptyString => []
  | String c r => JStr (String c EmptyString) :: characters r
  end.

Definition Object_values (v : JsVal) : Completion (list JsVal) :=
  match v with
  | JUndefined | JNull => Throws "TypeError: Cannot convert undefined or null to object"
  | JObj fs => Normal (map snd fs)
  | JArr l => Normal l
  | JStr s => Normal (characters s)
  | _ => Normal []
  end.

(** [check => check.status === 'healthy'] *)
Definition is_healthy (check : JsVal) : Completion bool :=
  st <- get check "status" ;; Normal (is_str st "healthy").

(** [Array.prototype.every]: stops at the first element the test
    rejects. *)
Fixpoint every (test : JsVal -> Completion bool) (l : list JsVal) : Completion bool :=
  match l with
  | [] => Normal true
  | x :: r => b <- test x ;; if b then every test r else Normal false
  end.

(** [health], with [new Date().toISOString()] and [process.uptime()] as
    parameters. *)
Definition health (now : string) (uptime : JsVal) (checks : JsVal) : Completion Response :=
  let checks := default checks (JObj []) in
  values <- Object_values checks ;;
  allHealthy <- every is_healthy values ;;
  let statusCode := if allHealthy then 200 else 503 in
  Normal (mkResponse (JNum statusCode)
            (JObj [("status", JStr (if allHealthy then "healthy" else "unhealthy"));
                   ("timestamp", JStr now);
                   ("uptime", uptime);
                   ("checks", checks)])).

End Health.

(* ================================================================= *)
(** ** Validation utilities ([utils/validation]) *)

Module Validation.
Import Js Errors.

(** A validator returns, raises a [ValidationError], or crashes with a
    [TypeError]. *)
Inductive Outcome (A : Type) : Type :=
| Returns (a : A)
| Raises (e : APIError)
| Crashes (msg : string).
Arguments Returns {A} a.
Arguments Raises {A} e.
Arguments Crashes {A} msg.

Definition and_then {A B} (c : Outcome A) (k : A -> Outcome B) : Outcome B :=
  match c with
  | Returns a => k a
  | Raises e => Raises e
  | Crashes m => Crashes m
  end.

(** What [parseInt] yields: NaN, an integral number, or an infinity (for a
    digit string too long for a finite double). *)
Inductive Parsed : Type :=
| PNaN
| PInt (z : Z)
| PInf (negative : bool).

(** The third argument of [validateStringLength] and [validateArray]; a
    field left out takes its default ([0], [Infinity], [false]). *)
Record LengthOptions : Type := mkOptions {
  minLength : option Z;
  maxLength : option Z;
  required : bool
}.

(** The property names every object inherits from [Object.prototype]; a
    read of one of them does not consult the field list. *)
Definition inherited : list string :=
  ["constructor"; "toString"; "toLocaleString"; "valueOf"; "hasOwnProperty";
   "isPrototypeOf"; "propertyIsEnumerable"; "__proto__"; "__defineGetter__";
   "__defineSetter__"; "__lookupGetter__"; "__lookupSetter__"].

Section Validators.

Variable trace : string.

(** [parseInt], left abstract. *)
Variable parseInt : JsVal -> Parsed.

(** [v === undefined || v === null || v === ''] *)
Definition is_blank (v : JsVal) : bool :=
  match v with
  | JUndefined | JNull => true
  | JStr s => (s =? "")%string
  | _ => false
  end.

(** The [forEach] of [validateRequired]: the fields found blank, in the
    order of [requiredFields]. *)
Fixpoint missing_fields (data : JsVal) (requiredFields : list string)
  : Completion (list string) :=
  match requiredFields with
  | [] => Normal []
  | field :: rest =>
      v <- get data field ;;
      missing <- missing_fields data rest ;;
      Normal (if is_blank v then field :: missing else missing)
  end.

Definition validateRequired (data : JsVal) (requiredFields : list string) : Outcome unit :=
  match missing_fields data requiredFields with
  | Throws msg => Crashes msg
  | Normal missing =>
      if (0 <? Z.of_nat (List.length missing)) then
        Raises (ValidationError trace
                  (JStr ("Missing required fields: " ++ String.concat ", " missing))
                  (JObj [("missingFields", JArr (map JStr missing))]))
      else Returns tt
  end.

Definition validatePagination (page limit : JsVal) : Outcome (Parsed * Parsed) :=
  let pageNum := parseInt page in
  let limitNum := parseInt limit in
  let bad_page := match pageNum with
                  | PNaN => true
                  | PInt p => p <? 1
                  | PInf negative => negative
                  end in
  let bad_limit := match limitNum with
                   | PNaN => true
                   | PInt l => (l <? 1) || (100 <? l)
                   | PInf _ => true
                   end in
  if bad_page then
    Raises (ValidationError trace (JStr "Page must be a positive integer") JUndefined)
  else if bad_limit then
    Raises (ValidationError trace (JStr "Limit must be between 1 and 100") JUndefined)
  else Returns (pageNum, limitNum).

Definition validateEnum (value : JsVal) (allowedValues : list string) (fieldName : string)
  : Outcome unit :=
  let included := match value with
                  | JStr s => existsb (fun a => (a =? s)%string) allowedValues
                  | _ => false
                  end in
  if negb included then
    Raises (ValidationError trace
              (JStr ("Invalid " ++ fieldName ++ ". Allowed values: "
                     ++ String.concat ", " allowedValues))
              JUndefined)
  else Returns tt.

Definition bound_text (b : option Z) : string :=
  match b with Some z => string_of_Z z | None => "Infinity" end.

Definition validateStringLength (str : JsVal) (fieldName : string) (options : LengthOptions)
  : Outcome unit :=
  let min := match minLength options with Some m => m | None => 0 end in
  if negb (truthy str) && required options then
    Raises (ValidationError trace (JStr (fieldName ++ " is required")) JUndefined)
  else if negb (truthy str) then Returns tt
  else
    match str with
    | JStr s =>
        let len := Z.of_nat (string_length s) in
        if len <? min then
          Raises (ValidationError trace
                    (JStr (fieldName ++ " must be at least " ++ string_of_Z min
                           ++ " characters long"))
                    JUndefined)
        else if match maxLength options with Some m => m <? len | None => false end then
          Raises (ValidationError trace
                    (JStr (fieldName ++ " must be at most "
                           ++ bound_text (maxLength options) ++ " characters long"))
                    JUndefined)
        else Returns tt
    | _ =>
        Raises (ValidationError trace (JStr (fieldName ++ " must be a string")) JUndefined)
    end.

Definition validateArray (array : JsVal) (fieldName : string) (options : LengthOptions)
  : Outcome unit :=
  let min := match minLength options with Some m => m | None => 0 end in
  if negb (truthy array) && required options then
    Raises (ValidationError trace (JStr (fieldName ++ " is required")) JUndefined)
  else if negb (truthy array) then Returns tt
  else
    match array with
    | JArr items =>
        let len := Z.of_nat (List.length items) in
        if len <? min then
          Raises (ValidationError trace
                    (JStr (fieldName ++ " must have at least " ++ string_of_Z min
                           ++ " items"))
                    JUndefined)
        else if match maxLength options with Some m => m <? len | None => false end then
          Raises (ValidationError trace
                    (JStr (fieldName ++ " must have at most "
                           ++ bound_text (maxLength options) ++ " items"))
                    JUndefined)
        else Returns tt
    | _ =>
        Raises (ValidationError trace (JStr (fieldName ++ " must be an array")) JUndefined)
    end.

(** [validationSchemas.createComment] *)
Definition createComment (body : JsVal) : Outcome unit :=
  and_then (validateRequired body ["content"]) (fun _ =>
  match get body "content" with
  | Throws msg => Crashes msg
  | Normal content =>
      validateStringLength content "content" (mkOptions (Some 1) (Some 1000) false)
  end).

(** [validationSchemas.pagination] *)
Definition pagination (query : JsVal) : Outcome (Parsed * Parsed) :=
  match get query "page", get query "limit" with
  | Normal page, Normal limit =>
      if truthy page || truthy limit then
        validatePagination (or_else page (JNum 1)) (or_else limit (JNum 10))
      else Returns (PInt 1, PInt 10)
  | Throws msg, _ => Crashes msg
  | _, Throws msg => Crashes msg
  end.

End Validators.

End Validation.

(* ================================================================= *)
(** ** Further routes of [routes/reactions.js], [routes/follows.js] and
       [routes/messages.js] *)

Module ReactionQueries.
Import Js Response Prisma Route Reactions.
Local Open Scope db_scope.

(** [DELETE /api/reactions] *)
Definition delete_reaction (req : Body) : Store -> Response * Store * list Store :=
  try_catch
    (if negb (present (postId req)) || negb (present (userId req))
        || negb (present (type req)) then
       ret (json 400 (error_body "Post ID, user ID, and reaction type are required"))
     else
       reaction_delete (value (postId req)) (value (userId req)) (value (type req)) ;;
       ret (json 204 JUndefined))
    (fun error =>
       if has_code error "P2025" then
         json 404 (error_body "Reaction not found")
       else json 500 (error_body "Failed to delete reaction")).

(** [GET /api/reactions/check]; a [Date] is truthy whatever its instant. *)
Definition check_reaction (postId userId : option string)
  : Store -> Response * Store * list Store :=
  try_catch
    (if negb (present postId) || negb (present userId) then
       ret (json 400 (error_body "Post ID and user ID are required"))
     else
       reaction <- reaction_findFirst (value postId) (value userId) ;;
       ret (json 200
              (JObj [("hasReacted",
                      JBool (match reaction with Some _ => true | None => false end));
                     ("reactionType",
                      match reaction with
                      | Some r => or_else (JStr (Reaction.type r)) JNull
                      | None => JNull
                      end);
                     ("reactedAt",
                      match reaction with
                      | Some r => JNum (Reaction.createdAt r)
                      | None => JNull
                      end)])))
    (fun _ => json 500 (error_body "Failed to check reaction")).

End ReactionQueries.

Module FollowQueries.
Import Js Response Prisma Route Follows.
Local Open Scope db_scope.

(** [GET /api/follows/check] *)
Definition check_follow (followerId followeeId : option string)
  : Store -> Response * Store * list Store :=
  try_catch
    (if negb (present followerId) || negb (present followeeId) then
       ret (json 400 (error_body "Follower ID and followee ID are required"))
     else
       follow <- follow_findUnique (value followerId) (value followeeId) ;;
       ret (json 200
              (JObj [("isFollowing",
                      JBool (match follow with Some _ => true | None => false end));
                     ("followedAt",
                      match follow with
                      | Some f => JNum (Follow.createdAt f)
                      | None => JNull
                      end)])))
    (fun _ => json 500 (error_body "Failed to check follow status")).

(** [GET /api/follows/mutual/:userId1/:userId2] *)
Definition mutual_follow (userId1 userId2 : string)
  : Store -> Response * Store * list Store :=
  try_catch
    (user1FollowsUser2 <- follow_findUnique userId1 userId2 ;;
     user2FollowsUser1 <- follow_findUnique userId2 userId1 ;;
     let a := match user1FollowsUser2 with Some _ => true | None => false end in
     let b := match user2FollowsUser1 with Some _ => true | None => false end in
     ret (json 200 (JObj [("user1FollowsUser2", JBool a);
                          ("user2FollowsUser1", JBool b);
                          ("mutualFollow", JBool (a && b))])))
    (fun _ => json 500 (error_body "Failed to check mutual follow")).

(** [follow.count({ where })] *)
Definition follow_count (where_ : Follow.t -> bool) : DB Z :=
  read (fun s => Z.of_nat (List.length (filter where_ (follows s)))).

(** [GET /api/follows/stats/:userId] *)
Definition follow_stats (userId : string) : Store -> Response * Store * list Store :=
  try_catch
    (followersCount <- follow_count (fun f => (Follow.followeeId f =? userId)%string) ;;
     followingCount <- follow_count (fun f => (Follow.followerId f =? userId)%string) ;;
     ret (json 200 (JObj [("followers", JNum followersCount);
                          ("following", JNum followingCount)])))
    (fun _ => json 500 (error_body "Failed to fetch follow stats")).

End FollowQueries.

Module MessageQueries.
Import Js Response Prisma Route Messages.
Local Open Scope db_scope.

(** [message.count({ where })] *)
Definition message_count (where_ : Message.t -> bool) : DB Z :=
  read (fun s => Z.of_nat (List.length (filter where_ (messages s)))).

(** [GET /api/messages/chat/:chatId/unread-count] *)
Definition unread_count (chatId : string) (userId : option string)
  : Store -> Response * Store * list Store :=
  try_catch
    (if negb (present userId) then
       ret (json 400 (error_body "User ID is required"))
     else
       let userId := value userId in
       isMember <- chatMember_findUnique userId chatId ;;
       match isMember with
       | None => ret (json 403 (error_body "Access denied"))
       | Some _ =>
           unreadCount <- message_count (unread_from_others chatId userId) ;;
           ret (json 200 (JObj [("unreadCount", JNum unreadCount)]))
       end)
    (fun _ => json 500 (error_body "Failed to fetch unread count")).

Definition set_body (text : string) (m : Message.t) : Message.t :=
  Message.mk (Message.id m) (Message.senderId m) (Message.chatId m) text
             (Message.createdAt m) (Message.deliveredAt m) (Message.readAt m).

(** [DELETE /api/messages/:id] *)
Definition delete_message (id : string) (userId : option string)
  : Store -> Response * Store * list Store :=
  try_catch
    (if negb (present userId) then
       ret (json 400 (error_body "User ID is required"))
     else
       let userId := value userId in
       message <- message_findUnique id ;;
       match message with
       | None => ret (json 404 (error_body "Message not found"))
       | Some message =>
           if negb (Message.senderId message =? userId)%string then
             ret (json 403 (error_body "Can only delete your own messages"))
           else
             message_update id (set_body "[Message deleted]") ;;
             ret (json 204 JUndefined)
       end)
    (fun _ => json 500 (error_body "Failed to delete message")).

End MessageQueries.

(* ================================================================= *)
(** ** Shapes of inputs and further samples *)

Module Shapes.
Import Js Errors.

(** Neither [null] nor [undefined]. *)
Definition defined (v : JsVal) : bool :=
  match v with JUndefined | JNull => false | _ => true end.

(** An entry of a Joi [details] array the transformer can read: an object
    whose [path] is an array. *)
Definition joi_entry_ok (d : JsVal) : bool :=
  match d with
  | JObj fs => match assoc "path" fs with JArr _ => true | _ => false end
  | _ => false
  end.

(** The [details] or [errors] array the validation-library rule would
    walk has only readable entries. *)
Definition validation_shape_ok (v : JsVal) : bool :=
  match get_opt v "details" with
  | JArr ds => forallb joi_entry_ok ds
  | _ => match get_opt v "errors" with
         | JArr es => forallb defined es
         | _ => true
         end
  end.

(** The codes [transformPrismaError] has a case for. *)
Definition handled_codes : list string :=
  ["P2002"; "P2025"; "P2003"; "P2014"; "P2016"; "P2020"; "P2021"; "P2024"].

(** A check of the health endpoint reports healthy. *)
Definition reports_healthy (check : JsVal) : bool :=
  is_str (get_opt check "status") "healthy".

(** A message did not move backward from [m] to [m']: same identity,
    a delivery time once set stays set, a read time once set stays the
    same. *)
Definition forward (m m' : Message.t) : Prop :=
  Message.id m' = Message.id m
  /\ Message.senderId m' = Message.senderId m
  /\ Message.chatId m' = Message.chatId m
  /\ Message.createdAt m' = Message.createdAt m
  /\ (Message.deliveredAt m <> None -> Message.deliveredAt m' <> None)
  /\ (forall r, Message.readAt m = Some r -> Message.readAt m' = Some r).

(** Every read message of the store has a delivery time. *)
Definition read_means_delivered (s : Prisma.Store) : Prop :=
  forall m, In m (Prisma.messages s) ->
    Message.readAt m <> None -> Message.deliveredAt m <> None.

(** A [parseInt] that reads numbers and nothing else, for examples. *)
Definition parse_numbers (v : JsVal) : Validation.Parsed :=
  match v with
  | JNum z => Validation.PInt z
  | _ => Validation.PNaN
  end.

(** An error object carrying [isOperational: false], as a caller of
    [sendErrorProd] may pass. *)
Definition programming_error (msg stack_text : string) : APIError :=
  mkAPIError "Error" msg (JNum 500) JUndefined JUndefined false stack_text
             JUndefined JUndefined.

(** The error [e] as it would be had its constructor run at the call site
    whose stack is [trace]: only [stack] differs. *)
Definition captured_at (trace : string) (e : APIError) : APIError :=
  mkAPIError (name e) (message e) (statusCode e) (code e) (details e)
             (isOperational e) trace (originalError e) (service e).

Definition relocated (trace : string) (c : Completion APIError) : Completion APIError :=
  match c with
  | Normal e => Normal (captured_at trace e)
  | Throws msg => Throws msg
  end.

(** A Prisma unique-constraint error on two columns. *)
Definition unique_violation : JsVal :=
  JObj [("code", JStr "P2002");
        ("meta", JObj [("target", JArr [JStr "email"; JStr "username"])])].

(** A Joi error with two readable entries. *)
Definition joi_error : JsVal :=
  JObj [("isJoi", JBool true);
        ("details",
         JArr [JObj [("path", JArr [JStr "user"; JStr "email"]);
                     ("message", JStr "email is required")];
               JObj [("path", JArr [JStr "age"]);
                     ("message", JStr "age must be a number");
                     ("context", JObj [("value", JStr "x")])]])].

End Shapes.

(* ================================================================= *)
(** * Properties *)

(** ** The error transformer *)

Module ErrorFacts.
Import Js Errors Samples.

(** The guard of the Prisma rule evaluates to [false] on exactly the
    objects and primitives whose [code] is falsy or a string that does not
    start with P. *)
Lemma isPrismaError_false (v : JsVal) :
  isPrismaError v = Normal false ->
  exists c, get v "code" = Normal c /\
            (truthy c = false \/ exists s, c = JStr s /\ prefix "P" s = false).
Proof.
  unfold isPrismaError.
  destruct (get v "code") as [c|m] eqn:Hc; simpl; [|discriminate].
  intros H. exists c. split; [reflexivity|].
  destruct (truthy c) eqn:Ht; [right|left; reflexivity].
  destruct c; simpl in H; try discriminate.
  exists s. split; [reflexivity|]. now injection H.
Qed.

(** A property read succeeds on everything but [null] and [undefined];
    once one read succeeded, so does every other. *)
Lemma get_total (v : JsVal) (k k' : string) (x : JsVal) :
  get v k = Normal x -> exists y, get v k' = Normal y.
Proof.
  destruct v; simpl; intros H; try discriminate; eauto.
Qed.

Lemma truthy_get (x : JsVal) (k : string) :
  truthy x = true -> exists y, get x k = Normal y.
Proof.
  destruct x; simpl; intros H; try discriminate; eauto.
Qed.

Lemma transformPrismaError_returns (trace : string) (v c : JsVal) :
  get v "code" = Normal c ->
  exists e, transformPrismaError trace v = Normal e.
Proof.
  intros Hc. unfold transformPrismaError. rewrite Hc. simpl.
  destruct (get_total v "code" "meta" c Hc) as (m & ->). simpl.
  destruct (get_total v "code" "message" c Hc) as (msg & ->).
  assert (Hmeta : forall k, exists y, get (or_else m (JObj [])) k = Normal y).
  { intros k. unfold or_else. destruct (truthy m) eqn:Hm; [now apply truthy_get|].
    simpl. eauto. }
  destruct (Hmeta "target") as (t & ->).
  destruct (Hmeta "field_name") as (f & ->). simpl.
  repeat match goal with
         | |- context [if ?b then _ else _] => destruct b
         end; eauto.
Qed.

(** Where the transformer does return: on everything but [null] and
    [undefined] whose [code] is falsy or a string, as long as the
    validation-library rule is not the one that fires. *)
Lemma transformError_returns (trace : string) (v c : JsVal) :
  get v "code" = Normal c ->
  (truthy c = false \/ exists s, c = JStr s) ->
  isValidationLibError v = Normal false ->
  exists e, transformError trace (ThrownVal v) = Normal e.
Proof.
  intros Hc Hcode Hval.
  assert (Hget : forall k, exists y, get v k = Normal y)
    by (intros k; exact (get_total v "code" k c Hc)).
  assert (Hp : exists b, isPrismaError v = Normal b).
  { unfold isPrismaError. rewrite Hc. simpl.
    destruct Hcode as [->|(s & ->)]; [eauto|].
    simpl. destruct (negb (s =? "")%string); eauto. }
  destruct Hp as (b & Hp). unfold transformError. rewrite Hp. simpl.
  destruct b; [exact (transformPrismaError_returns trace v c Hc)|].
  unfold isClerkError, isCloudinaryError, isMongoError,
    transformClerkError, transformCloudinaryError.
  rewrite Hval.
  destruct (Hget "clerkError") as (x1 & ->).
  destruct (Hget "status") as (x2 & ->).
  destruct (Hget "message") as (x3 & ->).
  destruct (Hget "http_code") as (x4 & ->).
  destruct (Hget "name") as (x5 & ->). simpl.
  repeat match goal with
         | |- context [if ?b then _ else _] => destruct b; simpl
         end; eauto.
Qed.

(** C1.  [transformError] is not total: it throws a [TypeError] on [null]
    and on [undefined] (the first property read fails), and on an error
    object whose [code] is a number, such as a MongoDB driver error, because
    the Prisma guard calls [startsWith] on it before the MongoDB rule is
    reached. *)
Theorem transformError_throws (trace : string) :
  transformError trace (ThrownVal JNull)
    = Throws "TypeError: Cannot read properties of null (reading 'code')"
  /\ transformError trace (ThrownVal JUndefined)
    = Throws "TypeError: Cannot read properties of undefined (reading 'code')"
  /\ transformError trace (ThrownVal mongo_duplicate_key)
    = Throws "TypeError: error.code.startsWith is not a function".
Proof. repeat split. Qed.

(** The claim of C2 fails on a plain error carrying a message, which no
    rule recognizes: the transformer keeps that message as the caller-facing
    one instead of the generic text, and the result is marked operational. *)
Lemma transformError_generic_keeps_message :
  let v := JObj [("message", JStr "boom")] in
  isPrismaError v = Normal false
  /\ isClerkError v = Normal false
  /\ isCloudinaryError v = Normal false
  /\ isValidationLibError v = Normal false
  /\ exists e,
       transformError "" (ThrownVal v) = Normal e
       /\ statusCode e = JNum 500
       /\ code e = JStr "INTERNAL_ERROR"
       /\ message e = "boom"
       /\ message e <> generic_message
       /\ isOperational e = true.
Proof.
  cbv zeta. repeat split.
  eexists. split; [reflexivity|]. repeat split. discriminate.
Qed.

(** C2, as the code has it.  When no rule matches (the Prisma, Clerk,
    Cloudinary, validation-library and MongoDB guards are all false), the
    result is an [APIError] with status 500 and code INTERNAL_ERROR and no
    details, whose message is the input's own message when that is truthy
    and the generic one otherwise. *)
Theorem transformError_generic (trace : string) (v : JsVal) :
  isPrismaError v = Normal false ->
  isClerkError v = Normal false ->
  isCloudinaryError v = Normal false ->
  isValidationLibError v = Normal false ->
  isMongoError v = Normal false ->
  exists (msg : JsVal) (e : APIError),
    get v "message" = Normal msg
    /\ transformError trace (ThrownVal v) = Normal e
    /\ name e = "APIError"
    /\ statusCode e = JNum 500
    /\ code e = JStr "INTERNAL_ERROR"
    /\ details e = JNull
    /\ message e = (if truthy msg then to_string msg else generic_message).
Proof.
  intros Hp Hc Hcl Hv Hm.
  destruct (isPrismaError_false v Hp) as (c & Hcode & _).
  destruct (get_total v "code" "message" c Hcode) as (msg & Hmsg).
  exists msg.
  unfold transformError. rewrite Hp, Hc, Hcl, Hv, Hm. simpl. rewrite Hmsg. simpl.
  eexists. split; [reflexivity|]. split; [reflexivity|].
  repeat split.
  unfold or_else. destruct (truthy msg) eqn:Ht; [|reflexivity].
  destruct msg; simpl in *; try discriminate; reflexivity.
Qed.

Lemma transformError_generic_witness :
  exists (msg : JsVal) (e : APIError),
    get (JObj [("message", JStr "boom")]) "message" = Normal msg
    /\ transformError "" (ThrownVal (JObj [("message", JStr "boom")])) = Normal e
    /\ name e = "APIError"
    /\ statusCode e = JNum 500
    /\ code e = JStr "INTERNAL_ERROR"
    /\ details e = JNull
    /\ message e = (if truthy msg then to_string msg else generic_message).
Proof.
  apply (transformError_generic "" (JObj [("message", JStr "boom")])); reflexivity.
Defined.

(** C10.  The precedence of the Clerk rule does not reach every input
    whose [code] does not start with P: on an error with a truthy [status],
    a truthy [message] and a numeric [code], the Clerk guard holds and the
    Clerk mapper would give an [AuthenticationError], but [transformError]
    throws a [TypeError] in the Prisma guard before it, as it does on the
    MongoDB error of C1. *)
Theorem transformError_numeric_code_skips_clerk (trace : string) :
  get unauthorized_with_numeric_code "code" = Normal (JNum 401)
  /\ isClerkError unauthorized_with_numeric_code = Normal true
  /\ transformClerkError trace unauthorized_with_numeric_code
     = Normal (AuthenticationError trace (JStr "Unauthorized"))
  /\ transformError trace (ThrownVal unauthorized_with_numeric_code)
     = Throws "TypeError: error.code.startsWith is not a function".
Proof. repeat split. Qed.

(** X27.  Where the Prisma guard does return [false] (the [code] is falsy,
    or a string that does not start with P), an input with a truthy [status] and a
    truthy [message] is handled by the Clerk rule whatever else it carries:
    status 401 gives an [AuthenticationError], 403 an [AuthorizationError],
    any other status a plain [APIError] with that status and no code; the
    message is the input's.  The validation-library rule is never
    consulted. *)
Lemma transformError_clerk_precedence (trace : string) (v status msg : JsVal) :
  isPrismaError v = Normal false ->
  get v "status" = Normal status -> truthy status = true ->
  get v "message" = Normal msg -> truthy msg = true ->
  transformError trace (ThrownVal v) = transformClerkError trace v
  /\ exists e,
       transformError trace (ThrownVal v) = Normal e
       /\ message e = to_string msg
       /\ isOperational e = true
       /\ (status = JNum 401 ->
           e = AuthenticationError trace msg
           /\ statusCode e = JNum 401 /\ code e = JStr "AUTHENTICATION_ERROR")
       /\ (status = JNum 403 ->
           e = AuthorizationError trace msg
           /\ statusCode e = JNum 403 /\ code e = JStr "AUTHORIZATION_ERROR")
       /\ (status <> JNum 401 -> status <> JNum 403 ->
           name e = "APIError" /\ statusCode e = status /\ code e = JNull).
Proof.
  intros Hp Hs Hst Hm Hmt.
  assert (Hclerk : isClerkError v = Normal true).
  { unfold isClerkError.
    destruct (get_total v "status" "clerkError" status Hs) as (c & ->). simpl.
    destruct (truthy c); [reflexivity|].
    rewrite Hs. simpl. rewrite Hst, Hm. simpl. now rewrite Hmt. }
  assert (Hmsg : error_message msg = to_string msg).
  { destruct msg; simpl in *; try discriminate; reflexivity. }
  assert (Hdm : forall d, default msg d = msg).
  { intros d. destruct msg; simpl in *; try discriminate; reflexivity. }
  unfold transformError. rewrite Hp, Hclerk. simpl. split; [reflexivity|].
  unfold transformClerkError. rewrite Hs, Hm. simpl.
  destruct (is_num status 401) eqn:H401.
  { destruct status; simpl in H401; try discriminate.
    apply Z.eqb_eq in H401. subst z.
    eexists. split; [reflexivity|].
    split; [simpl; now rewrite Hdm|].
    split; [reflexivity|].
    split; [intros _; repeat split|].
    split; [discriminate|]. intros H; now elim H. }
  destruct (is_num status 403) eqn:H403.
  { destruct status; simpl in H403; try discriminate.
    apply Z.eqb_eq in H403. subst z.
    eexists. split; [reflexivity|].
    split; [simpl; now rewrite Hdm|].
    split; [reflexivity|].
    split; [discriminate|].
    split; [intros _; repeat split|]. intros _ H; now elim H. }
  eexists. split; [reflexivity|].
  split; [exact Hmsg|].
  split; [reflexivity|].
  split; [intros ->; simpl in H401; discriminate|].
  split; [intros ->; simpl in H403; discriminate|].
  intros _ _. split; [reflexivity|]. split; [|reflexivity].
  simpl. unfold or_else. rewrite Hst.
  destruct status; simpl in *; try discriminate; reflexivity.
Qed.

Lemma transformError_clerk_precedence_witness :
  transformError "" (ThrownVal joi_with_status) = transformClerkError "" joi_with_status
  /\ exists e,
       transformError "" (ThrownVal joi_with_status) = Normal e
       /\ message e = "email is required"
       /\ statusCode e = JNum 422
       /\ code e = JNull.
Proof.
  destruct (transformError_clerk_precedence "" joi_with_status (JNum 422)
              (JStr "email is required")
              eq_refl eq_refl eq_refl eq_refl eq_refl)
    as (H & e & He & Hm & _ & _ & _ & Hother).
  split; [exact H|].
  exists e. split; [exact He|]. split; [exact Hm|].
  destruct Hother as (_ & Hs & Hc); [discriminate|discriminate|].
  split; assumption.
Defined.

End ErrorFacts.

(** ** Response envelopes *)

Module ResponseFacts.
Import Js Errors Response ErrorHandler Envelope Samples.

(** [magnitude] does not overshoot, and stays within one of the
    difference of the operands' bit lengths. *)
Lemma magnitude_below (n d : Z) :
  0 < n -> 0 < d ->
  (0 <= magnitude n d -> d * 2 ^ magnitude n d <= n)
  /\ (magnitude n d < 0 -> d <= n * 2 ^ (- magnitude n d))
  /\ Z.log2 n - Z.log2 d - 1 <= magnitude n d.
Proof.
  intros Hn Hd. unfold magnitude. cbv zeta.
  pose proof (Z.log2_spec n Hn) as [Hn1 Hn2].
  pose proof (Z.log2_spec d Hd) as [Hd1 Hd2].
  pose proof (Z.log2_nonneg n) as Hln.
  pose proof (Z.log2_nonneg d) as Hld.
  set (ln := Z.log2 n) in *. set (ld := Z.log2 d) in *. clearbody ln ld.
  destruct (Z.leb_spec 0 (ln - ld)) as [Hk|Hk].
  - destruct (Z.leb_spec (d * 2 ^ (ln - ld)) n) as [Ht|Ht].
    + split; [intros _; exact Ht|]. split; [intros H; exfalso; clear - H Hk; lia|clear; lia].
    + split; [|split; [|clear; lia]].
      * intros Hk'.
        assert (E : 2 ^ ln = 2 ^ (ld + 1) * 2 ^ (ln - ld - 1)).
        { rewrite <- Z.pow_add_r by lia. f_equal. lia. }
        assert (0 < 2 ^ (ln - ld - 1)) by (apply Z.pow_pos_nonneg; lia).
        nia.
      * intros Hk'. assert (ln = ld) as -> by lia.
        replace (- (ld - ld - 1)) with 1 by lia.
        replace (Z.succ ld) with (ld + 1) in Hd2 by lia.
        rewrite Z.pow_add_r in Hd2 by lia. lia.
  - destruct (Z.leb_spec d (n * 2 ^ (- (ln - ld)))) as [Ht|Ht].
    + split; [intros H; exfalso; clear - H Hk; lia|]. split; [intros _; exact Ht|clear; lia].
    + split; [intros H; exfalso; clear - H Hk; lia|]. split; [|clear; lia].
      intros _.
      assert (E : 2 ^ (ld + 1) = 2 ^ ln * 2 ^ (- (ln - ld - 1))).
      { rewrite <- Z.pow_add_r by lia. f_equal. lia. }
      assert (0 < 2 ^ (- (ln - ld - 1))) by (apply Z.pow_pos_nonneg; lia).
      nia.
Qed.

(** Rounding to nearest never crosses an integer bound from below, and
    rounds up past [c] once more than half a unit lies above it. *)
Lemma nearest_even_bounds (n d : Z) :
  0 <= n -> 0 < d ->
  let m := nearest_even n d in
  (forall c, n <= c * d -> m <= c)
  /\ (forall c p, c * d + p <= n -> d < 2 * p -> c < m).
Proof.
  intros Hn Hd m. unfold m, nearest_even.
  pose proof (Z.div_mod n d ltac:(lia)) as E.
  pose proof (Z.mod_pos_bound n d Hd) as Hr.
  set (q := n / d) in *. set (r := n mod d) in *.
  split.
  - intros c Hc.
    destruct (Z.ltb_spec (2 * r) d); [nia|].
    destruct (Z.ltb_spec d (2 * r)); [nia|].
    destruct (Z.even q); nia.
  - intros c p Hc Hp.
    destruct (Z.ltb_spec (2 * r) d); [nia|].
    destruct (Z.ltb_spec d (2 * r)); [nia|].
    destruct (Z.even q); nia.
Qed.

Lemma Qceiling_scaled (m e : Z) :
  e <= 0 -> Qceiling (scaled m e) = - ((- m) / 2 ^ (- e)).
Proof.
  intros He. unfold scaled.
  destruct (Z.leb_spec 0 e) as [H|H].
  - assert (e = 0) as -> by lia. simpl. rewrite Qceiling_Z.
    rewrite Z.mul_1_r, Z.div_1_r. lia.
  - assert (Hp : 0 < 2 ^ (- e)) by (apply Z.pow_pos_nonneg; lia).
    unfold Qceiling, Qfloor, Qopp. simpl.
    rewrite Z2Pos.id by exact Hp. reflexivity.
Qed.


(** Below [2 ^ 53] the quotient is a normal double [m * 2 ^ (- s)] whose
    significand is within half a unit of [a * 2 ^ s / b], with [b] less than
    two units. *)
Lemma binary64_safe (a b : Z) :
  0 < a < 2 ^ 53 -> 0 < b < 2 ^ 53 ->
  exists m s : Z,
    0 <= s /\ binary64 a b = Some (scaled m (- s))
    /\ (forall c, a <= c * b -> m <= c * 2 ^ s)
    /\ (forall c, c * b < a -> c * 2 ^ s < m).
Proof.
  intros Ha Hb.
  destruct (magnitude_below a b) as (Hk1 & Hk2 & Hk3); [lia|lia|].
  assert (Hlb : Z.log2 b < 53) by (apply Z.log2_lt_pow2; lia).
  pose proof (Z.log2_nonneg a) as Hla.
  unfold binary64.
  set (k := magnitude a b) in *.
  assert (Hk52 : k <= 52).
  { destruct (Z.le_gt_cases k 52) as [H|H]; [exact H|exfalso].
    assert (0 <= k) as Hk0 by lia. specialize (Hk1 Hk0).
    assert (2 ^ 53 <= 2 ^ k) by (apply Z.pow_le_mono_r; lia).
    nia. }
  assert (Hlow : -53 <= k) by lia.
  replace (Z.max (k - 52) (-1074)) with (- (52 - k)) by lia.
  set (s := 52 - k).
  assert (Hs : 0 <= s) by (unfold s; lia).
  replace (Z.max 0 (- - s)) with s by lia.
  replace (Z.max 0 (- s)) with 0 by lia.
  rewrite Z.pow_0_r, Z.mul_1_r.
  assert (Hp : 0 < 2 ^ s) by (apply Z.pow_pos_nonneg; lia).
  assert (Hwide : b < 2 * 2 ^ s).
  { destruct (Z.le_gt_cases 0 k) as [Hk0|Hk0].
    - specialize (Hk1 Hk0).
      assert (E : 2 ^ 53 = 2 * 2 ^ s * 2 ^ k).
      { change 2 with (2 ^ 1) at 2. rewrite <- !Z.pow_add_r by lia.
        f_equal. unfold s. lia. }
      assert (0 < 2 ^ k) by (apply Z.pow_pos_nonneg; lia).
      clearbody s. nia.
    - specialize (Hk2 Hk0).
      assert (E : 2 * 2 ^ s = 2 ^ 53 * 2 ^ (- k)).
      { change 2 with (2 ^ 1) at 1. rewrite <- !Z.pow_add_r by lia.
        f_equal. unfold s. lia. }
      assert (0 < 2 ^ (- k)) by (apply Z.pow_pos_nonneg; lia).
      clearbody s. nia. }
  destruct (nearest_even_bounds (a * 2 ^ s) b) as (Hup & Hdown); [nia|lia|].
  set (m := nearest_even (a * 2 ^ s) b) in *.
  exists m, s. split; [exact Hs|].
  assert (Hm : m <= a * 2 ^ s) by (apply Hup; nia).
  assert (Hfit : (1024 <=? Z.log2 m + - s) = false).
  { apply Z.leb_gt.
    assert (Z.log2 m < 1024); [|lia].
    destruct (Z.le_gt_cases m 0) as [H0|H0].
    - rewrite Z.log2_nonpos by exact H0. lia.
    - apply Z.log2_lt_pow2; [exact H0|].
      assert (2 ^ s <= 2 ^ 105) by (apply Z.pow_le_mono_r; unfold s; lia).
      assert (2 ^ 53 * 2 ^ 105 < 2 ^ 1024) by (vm_compute; reflexivity).
      nia. }
  rewrite Hfit. split; [reflexivity|].
  split.
  - intros c Hc. apply Hup. nia.
  - intros c Hc. apply (Hdown (c * 2 ^ s) (2 ^ s)); nia.
Qed.

(** On the integers a double holds exactly, the ceiling of the rounded
    quotient is the ceiling of the exact one: the least [c] with
    [a <= c * b]. *)
Lemma Math_ceil_divide (a b : Z) :
  0 <= a < 2 ^ 53 -> 0 < b < 2 ^ 53 ->
  exists c, Math_ceil (divide a b) = JNum c /\ (c - 1) * b < a <= c * b.
Proof.
  intros Ha Hb. unfold divide.
  destruct (Z.eqb_spec b 0) as [->|_]; [lia|].
  destruct (Z.eqb_spec a 0) as [->|Ha0].
  { exists 0. split; [reflexivity|lia]. }
  rewrite !Z.abs_eq by lia.
  destruct (binary64_safe a b) as (m & s & Hs & -> & Hup & Hdown); [lia|lia|].
  assert (Hsign : Bool.eqb (a <? 0) (b <? 0) = true).
  { rewrite (proj2 (Z.ltb_ge a 0)), (proj2 (Z.ltb_ge b 0)) by lia. reflexivity. }
  rewrite Hsign. simpl. rewrite Qceiling_scaled by lia.
  rewrite Z.opp_involutive.
  assert (Hp : 0 < 2 ^ s) by (apply Z.pow_pos_nonneg; lia).
  set (c := - (- m / 2 ^ s)).
  assert (Hc : (c - 1) * 2 ^ s < m <= c * 2 ^ s).
  { unfold c. pose proof (Z.div_mod (- m) (2 ^ s) ltac:(lia)).
    pose proof (Z.mod_pos_bound (- m) (2 ^ s) Hp). nia. }
  exists c. split; [reflexivity|].
  split.
  - destruct (Z.lt_ge_cases ((c - 1) * b) a) as [H|H]; [exact H|exfalso].
    specialize (Hup (c - 1) H). lia.
  - destruct (Z.le_gt_cases a (c * b)) as [H|H]; [exact H|exfalso].
    specialize (Hdown c H). lia.
Qed.

(** The rounding agrees with the Standard Library's binary64 division on
    quotients of every kind: exact, inexact, halfway, beyond [2 ^ 53],
    subnormal, signed, and by zero. *)
Lemma divide_agrees_with_SFdiv :
  forallb (fun p => same_quotient (divide (fst p) (snd p)) (SFdivide (fst p) (snd p)))
    [(95, 20); (100, 20); (1, 3); (2, 3); (1, 10); (7, -2); (-7, 2); (-9, -3);
     (0, 5); (5, 0); (-5, 0); (0, 0);
     (10 ^ 22, 3); (2 ^ 53 - 1, 3); (2 ^ 53 - 1, 2 ^ 53 - 2); (1, 2 ^ 53 - 1);
     (2 ^ 53 + 2, 4); (2 ^ 54 + 4, 8); (2 ^ 60, 3);
     (3, 2 ^ 1023); (1, 2 ^ 1023); (5, 3 * 2 ^ 1000); (2 ^ 1023, 1)]
  = true.
Proof. vm_compute. reflexivity. Qed.

(** Beyond [2 ^ 53] the rounding shows: a third of [10 ^ 22] has the
    ceiling 3333333333333333508096. *)
Lemma Math_ceil_beyond_safe :
  Math_ceil (divide (10 ^ 22) 3) = JNum 3333333333333333508096.
Proof. vm_compute. reflexivity. Qed.

(** C9.  For positive [page], [limit] and [total], with [limit] and [total]
    below [2 ^ 53] (the integers a double holds exactly), the pagination
    block of [paginated] holds [pages = ceil(total / limit)], that is the one
    integer [n] with [(n - 1) * limit < total <= n * limit], together with
    [hasNext = (page < pages)] and [hasPrev = (page > 1)]. *)
Theorem pagination_math (now : string) (data message : JsVal) (page limit total : Z) :
  0 < page -> 0 < limit < 2 ^ 53 -> 0 < total < 2 ^ 53 ->
  let p := mkPagination page limit total in
  exists n : Z,
    pages p = JNum n
    /\ (n - 1) * limit < total <= n * limit
    /\ hasNext p = (page <? n)
    /\ hasPrev p = (1 <? page)
    /\ get_opt (body (paginated now data p message)) "pagination"
       = JObj [("page", JNum page); ("limit", JNum limit); ("total", JNum total);
               ("pages", JNum n);
               ("hasNext", JBool (page <? n));
               ("hasPrev", JBool (1 <? page))].
Proof.
  intros Hpage Hlimit Htotal p.
  destruct (Math_ceil_divide total limit) as (n & Hn & Hbounds); [lia|lia|].
  exists n.
  assert (Hpages : pages p = JNum n) by exact Hn.
  split; [exact Hpages|].
  split; [exact Hbounds|].
  assert (Hnext : hasNext p = (page <? n)).
  { unfold hasNext. rewrite Hpages. reflexivity. }
  split; [exact Hnext|].
  split; [reflexivity|].
  unfold paginated. cbn [body get_opt]. simpl assoc.
  rewrite Hnext, Hpages. reflexivity.
Qed.

(** The worked example: 95 rows in pages of 20 make 5 pages; page 5 has no
    next page and page 1 no previous one. *)
Lemma pagination_math_witness :
  pages (mkPagination 5 20 95) = JNum 5
  /\ hasNext (mkPagination 5 20 95) = false
  /\ hasPrev (mkPagination 1 20 95) = false.
Proof.
  split; [reflexivity|]. split; [|reflexivity].
  destruct (pagination_math "" JNull JUndefined 5 20 95) as (n & Hn & Hb & Hnext & _);
    [lia|lia|lia|].
  assert (n = 5) by lia. subst n. exact Hnext.
Defined.

(** The claim of C3 fails on the no-content builder, whose body has neither
    [data] nor [error], and on both renderings of the error middleware,
    whose bodies have no [timestamp]. *)
Lemma envelope_exclusivity_fails :
  exactly_one_of_data_error (noContent "2024-05-01T10:00:00.000Z" JUndefined) = false
  /\ carries "timestamp" (sendErrorDev post_not_found) = false
  /\ carries "timestamp" (sendErrorProd post_not_found) = false.
Proof. repeat split. Qed.

(** C3, as the code has it.  The data-carrying builders send a timestamp,
    no [error], and [data] whenever the data given is not [undefined]; the
    error builders send a timestamp, [error] and no [data]; the no-content
    builder sends a timestamp and neither [data] nor [error]; both
    renderings of the error middleware send [error] and no [data]. *)
Theorem envelope_shapes (now : string) :
  (forall data message statusCode,
     let r := success now data message statusCode in
     carries "timestamp" r = true /\ carries "error" r = false
     /\ carries "data" r = negb (is_undefined data))
  /\ (forall data message,
      let r := created now data message in
      carries "timestamp" r = true /\ carries "error" r = false
      /\ carries "data" r = negb (is_undefined data))
  /\ (forall data pagination message,
      let r := paginated now data pagination message in
      carries "timestamp" r = true /\ carries "error" r = false
      /\ carries "data" r = negb (is_undefined data))
  /\ (forall statusCode data message,
      let r := custom now statusCode data message in
      carries "timestamp" r = true
      /\ carries "error" r = negb (is_2xx statusCode)
      /\ carries "data" r = is_2xx statusCode && negb (is_undefined data))
  /\ (forall message statusCode code details errors resource,
      Forall (fun r => carries "timestamp" r = true /\ carries "error" r = true
                       /\ carries "data" r = false)
             [error now message statusCode code details;
              validationError now errors message;
              unauthorized now message;
              forbidden now message;
              notFound now resource message;
              conflict now message details;
              rateLimited now message;
              serverError now message])
  /\ (forall message,
      let r := noContent now message in
      carries "timestamp" r = true /\ carries "error" r = false
      /\ carries "data" r = false)
  /\ (forall err,
      Forall (fun r => carries "error" r = true /\ carries "data" r = false)
             [sendErrorDev err; sendErrorProd err]).
Proof.
  split; [intros data message statusCode; destruct data, message; repeat split|].
  split; [intros data message; destruct data, message; repeat split|].
  split; [intros data pagination message; destruct data, message; repeat split|].
  split.
  { intros statusCode data message.
    unfold custom, is_2xx, carries, rendered, or_else.
    destruct (200 <=? statusCode), (statusCode <? 300);
      destruct data; destruct message as [| |[|]|mz| | |ms| |]; simpl;
      try destruct (mz =? 0); try destruct (ms =? "")%string; repeat split. }
  split.
  { intros message statusCode code details errors resource.
    repeat (constructor; [repeat split|]). constructor. }
  split; [intros message; destruct message; repeat split|].
  intros err. unfold sendErrorProd.
  destruct (isOperational err); repeat (constructor; [repeat split|]); constructor.
Qed.

End ResponseFacts.

(** ** Lists of rows *)

Module RowFacts.

Lemma find_hd_filter {A} (f : A -> bool) (l : list A) :
  find f l = hd_error (filter f l).
Proof.
  induction l as [|x l IH]; simpl; [reflexivity|].
  destruct (f x); [reflexivity|exact IH].
Qed.

(** A narrower test sees the same thing on the rows a wider one keeps. *)
Lemma existsb_narrow {A} (f g : A -> bool) (l : list A) :
  (forall x, g x = true -> f x = true) ->
  existsb g l = existsb g (filter f l).
Proof.
  intros Hgf. induction l as [|x l IH]; simpl; [reflexivity|].
  destruct (f x) eqn:Hf; simpl; rewrite IH; [reflexivity|].
  destruct (g x) eqn:Hg; [|reflexivity].
  apply Hgf in Hg. congruence.
Qed.

Lemma filter_comm {A} (f g : A -> bool) (l : list A) :
  filter f (filter g l) = filter g (filter f l).
Proof.
  induction l as [|x l IH]; simpl; [reflexivity|].
  destruct (g x) eqn:Hg, (f x) eqn:Hf; simpl; rewrite ?Hg, ?Hf, IH; reflexivity.
Qed.

Lemma filter_keeps_all {A} (f : A -> bool) (l : list A) :
  (forall x, In x l -> f x = true) -> filter f l = l.
Proof.
  induction l as [|x l IH]; simpl; intros H; [reflexivity|].
  rewrite (H x (or_introl eq_refl)), IH; [reflexivity|].
  intros y Hy. apply H. now right.
Qed.

Lemma find_some_existsb {A} (f : A -> bool) (l : list A) (x : A) :
  find f l = Some x -> existsb f l = true.
Proof.
  intros H. apply existsb_exists. exists x.
  apply find_some in H. exact H.
Qed.

End RowFacts.

(** ** Running a sequence of queries *)

Module DBFacts.
Import Prisma.
Local Open Scope db_scope.

Lemma bind_read {A B} (f : Store -> A) (k : A -> DB B) (s : Store) :
  bind (read f) k s = k (f s) s.
Proof.
  unfold bind, read. destruct (k (f s) s) as [[o s2] w2]. reflexivity.
Qed.

Lemma bind_resolved {A B} (c : DB A) (k : A -> DB B) (s s1 : Store) (a : A)
      (w1 : list Store) :
  c s = (Resolved a, s1, w1) ->
  bind c k s = (fst (fst (k a s1)), snd (fst (k a s1)), (w1 ++ snd (k a s1))%list).
Proof.
  intros H. unfold bind. rewrite H. destruct (k a s1) as [[o s2] w2]. reflexivity.
Qed.

Lemma bind_rejected {A B} (c : DB A) (k : A -> DB B) (s s1 : Store)
      (e : PrismaError) (w1 : list Store) :
  c s = (Rejected e, s1, w1) ->
  bind c k s = (Rejected e, s1, w1).
Proof.
  intros H. unfold bind. now rewrite H.
Qed.

Lemma reaction_delete_found (p u t : string) (s : Store) :
  is_ReactionType t = true ->
  existsb (reaction_key p u t) (reactions s) = true ->
  reaction_delete p u t s
  = (Resolved tt,
     with_reactions s (filter (fun r => negb (reaction_key p u t r)) (reactions s)),
     [with_reactions s (filter (fun r => negb (reaction_key p u t r)) (reactions s))]).
Proof.
  intros Ht H. unfold reaction_delete. now rewrite Ht, H.
Qed.

Lemma reaction_create_ok (now : Z) (p u t : string) (s : Store) :
  is_ReactionType t = true ->
  existsb (reaction_key p u t) (reactions s) = false ->
  existsb (post_matches p) (posts s) = true ->
  existsb (user_matches u) (users s) = true ->
  reaction_create now p u t s
  = (Resolved (Reaction.mk p u t now),
     with_reactions s (reactions s ++ [Reaction.mk p u t now])%list,
     [with_reactions s (reactions s ++ [Reaction.mk p u t now])%list]).
Proof.
  intros Ht H1 H2 H3. unfold reaction_create. now rewrite Ht, H1, H2, H3.
Qed.

Lemma follow_delete_found (a b : string) (s : Store) :
  existsb (follow_key a b) (follows s) = true ->
  follow_delete a b s
  = (Resolved tt,
     with_follows s (filter (fun f => negb (follow_key a b f)) (follows s)),
     [with_follows s (filter (fun f => negb (follow_key a b f)) (follows s))]).
Proof.
  intros H. unfold follow_delete. now rewrite H.
Qed.

Lemma follow_delete_missing (a b : string) (s : Store) :
  existsb (follow_key a b) (follows s) = false ->
  follow_delete a b s = (Rejected (KnownRequestError "P2025"), s, []).
Proof.
  intros H. unfold follow_delete. now rewrite H.
Qed.

Lemma follow_create_ok (now : Z) (a b : string) (s : Store) :
  existsb (follow_key a b) (follows s) = false ->
  existsb (user_matches a) (users s) = true ->
  existsb (user_matches b) (users s) = true ->
  follow_create now a b s
  = (Resolved (Follow.mk a b now),
     with_follows s (follows s ++ [Follow.mk a b now])%list,
     [with_follows s (follows s ++ [Follow.mk a b now])%list]).
Proof.
  intros H1 H2 H3. unfold follow_create. now rewrite H1, H2, H3.
Qed.

End DBFacts.

(** ** Request fields *)

Module RouteFacts.
Import Route.

Lemma present_some (s : string) : s <> "" -> present (Some s) = true.
Proof.
  intros H. simpl. now apply String.eqb_neq in H as ->.
Qed.

End RouteFacts.

(** ** The reaction toggle *)

Module ReactionFacts.
Import Js Response Prisma Route Reactions Observe Samples RowFacts DBFacts RouteFacts.

Lemma includes_In (l : list string) (x : string) : In x l -> includes l x = true.
Proof.
  intros H. apply existsb_exists. exists x. split; [exact H|apply String.eqb_refl].
Qed.

(** The types the route accepts are the values of the schema's enum. *)
Lemma valid_type_enum (t : string) : In t validTypes -> is_ReactionType t = true.
Proof. exact (includes_In validTypes t). Qed.

Lemma valid_type_present (t : string) : In t validTypes -> present (Some t) = true.
Proof.
  intros H. simpl in H.
  repeat (destruct H as [<-|H]; [reflexivity|]). contradiction.
Qed.

Lemma reaction_of_fields (p u : string) (r : Reaction.t) :
  reaction_of p u r = true -> Reaction.postId r = p /\ Reaction.userId r = u.
Proof.
  unfold reaction_of. intros H. apply andb_prop in H as [H1 H2].
  split; now apply String.eqb_eq.
Qed.

Lemma reaction_key_of (p u t : string) (r : Reaction.t) :
  reaction_key p u t r = true -> reaction_of p u r = true.
Proof.
  unfold reaction_key. intros H. now apply andb_prop in H as [H _].
Qed.

(** The rows of a pair after a row of that pair is appended. *)
Lemma rows_of_append (s : Store) (p u : string) (r : Reaction.t) :
  reaction_of p u r = true ->
  rows_of (with_reactions s (reactions s ++ [r])%list) p u = (rows_of s p u ++ [r])%list.
Proof.
  intros H. unfold rows_of. simpl. rewrite filter_app. simpl. now rewrite H.
Qed.

(** The rows of a pair after the row with one type is deleted. *)
Lemma rows_of_delete (s : Store) (p u t : string) :
  rows_of (with_reactions s
             (filter (fun r => negb (reaction_key p u t r)) (reactions s))) p u
  = filter (fun r => negb (reaction_key p u t r)) (rows_of s p u).
Proof.
  unfold rows_of. simpl. apply filter_comm.
Qed.

(** Rows of other pairs are out of reach of both writes. *)
Lemma rows_of_append_other (s : Store) (p u p' u' : string) (r : Reaction.t) :
  reaction_of p u r = true -> (p', u') <> (p, u) ->
  rows_of (with_reactions s (reactions s ++ [r])%list) p' u' = rows_of s p' u'.
Proof.
  intros H Hne. unfold rows_of. simpl. rewrite filter_app. simpl.
  destruct (reaction_of p' u' r) eqn:H'; [|apply app_nil_r].
  apply reaction_of_fields in H as [<- <-].
  apply reaction_of_fields in H' as [<- <-]. now elim Hne.
Qed.

Lemma rows_of_delete_other (s : Store) (p u t p' u' : string) :
  (p', u') <> (p, u) ->
  rows_of (with_reactions s
             (filter (fun r => negb (reaction_key p u t r)) (reactions s))) p' u'
  = rows_of s p' u'.
Proof.
  intros Hne. unfold rows_of. simpl.
  rewrite filter_comm. apply filter_keeps_all.
  intros x Hx. apply filter_In in Hx as [_ Hx].
  destruct (reaction_key p u t x) eqn:Hk; [|reflexivity].
  apply reaction_key_of, reaction_of_fields in Hk as [<- <-].
  apply reaction_of_fields in Hx as [<- <-]. now elim Hne.
Qed.


(** What the handler does on a well-formed request for a live post, as a
    function of the rows the pair has. *)
Section Toggle.

Variables (now : Z) (s : Store) (p u t : string) (post : Post.t).
Hypothesis Hp : p <> "".
Hypothesis Hu : u <> "".
Hypothesis Ht : In t validTypes.
Hypothesis Hpost : find (post_matches p) (posts s) = Some post.
Hypothesis Hlive : Post.deletedAt post = None.
Hypothesis Hfresh : now <= Post.expiresAt post.
Hypothesis Huser : user_exists s u = true.

Lemma post_reaction_checked :
  post_reaction now (mkBody (Some p) (Some u) (Some t)) s
  = try_catch (toggle now p u t)
              (fun _ => json 500 (error_body "Failed to create reaction")) s.
Proof.
  unfold post_reaction, try_catch.
  cbn [Reactions.postId Reactions.userId Reactions.type].
  rewrite !present_some by assumption. rewrite valid_type_present by assumption.
  cbn [value negb orb].
  rewrite includes_In by assumption. cbn [negb].
  unfold post_findUnique. rewrite bind_read, Hpost, Hlive.
  rewrite (proj2 (Z.ltb_ge _ _)) by lia.
  reflexivity.
Qed.

Lemma create_and_send_ok (s0 : Store) :
  users s0 = users s -> posts s0 = posts s ->
  existsb (reaction_key p u t) (reactions s0) = false ->
  create_and_send now p u t s0
  = (Resolved (json 201 (reaction_json (Reaction.mk p u t now)
                                       (find (user_matches u) (users s))
                                       (Some post))),
     with_reactions s0 (reactions s0 ++ [Reaction.mk p u t now])%list,
     [with_reactions s0 (reactions s0 ++ [Reaction.mk p u t now])%list]).
Proof.
  intros Husers Hposts Hkey.
  unfold create_and_send.
  rewrite (bind_resolved _ _ _ _ _ _
             (reaction_create_ok now p u t s0 (valid_type_enum t Ht) Hkey
                ltac:(rewrite Hposts; exact (find_some_existsb _ _ _ Hpost))
                ltac:(rewrite Husers; exact Huser))).
  unfold user_findUnique, post_findUnique.
  rewrite !bind_read. cbn [fst snd ret users posts with_reactions].
  rewrite Husers, Hposts, Hpost. reflexivity.
Qed.

(** No row yet: the row is created and sent back with status 201. *)
Lemma toggle_from_none :
  rows_of s p u = [] ->
  post_reaction now (mkBody (Some p) (Some u) (Some t)) s
  = (json 201 (reaction_json (Reaction.mk p u t now)
                             (find (user_matches u) (users s))
                             (Some post)),
     with_reactions s (reactions s ++ [Reaction.mk p u t now])%list,
     [with_reactions s (reactions s ++ [Reaction.mk p u t now])%list]).
Proof.
  intros Hrows. rewrite post_reaction_checked.
  unfold try_catch, toggle, reaction_findFirst.
  rewrite bind_read, find_hd_filter. fold (rows_of s p u). rewrite Hrows.
  cbn [hd_error].
  rewrite create_and_send_ok; [reflexivity|reflexivity|reflexivity|].
  rewrite (existsb_narrow (reaction_of p u)) by apply reaction_key_of.
  fold (rows_of s p u). now rewrite Hrows.
Qed.

(** One row of the requested type: it is deleted and nothing is created. *)
Lemma toggle_same_type (r : Reaction.t) :
  rows_of s p u = [r] -> Reaction.type r = t ->
  post_reaction now (mkBody (Some p) (Some u) (Some t)) s
  = (json 200 removed_json,
     with_reactions s (filter (fun x => negb (reaction_key p u t x)) (reactions s)),
     [with_reactions s (filter (fun x => negb (reaction_key p u t x)) (reactions s))]).
Proof.
  intros Hrows Htype. rewrite post_reaction_checked.
  unfold try_catch, toggle, reaction_findFirst.
  rewrite bind_read, find_hd_filter. fold (rows_of s p u). rewrite Hrows.
  cbn [hd_error]. rewrite Htype, String.eqb_refl.
  assert (Hof : reaction_of p u r = true).
  { assert (In r (rows_of s p u)) as H by (rewrite Hrows; now left).
    apply filter_In in H. tauto. }
  assert (Hkey : existsb (reaction_key p u t) (reactions s) = true).
  { rewrite (existsb_narrow (reaction_of p u)) by apply reaction_key_of.
    fold (rows_of s p u). rewrite Hrows. simpl.
    unfold reaction_key. now rewrite Hof, Htype, String.eqb_refl. }
  rewrite (bind_resolved _ _ _ _ _ _
             (reaction_delete_found p u t s (valid_type_enum t Ht) Hkey)).
  reflexivity.
Qed.

(** One row of another type: it is deleted, then the new row is created
    and sent back with status 201, as for a first reaction. *)
Lemma toggle_other_type (r : Reaction.t) :
  rows_of s p u = [r] -> Reaction.type r <> t -> In (Reaction.type r) validTypes ->
  let s1 := with_reactions s
              (filter (fun x => negb (reaction_key p u (Reaction.type r) x))
                      (reactions s)) in
  let s2 := with_reactions s1 (reactions s1 ++ [Reaction.mk p u t now])%list in
  post_reaction now (mkBody (Some p) (Some u) (Some t)) s
  = (json 201 (reaction_json (Reaction.mk p u t now)
                             (find (user_matches u) (users s))
                             (Some post)),
     s2, [s1; s2])
  /\ rows_of s1 p u = [].
Proof.
  intros Hrows Htype Hold s1 s2. rewrite post_reaction_checked.
  unfold try_catch, toggle, reaction_findFirst.
  rewrite bind_read, find_hd_filter. fold (rows_of s p u). rewrite Hrows.
  cbn [hd_error]. apply String.eqb_neq in Htype as Hneq. rewrite Hneq.
  assert (Hof : reaction_of p u r = true).
  { assert (In r (rows_of s p u)) as H by (rewrite Hrows; now left).
    apply filter_In in H. tauto. }
  destruct (reaction_of_fields p u r Hof) as [Hrp Hru]. rewrite Hrp, Hru.
  assert (Hkey : existsb (reaction_key p u (Reaction.type r)) (reactions s) = true).
  { rewrite (existsb_narrow (reaction_of p u)) by apply reaction_key_of.
    fold (rows_of s p u). rewrite Hrows. simpl.
    unfold reaction_key. now rewrite Hof, String.eqb_refl. }
  assert (Hrows1 : rows_of s1 p u = []).
  { unfold s1. rewrite rows_of_delete, Hrows. simpl.
    unfold reaction_key. now rewrite Hof, String.eqb_refl. }
  rewrite (bind_resolved _ _ _ _ _ _
             (reaction_delete_found p u (Reaction.type r) s
                (valid_type_enum _ Hold) Hkey)).
  fold s1.
  rewrite (create_and_send_ok s1);
    [split; [reflexivity|exact Hrows1]|reflexivity|reflexivity|].
  rewrite (existsb_narrow (reaction_of p u)) by apply reaction_key_of.
  fold (rows_of s1 p u). now rewrite Hrows1.
Qed.

End Toggle.

(** A store holding at most one row of the pair stays so under both
    writes the handler makes. *)
Lemma at_most_one_of_rows (s : Store) (p u : string) (l : list Reaction.t) :
  rows_of s p u = l -> (List.length l <= 1)%nat -> at_most_one p u s.
Proof.
  intros H Hl. unfold at_most_one. now rewrite H.
Qed.

(** The claim of C4 names three results, created, removed and updated.
    The route has two: changing the type of a reaction is answered exactly
    like a first reaction, with status 201 and the new row. *)
Lemma toggle_change_answered_as_creation :
  let request := mkBody (Some "p1") (Some "u1") (Some "LOVE") in
  fst (fst (post_reaction 600 request liked_store))
  = fst (fst (post_reaction 600 request unreacted_store))
  /\ status (fst (fst (post_reaction 600 request liked_store))) = JNum 201
  /\ rows_of liked_store "p1" "u1" = [Reaction.mk "p1" "u1" "LIKE" 500]
  /\ rows_of unreacted_store "p1" "u1" = [].
Proof. repeat split. Qed.

(** C4, as the code has it.  For a live post [p], an existing user [u] and
    two different valid types [A] and [B], starting from a store with no
    reaction of [u] on [p]: a request with [A] creates the row (status 201,
    the row sent back); on the resulting store a second request with [A]
    deletes the row again (status 200, [removed: true]), while a request
    with [B] deletes the row and then creates the one of type [B] (status
    201, the row sent back, as for a creation).  Every store visited, the
    one between the delete and the create included, holds at most one row
    of the pair, and the rows of every other pair are the same throughout. *)
Theorem reaction_toggle_cycle
        (now1 now2 now3 : Z) (s : Store) (p u A B : string) (post : Post.t) :
  p <> "" -> u <> "" ->
  In A validTypes -> In B validTypes -> A <> B ->
  find (post_matches p) (posts s) = Some post ->
  Post.deletedAt post = None ->
  now1 <= Post.expiresAt post ->
  now2 <= Post.expiresAt post ->
  now3 <= Post.expiresAt post ->
  user_exists s u = true ->
  rows_of s p u = [] ->
  let user := find (user_matches u) (users s) in
  let request t := mkBody (Some p) (Some u) (Some t) in
  exists s1 s2 s_mid s3 : Store,
    post_reaction now1 (request A) s
    = (json 201 (reaction_json (Reaction.mk p u A now1) user (Some post)), s1, [s1])
    /\ rows_of s1 p u = [Reaction.mk p u A now1]
    /\ post_reaction now2 (request A) s1 = (json 200 removed_json, s2, [s2])
    /\ rows_of s2 p u = []
    /\ post_reaction now3 (request B) s1
       = (json 201 (reaction_json (Reaction.mk p u B now3) user (Some post)),
          s3, [s_mid; s3])
    /\ rows_of s3 p u = [Reaction.mk p u B now3]
    /\ Forall (at_most_one p u) [s; s1; s2; s_mid; s3]
    /\ forall p' u', (p', u') <> (p, u) ->
         Forall (fun x => rows_of x p' u' = rows_of s p' u') [s1; s2; s_mid; s3].
Proof.
  intros Hp Hu HA HB HAB Hpost Hlive H1 H2 H3 Huser Hnone user request.
  set (rowA := Reaction.mk p u A now1).
  set (rowB := Reaction.mk p u B now3).
  set (s1 := with_reactions s (reactions s ++ [rowA])%list).
  set (s2 := with_reactions s1
               (filter (fun x => negb (reaction_key p u A x)) (reactions s1))).
  set (s3 := with_reactions s2 (reactions s2 ++ [rowB])%list).
  assert (HofA : reaction_of p u rowA = true).
  { unfold reaction_of, rowA. simpl. now rewrite !String.eqb_refl. }
  assert (HofB : reaction_of p u rowB = true).
  { unfold reaction_of, rowB. simpl. now rewrite !String.eqb_refl. }
  assert (Hrows1 : rows_of s1 p u = [rowA]).
  { unfold s1. rewrite rows_of_append by exact HofA. now rewrite Hnone. }
  assert (Hrows2 : rows_of s2 p u = []).
  { unfold s2. rewrite rows_of_delete, Hrows1. simpl.
    unfold reaction_key. rewrite HofA. simpl. now rewrite String.eqb_refl. }
  assert (Hrows3 : rows_of s3 p u = [rowB]).
  { unfold s3. rewrite rows_of_append by exact HofB. now rewrite Hrows2. }
  exists s1, s2, s2, s3.
  split.
  { now apply toggle_from_none. }
  split; [exact Hrows1|].
  split.
  { now apply (toggle_same_type now2 s1 p u A post) with (r := rowA). }
  split; [exact Hrows2|].
  split.
  { assert (Hne : Reaction.type rowA <> B) by exact HAB.
    now apply (toggle_other_type now3 s1 p u B post) with (r := rowA). }
  split; [exact Hrows3|].
  split.
  { repeat (apply Forall_cons;
            [eapply at_most_one_of_rows; [eassumption|simpl; lia]|]).
    apply Forall_nil. }
  intros p' u' Hne.
  assert (E1 : rows_of s1 p' u' = rows_of s p' u').
  { unfold s1. now apply (rows_of_append_other s p u). }
  assert (E2 : rows_of s2 p' u' = rows_of s p' u').
  { unfold s2. rewrite rows_of_delete_other by exact Hne. exact E1. }
  assert (E3 : rows_of s3 p' u' = rows_of s p' u').
  { unfold s3. rewrite (rows_of_append_other s2 p u) by assumption. exact E2. }
  repeat (apply Forall_cons; [assumption|]). apply Forall_nil.
Qed.

Lemma reaction_toggle_cycle_witness :
  exists s1 s2 s_mid s3 : Store,
    post_reaction 600 (mkBody (Some "p1") (Some "u1") (Some "LIKE")) unreacted_store
    = (json 201 (reaction_json (Reaction.mk "p1" "u1" "LIKE" 600)
                   (Some (User.mk "u1" (Some "alice") None None))
                   (Some (Post.mk "p1" (Some "hello") 9000 None))), s1, [s1])
    /\ rows_of s1 "p1" "u1" = [Reaction.mk "p1" "u1" "LIKE" 600]
    /\ post_reaction 700 (mkBody (Some "p1") (Some "u1") (Some "LIKE")) s1
       = (json 200 removed_json, s2, [s2])
    /\ rows_of s2 "p1" "u1" = []
    /\ post_reaction 800 (mkBody (Some "p1") (Some "u1") (Some "LOVE")) s1
       = (json 201 (reaction_json (Reaction.mk "p1" "u1" "LOVE" 800)
                      (Some (User.mk "u1" (Some "alice") None None))
                      (Some (Post.mk "p1" (Some "hello") 9000 None))),
          s3, [s_mid; s3])
    /\ rows_of s3 "p1" "u1" = [Reaction.mk "p1" "u1" "LOVE" 800].
Proof.
  destruct (reaction_toggle_cycle 600 700 800 unreacted_store "p1" "u1" "LIKE" "LOVE"
              (Post.mk "p1" (Some "hello") 9000 None))
    as (s1 & s2 & s_mid & s3 & H1 & H2 & H3 & H4 & H5 & H6 & _);
    try reflexivity; try discriminate; try (simpl; lia); try (simpl; tauto).
  exists s1, s2, s_mid, s3. repeat split; assumption.
Defined.

(** The claim of C5 fails on an expired post: the handler answers 400 with
    "Cannot react to expired post", not 410 (Gone); the store is left as it
    was and nothing is written. *)
Lemma expired_post_answered_400 :
  let request := mkBody (Some "p1") (Some "u1") (Some "LIKE") in
  find (post_matches "p1") (posts expired_post_store)
  = Some (Post.mk "p1" (Some "hello") 1000 None)
  /\ post_reaction 2000 request expired_post_store
     = (json 400 (error_body "Cannot react to expired post"), expired_post_store, [])
  /\ status (fst (fst (post_reaction 2000 request expired_post_store))) <> JNum 410.
Proof. repeat split. discriminate. Qed.

(** C5, as the code has it.  On a request that passes the field and type
    checks, a missing or soft-deleted post is answered 404 and an expired
    one 400; on every request whatsoever whose post is missing, soft-deleted
    or expired, the store is left as it was and nothing is written, so no
    reaction row is created or removed. *)
Theorem reaction_post_preconditions (now : Z) (s : Store) (p u t : string) :
  p <> "" -> u <> "" -> In t validTypes ->
  let request := mkBody (Some p) (Some u) (Some t) in
  (find (post_matches p) (posts s) = None ->
   post_reaction now request s = (json 404 (error_body "Post not found"), s, []))
  /\ (forall post d,
        find (post_matches p) (posts s) = Some post ->
        Post.deletedAt post = Some d ->
        post_reaction now request s = (json 404 (error_body "Post not found"), s, []))
  /\ (forall post,
        find (post_matches p) (posts s) = Some post ->
        Post.deletedAt post = None ->
        Post.expiresAt post < now ->
        post_reaction now request s
        = (json 400 (error_body "Cannot react to expired post"), s, []))
  /\ (forall req : Body,
        match find (post_matches (value (Reactions.postId req))) (posts s) with
        | None => True
        | Some post => Post.deletedAt post <> None \/ Post.expiresAt post < now
        end ->
        snd (fst (post_reaction now req s)) = s /\ snd (post_reaction now req s) = []).
Proof.
  intros Hp Hu Ht request.
  split; [|split; [|split]].
  - intros Hnone. unfold post_reaction, try_catch, request.
    cbn [Reactions.postId Reactions.userId Reactions.type].
    rewrite !present_some by assumption. rewrite valid_type_present by assumption.
    cbn [value negb orb]. rewrite includes_In by assumption. cbn [negb].
    unfold post_findUnique. rewrite bind_read, Hnone. reflexivity.
  - intros post d Hpost Hdel. unfold post_reaction, try_catch, request.
    cbn [Reactions.postId Reactions.userId Reactions.type].
    rewrite !present_some by assumption. rewrite valid_type_present by assumption.
    cbn [value negb orb]. rewrite includes_In by assumption. cbn [negb].
    unfold post_findUnique. rewrite bind_read, Hpost, Hdel. reflexivity.
  - intros post Hpost Hlive Hexp. unfold post_reaction, try_catch, request.
    cbn [Reactions.postId Reactions.userId Reactions.type].
    rewrite !present_some by assumption. rewrite valid_type_present by assumption.
    cbn [value negb orb]. rewrite includes_In by assumption. cbn [negb].
    unfold post_findUnique. rewrite bind_read, Hpost, Hlive.
    rewrite (proj2 (Z.ltb_lt _ _)) by exact Hexp. reflexivity.
  - intros req Hgone. unfold post_reaction, try_catch.
    destruct (negb (present (Reactions.postId req))
              || negb (present (Reactions.userId req))
              || negb (present (Reactions.type req))); [split; reflexivity|].
    destruct (negb (includes validTypes (value (Reactions.type req))));
      [split; reflexivity|].
    unfold post_findUnique. rewrite bind_read.
    destruct (find (post_matches (value (Reactions.postId req))) (posts s))
      as [post|]; [|split; reflexivity].
    destruct (Post.deletedAt post) as [d|]; [split; reflexivity|].
    destruct Hgone as [Hdel|Hexp]; [now elim Hdel|].
    rewrite (proj2 (Z.ltb_lt _ _)) by exact Hexp. split; reflexivity.
Qed.

Lemma reaction_post_preconditions_witness :
  post_reaction 2000 (mkBody (Some "p1") (Some "u1") (Some "LIKE")) expired_post_store
  = (json 400 (error_body "Cannot react to expired post"), expired_post_store, [])
  /\ post_reaction 2000 (mkBody (Some "p9") (Some "u1") (Some "LIKE")) expired_post_store
     = (json 404 (error_body "Post not found"), expired_post_store, []).
Proof.
  split.
  - destruct (reaction_post_preconditions 2000 expired_post_store "p1" "u1" "LIKE")
      as (_ & _ & H & _); [discriminate|discriminate|simpl; tauto|].
    apply (H (Post.mk "p1" (Some "hello") 1000 None)); [reflexivity|reflexivity|].
    simpl. lia.
  - destruct (reaction_post_preconditions 2000 expired_post_store "p9" "u1" "LIKE")
      as (H & _); [discriminate|discriminate|simpl; tauto|].
    apply H. reflexivity.
Defined.

End ReactionFacts.

(** ** Follow and unfollow *)

Module FollowFacts.
Import Js Response Prisma Route Follows Observe Samples RowFacts DBFacts RouteFacts.

Lemma user_found (s : Store) (id : string) :
  user_exists s id = true -> exists usr, find (user_matches id) (users s) = Some usr.
Proof.
  unfold user_exists. intros H.
  destruct (find (user_matches id) (users s)) as [usr|] eqn:Hf; [now exists usr|].
  apply existsb_exists in H as (x & Hx & Hm).
  now rewrite (find_none _ _ Hf x Hx) in Hm.
Qed.

Lemma user_missing (s : Store) (id : string) :
  user_exists s id = false -> find (user_matches id) (users s) = None.
Proof.
  unfold user_exists. intros H.
  destruct (find (user_matches id) (users s)) as [usr|] eqn:Hf; [|reflexivity].
  apply find_some_existsb in Hf. congruence.
Qed.

Lemma following_found (s : Store) (a b : string) :
  following s a b = true ->
  exists f, find (follow_key a b) (follows s) = Some f /\ In f (follows s)
            /\ Follow.followerId f = a /\ Follow.followeeId f = b.
Proof.
  unfold following. intros H.
  destruct (find (follow_key a b) (follows s)) as [f|] eqn:Hf.
  - exists f. split; [reflexivity|].
    apply find_some in Hf as [Hin Hk]. split; [exact Hin|].
    unfold follow_key in Hk. apply andb_prop in Hk as [H1 H2].
    split; now apply String.eqb_eq.
  - apply existsb_exists in H as (x & Hx & Hm).
    now rewrite (find_none _ _ Hf x Hx) in Hm.
Qed.

Lemma not_following_none (s : Store) (a b : string) :
  following s a b = false -> find (follow_key a b) (follows s) = None.
Proof.
  unfold following. intros H.
  destruct (find (follow_key a b) (follows s)) as [f|] eqn:Hf; [|reflexivity].
  apply find_some_existsb in Hf. congruence.
Qed.

(** C6.  Following oneself is always answered 400 and changes nothing,
    whether or not that user exists.  For two different non-empty ids:
    following a pair that is already Following is answered 409; unfollowing
    a pair that is not Following is answered 404; neither changes the
    store.  Otherwise follow (both users existing) appends exactly the row
    of the pair and answers 201, and unfollow removes exactly the row of
    the pair and answers 204.  A follow naming a missing user is answered
    404. *)
Theorem follow_unfollow_asymmetric (now : Z) (s : Store) (a b : string) :
  a <> "" -> b <> "" -> a <> b ->
  follows_reference_users s ->
  let request := mkBody (Some a) (Some b) in
  (forall c, exists msg,
      post_follow now (mkBody (Some c) (Some c)) s = (json 400 (error_body msg), s, []))
  /\ (following s a b = true ->
      post_follow now request s
      = (json 409 (error_body "Already following this user"), s, []))
  /\ (following s a b = false ->
      delete_follow request s
      = (json 404 (error_body "Follow relationship not found"), s, []))
  /\ (following s a b = false ->
      user_exists s a = true -> user_exists s b = true ->
      let s' := with_follows s (follows s ++ [Follow.mk a b now])%list in
      post_follow now request s
      = (json 201 (follow_json (Follow.mk a b now)
                               (find (user_matches a) (users s))
                               (find (user_matches b) (users s))), s', [s'])
      /\ following s' a b = true)
  /\ (following s a b = true ->
      let s' := with_follows s
                  (filter (fun f => negb (follow_key a b f)) (follows s)) in
      delete_follow request s = (json 204 JUndefined, s', [s'])
      /\ following s' a b = false)
  /\ (user_exists s a = false \/ user_exists s b = false ->
      exists msg, post_follow now request s = (json 404 (error_body msg), s, [])).
Proof.
  intros Ha Hb Hab Hfk request.
  assert (Hstart : forall k h,
            try_catch
              (if negb (present (Some a)) || negb (present (Some b)) then
                 ret (json 400 (error_body "Follower ID and followee ID are required"))
               else k) h s
            = try_catch k h s).
  { intros k h. now rewrite !present_some by assumption. }
  split.
  { intros c. unfold post_follow, try_catch.
    cbn [Follows.followerId Follows.followeeId].
    destruct (present (Some c)) eqn:Hc; cbn [negb orb value].
    - rewrite String.eqb_refl. eexists. reflexivity.
    - eexists. reflexivity. }
  split.
  { intros Hfol.
    destruct (following_found s a b Hfol) as (f & Hfind & Hin & Hfa & Hfb).
    destruct (Hfk f Hin) as [Hua Hub]. rewrite Hfa in Hua. rewrite Hfb in Hub.
    destruct (user_found s a Hua) as (ua & Hfa').
    destruct (user_found s b Hub) as (ub & Hfb').
    unfold post_follow, request. cbn [Follows.followerId Follows.followeeId].
    rewrite Hstart. cbn [value].
    apply String.eqb_neq in Hab as ->.
    unfold try_catch, user_findUnique, follow_findUnique.
    rewrite !bind_read, Hfa', Hfb'. cbv beta iota.
    rewrite bind_read, Hfind. reflexivity. }
  split.
  { intros Hfol. unfold delete_follow, request.
    cbn [Follows.followerId Follows.followeeId].
    rewrite Hstart. cbn [value]. unfold try_catch.
    rewrite (bind_rejected _ _ _ _ _ _ (follow_delete_missing a b s Hfol)).
    reflexivity. }
  split.
  { intros Hfol Hua Hub s'.
    destruct (user_found s a Hua) as (ua & Hfa').
    destruct (user_found s b Hub) as (ub & Hfb').
    split.
    - unfold post_follow, request. cbn [Follows.followerId Follows.followeeId].
      rewrite Hstart. cbn [value].
      apply String.eqb_neq in Hab as ->.
      unfold try_catch, user_findUnique, follow_findUnique.
      rewrite !bind_read, Hfa', Hfb'. cbv beta iota.
      rewrite bind_read, (not_following_none s a b Hfol).
      rewrite (bind_resolved _ _ _ _ _ _ (follow_create_ok now a b s Hfol Hua Hub)).
      rewrite !bind_read. cbn [fst snd ret users with_follows].
      rewrite Hfa', Hfb'. reflexivity.
    - unfold following, s'. simpl. rewrite existsb_app. simpl.
      unfold follow_key at 2. simpl. rewrite !String.eqb_refl. simpl.
      apply orb_true_r. }
  split.
  { intros Hfol s'. split.
    - unfold delete_follow, request. cbn [Follows.followerId Follows.followeeId].
      rewrite Hstart. cbn [value]. unfold try_catch.
      rewrite (bind_resolved _ _ _ _ _ _ (follow_delete_found a b s Hfol)).
      reflexivity.
    - unfold following, s'. simpl.
      destruct (existsb (follow_key a b)
                  (filter (fun f => negb (follow_key a b f)) (follows s))) eqn:E;
        [|reflexivity].
      apply existsb_exists in E as (x & Hx & Hk).
      apply filter_In in Hx as [_ Hx]. now rewrite Hk in Hx. }
  intros Hmiss.
  unfold post_follow, request. cbn [Follows.followerId Follows.followeeId].
  rewrite Hstart. cbn [value].
  apply String.eqb_neq in Hab as ->.
  unfold try_catch, user_findUnique.
  destruct (find (user_matches a) (users s)) as [ua|] eqn:Hfa'.
  - destruct Hmiss as [Hm|Hm].
    + apply user_missing in Hm. congruence.
    + apply user_missing in Hm.
      rewrite !bind_read, Hfa', Hm. eexists. reflexivity.
  - rewrite !bind_read, Hfa'. eexists. reflexivity.
Qed.


Lemma follow_store_keys : follows_reference_users follow_store.
Proof.
  intros f Hf. simpl in Hf. destruct Hf as [<-|[]]. split; reflexivity.
Qed.

Lemma follow_unfollow_asymmetric_witness :
  post_follow 20 (mkBody (Some "u1") (Some "u2")) follow_store
  = (json 409 (error_body "Already following this user"), follow_store, [])
  /\ (exists msg,
        post_follow 20 (mkBody (Some "u9") (Some "u9")) follow_store
        = (json 400 (error_body msg), follow_store, [])).
Proof.
  destruct (follow_unfollow_asymmetric 20 follow_store "u1" "u2")
    as (Hself & Hdup & _);
    [discriminate|discriminate|discriminate|exact follow_store_keys|].
  split; [apply Hdup; reflexivity|apply Hself].
Defined.

End FollowFacts.

(** ** Message delivery and read state *)

Module MessageFacts.
Import Js Response Prisma Route Messages Observe Samples RowFacts DBFacts RouteFacts.

Lemma member_found (s : Store) (u c : string) :
  is_member s u c = true ->
  exists row, find (member_key u c) (chatMembers s) = Some row.
Proof.
  unfold is_member. intros H.
  destruct (find (member_key u c) (chatMembers s)) as [row|] eqn:Hf; [now exists row|].
  apply existsb_exists in H as (x & Hx & Hm).
  now rewrite (find_none _ _ Hf x Hx) in Hm.
Qed.

Lemma message_update_found (id : string) (data : Message.t -> Message.t)
      (s : Store) (m : Message.t) :
  find (message_matches id) (messages s) = Some m ->
  let s' := with_messages s
              (map (fun x => if message_matches id x then data x else x) (messages s)) in
  message_update id data s = (Resolved (data m), s', [s']).
Proof.
  intros H s'. unfold message_update. now rewrite H.
Qed.

(** Looking a message up after an update that keeps ids. *)
Lemma find_after_update (id id' : string) (data : Message.t -> Message.t)
      (l : list Message.t) :
  (forall x, Message.id (data x) = Message.id x) ->
  find (message_matches id')
       (map (fun x => if message_matches id x then data x else x) l)
  = match find (message_matches id') l with
    | Some m => Some (if message_matches id m then data m else m)
    | None => None
    end.
Proof.
  intros Hid. induction l as [|x l IH]; simpl; [reflexivity|].
  assert (E : message_matches id' (if message_matches id x then data x else x)
              = message_matches id' x).
  { unfold message_matches. destruct (Message.id x =? id)%string; [|reflexivity].
    now rewrite Hid. }
  rewrite E. destruct (message_matches id' x); [reflexivity|exact IH].
Qed.

Lemma read_data_id (now : Z) (message x : Message.t) :
  Message.id (read_data now message x) = Message.id x.
Proof.
  unfold read_data. destruct (is_set (Message.deliveredAt message)); reflexivity.
Qed.

(** The claim of C7 fails where it orders the two instants: each route
    stamps the time of its own request, and a [deliveredAt] already stored
    is kept.  Bob's message is marked delivered by a request stamped 300 and
    then read by a request stamped 200 (a clock set back, or another server
    process); the read succeeds and leaves [deliveredAt] 300 later than
    [readAt] 200. *)
Lemma read_before_stored_delivery :
  let s1 := snd (fst (put_delivered 300 "m1" (Some "u1") undelivered_store)) in
  let s2 := snd (fst (put_read 200 "m1" (Some "u1") s1)) in
  fst (fst (put_read 200 "m1" (Some "u1") s1))
  = json 200 (JObj [("id", JStr "m1"); ("deliveredAt", JNum 300);
                    ("readAt", JNum 200)])
  /\ find (message_matches "m1") (messages s2)
     = Some (Message.mk "m1" "u2" "c1" "hi" 90 (Some 300) (Some 200))
  /\ ~ 300 <= 200.
Proof. repeat split. lia. Qed.

(** C7, as the code has it.  When a chat member who is not the sender marks
    an unread message read, [readAt] becomes [now] and [deliveredAt] is
    set: it becomes [now], the same instant, when it was null, and keeps its
    value when it had one, so that it is not later than [readAt] exactly
    when the stored value, if any, is not later than [now]; nothing else in
    the message and no other message changes.  When the message is already
    read, or the acting user is its sender, the store is left as it was, so
    a null [readAt] stays null. *)
Theorem mark_read_implies_delivered
        (now : Z) (s : Store) (id u : string) (m : Message.t) :
  u <> "" ->
  find (message_matches id) (messages s) = Some m ->
  is_member s u (Message.chatId m) = true ->
  (Message.readAt m = None -> Message.senderId m <> u ->
   exists (s' : Store) (d : Z),
     let m' := Message.mk (Message.id m) (Message.senderId m) (Message.chatId m)
                          (Message.body m) (Message.createdAt m) (Some d) (Some now) in
     put_read now id (Some u) s
     = (json 200 (JObj [("id", JStr (Message.id m));
                        ("deliveredAt", JNum d);
                        ("readAt", JNum now)]), s', [s'])
     /\ find (message_matches id) (messages s') = Some m'
     /\ (Message.deliveredAt m = None -> d = now)
     /\ (forall d0, Message.deliveredAt m = Some d0 -> d = d0)
     /\ (d <= now <-> forall d0, Message.deliveredAt m = Some d0 -> d0 <= now)
     /\ (forall id', id' <> id ->
           find (message_matches id') (messages s')
           = find (message_matches id') (messages s)))
  /\ (Message.readAt m <> None \/ Message.senderId m = u ->
      put_read now id (Some u) s
      = (json 200 (JObj [("message", JStr "Message already read or user is sender")]),
         s, [])).
Proof.
  intros Hu Hfind Hmem.
  destruct (member_found s u (Message.chatId m) Hmem) as (row & Hrow).
  assert (Hid : Message.id m = id).
  { apply find_some in Hfind as [_ H]. now apply String.eqb_eq in H. }
  split.
  - intros Hunread Hother.
    set (d := match Message.deliveredAt m with Some d0 => d0 | None => now end).
    exists (with_messages s
              (map (fun x => if message_matches id x then read_data now m x else x)
                   (messages s))), d.
    assert (Hdata : read_data now m m
                    = Message.mk (Message.id m) (Message.senderId m) (Message.chatId m)
                        (Message.body m) (Message.createdAt m) (Some d) (Some now)).
    { unfold read_data, d, set_delivered, set_read. cbn [Message.deliveredAt].
      destruct (Message.deliveredAt m); reflexivity. }
    cbv zeta. split.
    { unfold put_read, try_catch. rewrite present_some by assumption.
      cbn [negb value]. unfold message_findUnique, chatMember_findUnique.
      rewrite bind_read, Hfind. cbv beta iota. rewrite bind_read, Hrow.
      cbv beta iota. rewrite Hunread. apply String.eqb_neq in Hother as ->.
      cbn [is_set orb].
      rewrite (bind_resolved _ _ _ _ _ _ (message_update_found id _ s m Hfind)).
      rewrite Hdata. reflexivity. }
    split.
    { cbn [messages with_messages].
      rewrite find_after_update by (intros x; apply read_data_id).
      rewrite Hfind. unfold message_matches at 1.
      rewrite (proj2 (String.eqb_eq _ _) Hid). now rewrite Hdata. }
    split.
    { unfold d. now intros ->. }
    split.
    { unfold d. now intros d0 ->. }
    split.
    { unfold d. destruct (Message.deliveredAt m) as [d1|].
      - split; [intros H d0 E; injection E as <-; exact H|intros H; now apply H].
      - split; [intros _ d0 E; discriminate|intros _; lia]. }
    intros id' Hne. cbn [messages with_messages].
    rewrite find_after_update by (intros x; apply read_data_id).
    destruct (find (message_matches id') (messages s)) as [m0|] eqn:E; [|reflexivity].
    apply find_some in E as [_ E]. apply String.eqb_eq in E.
    unfold message_matches. rewrite E.
    now apply String.eqb_neq in Hne as ->.
  - intros Hnoop.
    unfold put_read, try_catch. rewrite present_some by assumption.
    cbn [negb value]. unfold message_findUnique, chatMember_findUnique.
    rewrite bind_read, Hfind. cbv beta iota. rewrite bind_read, Hrow.
    cbv beta iota.
    destruct Hnoop as [Hread|Hsender].
    + destruct (Message.readAt m); [reflexivity|now elim Hread].
    + rewrite Hsender, String.eqb_refl, orb_true_r. reflexivity.
Qed.

(** The backfill: bob's undelivered message, read by alice at instant 200,
    ends with both instants 200. *)
Lemma mark_read_implies_delivered_witness :
  exists s' : Store,
    put_read 200 "m1" (Some "u1") undelivered_store
    = (json 200 (JObj [("id", JStr "m1"); ("deliveredAt", JNum 200);
                       ("readAt", JNum 200)]), s', [s'])
    /\ find (message_matches "m1") (messages s')
       = Some (Message.mk "m1" "u2" "c1" "hi" 90 (Some 200) (Some 200)).
Proof.
  destruct (mark_read_implies_delivered 200 undelivered_store "m1" "u1"
              (Message.mk "m1" "u2" "c1" "hi" 90 None None))
    as (Hread & _).
  - discriminate.
  - reflexivity.
  - reflexivity.
  - destruct Hread as (s' & d & H1 & H2 & H3 & _); [reflexivity|discriminate|].
    rewrite (H3 eq_refl) in H1, H2.
    exists s'. split; assumption.
Defined.

(** C8.  [read-all] writes [deliveredAt: now] on every message it marks
    read: a message from another member that was delivered at instant 100
    and is marked read at instant 200 ends up with [deliveredAt] 200.  The
    acting user's own message is untouched and the count is 1. *)
Theorem read_all_overwrites_deliveredAt :
  let '(response, s', _) := put_read_all 200 "c1" (Some "u1") chat_store in
  response = json 200 (JObj [("message", JStr "Messages marked as read");
                             ("updatedCount", JNum 1)])
  /\ messages s'
     = [Message.mk "m1" "u2" "c1" "hi" 90 (Some 200) (Some 200);
        Message.mk "m2" "u1" "c1" "hello" 95 None None]
  /\ find (message_matches "m1") (messages chat_store)
     = Some (Message.mk "m1" "u2" "c1" "hi" 90 (Some 100) None).
Proof. repeat split. Qed.

(** What [read-all] does in general: the messages of the chat sent by
    others and not yet read get [readAt] and [deliveredAt] set to [now],
    every other message is unchanged, and the count sent back is the number
    of messages marked. *)
Lemma read_all_effect (now : Z) (s : Store) (c u : string) :
  u <> "" -> is_member s u c = true ->
  let s' := with_messages s
              (map (fun x => if unread_from_others c u x
                             then read_all_data now x else x) (messages s)) in
  put_read_all now c (Some u) s
  = (json 200 (JObj [("message", JStr "Messages marked as read");
                     ("updatedCount",
                      JNum (Z.of_nat (List.length
                                        (filter (unread_from_others c u) (messages s)))))]),
     s', [s']).
Proof.
  intros Hu Hmem s'.
  destruct (member_found s u c Hmem) as (row & Hrow).
  unfold put_read_all, try_catch. rewrite present_some by assumption.
  cbn [negb value]. unfold chatMember_findUnique.
  rewrite bind_read, Hrow. reflexivity.
Qed.

End MessageFacts.

(** ** More on the transformers and the error middleware *)

Module TransformFacts.
Import Js Errors Response ErrorHandler AsyncHandler Shapes Samples.

Lemma bind_normal {A B} (c : Completion A) (k : A -> Completion B) (b : B) :
  Js.bind c k = Normal b -> exists a, c = Normal a /\ k a = Normal b.
Proof.
  destruct c as [a|m]; simpl; [eauto|discriminate].
Qed.

(** Peels an equation [... = Normal e] down to the constructor call that
    built [e]. *)
Ltac peel H :=
  repeat match type of H with
         | Js.bind _ _ = Normal _ =>
             let a := fresh "a" in
             let Ha := fresh "Ha" in
             apply bind_normal in H as (a & Ha & H)
         | (if ?b then _ else _) = Normal _ => destruct b
         end.

Lemma transformPrismaError_operational (trace : string) (v : JsVal) (e : APIError) :
  transformPrismaError trace v = Normal e -> isOperational e = true.
Proof.
  unfold transformPrismaError. intros H. peel H;
    repeat match type of H with
           | Js.bind _ _ = Normal _ =>
               let a := fresh "a" in
               let Ha := fresh "Ha" in
               apply bind_normal in H as (a & Ha & H)
           end;
    injection H as <-; reflexivity.
Qed.

Lemma transformValidationError_operational (trace : string) (v : JsVal) (e : APIError) :
  transformValidationError trace v = Normal e -> isOperational e = true.
Proof.
  unfold transformValidationError. intros H.
  apply bind_normal in H as (d & _ & H).
  destruct d; peel H; try (injection H as <-; reflexivity);
    destruct a; peel H; injection H as <-; reflexivity.
Qed.

Lemma transformClerkError_operational (trace : string) (v : JsVal) (e : APIError) :
  transformClerkError trace v = Normal e -> isOperational e = true.
Proof.
  unfold transformClerkError. intros H. peel H; injection H as <-; reflexivity.
Qed.

Lemma transformCloudinaryError_operational (trace : string) (v : JsVal) (e : APIError) :
  transformCloudinaryError trace v = Normal e -> isOperational e = true.
Proof.
  unfold transformCloudinaryError. intros H. peel H; injection H as <-; reflexivity.
Qed.

(** Whatever rule fires, the error the transformer builds is marked
    operational. *)
Lemma transformError_operational (trace : string) (v : JsVal) (e : APIError) :
  transformError trace (ThrownVal v) = Normal e -> isOperational e = true.
Proof.
  unfold transformError. intros H.
  apply bind_normal in H as (b1 & _ & H).
  destruct b1; [exact (transformPrismaError_operational _ _ _ H)|].
  apply bind_normal in H as (b2 & _ & H).
  destruct b2; [exact (transformClerkError_operational _ _ _ H)|].
  apply bind_normal in H as (b3 & _ & H).
  destruct b3; [exact (transformCloudinaryError_operational _ _ _ H)|].
  apply bind_normal in H as (b4 & _ & H).
  destruct b4; [exact (transformValidationError_operational _ _ _ H)|].
  apply bind_normal in H as (b5 & _ & H).
  destruct b5; [injection H as <-; reflexivity|].
  apply bind_normal in H as (msg & _ & H).
  injection H as <-. reflexivity.
Qed.

(** X1.  Outside development mode the middleware never answers a thrown
    value that is not an [APIError] with the generic "Something went
    wrong!": the transformed error is always operational, so its own status,
    message, code and details are sent. *)
Theorem production_sends_transformed_error
        (trace : string) (node_env v : JsVal) (e : APIError) :
  is_str node_env "development" = false ->
  transformError trace (ThrownVal v) = Normal e ->
  isOperational e = true
  /\ errorHandler trace node_env (ThrownVal v)
     = Normal (mkResponse (statusCode e)
                 (JObj [("error",
                         JObj ([("message", JStr (message e)); ("code", code e)]
                               ++ spread_if (details e) [("details", details e)]))])).
Proof.
  intros Henv He.
  pose proof (transformError_operational trace v e He) as Hop.
  split; [exact Hop|].
  unfold errorHandler. rewrite He. simpl. rewrite Henv.
  unfold sendErrorProd. now rewrite Hop.
Qed.

Lemma production_sends_transformed_error_witness :
  errorHandler "" (JStr "production") (ThrownVal (JObj [("message", JStr "boom")]))
  = Normal (mkResponse (JNum 500)
              (JObj [("error",
                      JObj [("message", JStr "boom");
                            ("code", JStr "INTERNAL_ERROR")])])).
Proof.
  exact (proj2 (production_sends_transformed_error "" (JStr "production")
                  (JObj [("message", JStr "boom")]) _ eq_refl eq_refl)).
Defined.

(** The call site of the transformer decides the stack of the error it
    builds and nothing else. *)
Ltac walk :=
  repeat (simpl;
          match goal with
          | |- context [Js.bind ?c _] => destruct c
          | |- context [if ?b then _ else _] => destruct b
          end);
  simpl; try reflexivity.

Lemma transformPrismaError_site (t t' : string) (v : JsVal) :
  transformPrismaError t' v = relocated t' (transformPrismaError t v).
Proof. unfold transformPrismaError. walk. Qed.

Lemma transformClerkError_site (t t' : string) (v : JsVal) :
  transformClerkError t' v = relocated t' (transformClerkError t v).
Proof. unfold transformClerkError. walk. Qed.

Lemma transformCloudinaryError_site (t t' : string) (v : JsVal) :
  transformCloudinaryError t' v = relocated t' (transformCloudinaryError t v).
Proof. unfold transformCloudinaryError. walk. Qed.

Lemma transformValidationError_site (t t' : string) (v : JsVal) :
  transformValidationError t' v = relocated t' (transformValidationError t v).
Proof.
  unfold transformValidationError.
  destruct (get v "details") as [d|m]; simpl; [|reflexivity].
  destruct d; walk; destruct a; walk.
Qed.

Lemma transformError_site (t t' : string) (v : JsVal) :
  transformError t' (ThrownVal v) = relocated t' (transformError t (ThrownVal v)).
Proof.
  unfold transformError.
  destruct (isPrismaError v) as [[|]|m]; simpl;
    [apply transformPrismaError_site| |reflexivity].
  destruct (isClerkError v) as [[|]|m]; simpl;
    [apply transformClerkError_site| |reflexivity].
  destruct (isCloudinaryError v) as [[|]|m]; simpl;
    [apply transformCloudinaryError_site| |reflexivity].
  destruct (isValidationLibError v) as [[|]|m]; simpl;
    [apply transformValidationError_site| |reflexivity].
  destruct (isMongoError v) as [[|]|m]; simpl; [reflexivity| |reflexivity].
  destruct (get v "message") as [msg|m]; reflexivity.
Qed.

Lemma sendErrorProd_site (t : string) (e : APIError) :
  sendErrorProd (captured_at t e) = sendErrorProd e.
Proof. reflexivity. Qed.

(** X2.  The error middleware does not transform a second time what
    [asyncHandler] routed to it.  The response is the rendering of the
    error the wrapper built, whose stack was captured in the wrapper and not
    in the middleware; outside development mode, where no stack is sent, it
    is exactly the response the middleware gives to the raw thrown value.
    An [APIError] passes through the wrapper unchanged. *)
Theorem asyncHandler_then_errorHandler
        (wrapper_site middleware_site : string) (node_env : JsVal)
        (x : Thrown) (e : APIError) :
  asyncHandler wrapper_site (RejectedWith x) = Next e ->
  errorHandler middleware_site node_env (ThrownAPI e)
  = errorHandler wrapper_site node_env x
  /\ (is_str node_env "development" = false ->
      errorHandler middleware_site node_env (ThrownAPI e)
      = errorHandler middleware_site node_env x)
  /\ (forall v, x = ThrownVal v -> stack e = wrapper_site)
  /\ asyncHandler middleware_site (RejectedWith (ThrownAPI e)) = Next e
  /\ (forall e0, x = ThrownAPI e0 -> e = e0).
Proof.
  unfold asyncHandler. intros H.
  destruct (transformError wrapper_site x) as [e'|m] eqn:Ht; [|discriminate].
  injection H as ->.
  assert (Hsame : errorHandler middleware_site node_env (ThrownAPI e)
                  = errorHandler wrapper_site node_env x).
  { destruct x as [e0|v].
    - simpl in Ht. now injection Ht as ->.
    - unfold errorHandler. now rewrite Ht. }
  split; [exact Hsame|].
  split.
  { intros Henv. destruct x as [e0|v].
    - simpl in Ht. now injection Ht as ->.
    - unfold errorHandler.
      rewrite (transformError_site wrapper_site middleware_site v), Ht.
      simpl. rewrite Henv. now rewrite sendErrorProd_site. }
  split.
  { intros v ->.
    pose proof (transformError_site wrapper_site wrapper_site v) as E.
    rewrite Ht in E. simpl in E. injection E as E. rewrite E. reflexivity. }
  split; [reflexivity|].
  intros e0 ->. simpl in Ht. now injection Ht.
Qed.

Lemma asyncHandler_then_errorHandler_witness :
  errorHandler "at errorHandler" (JStr "production") (ThrownVal unique_violation)
  = Normal (sendErrorProd
              (ConflictError "at asyncHandler" (JStr "email, username already exists")
                 (JObj [("field", JStr "email, username");
                        ("constraint", JStr "unique")])))
  /\ errorHandler "at errorHandler" (JStr "development")
       (ThrownAPI (ConflictError "at asyncHandler"
                     (JStr "email, username already exists")
                     (JObj [("field", JStr "email, username");
                            ("constraint", JStr "unique")])))
     = errorHandler "at asyncHandler" (JStr "development") (ThrownVal unique_violation).
Proof.
  destruct (asyncHandler_then_errorHandler "at asyncHandler" "at errorHandler"
              (JStr "production") (ThrownVal unique_violation) _ eq_refl)
    as (_ & Hprod & _).
  destruct (asyncHandler_then_errorHandler "at asyncHandler" "at errorHandler"
              (JStr "development") (ThrownVal unique_violation) _ eq_refl)
    as (Hdev & _).
  split; [|exact Hdev].
  rewrite <- (Hprod eq_refl). reflexivity.
Defined.

(** X3.  A Prisma unique-constraint error (P2002) becomes a 409
    CONFLICT_ERROR whose details name the field and whose message is that
    field followed by "already exists".  The field is the target columns
    joined by ", " when the target is an array, the target itself when it
    is another truthy value, and "field" when there is no meta or no
    target. *)
Theorem prisma_unique_violation (trace : string) (v m : JsVal) :
  get v "code" = Normal (JStr "P2002") ->
  get v "meta" = Normal m ->
  exists (field : JsVal) (e : APIError),
    transformPrismaError trace v = Normal e
    /\ name e = "ConflictError"
    /\ statusCode e = JNum 409
    /\ code e = JStr "CONFLICT_ERROR"
    /\ message e = to_string field ++ " already exists"
    /\ details e = JObj [("field", field); ("constraint", JStr "unique")]
    /\ (forall l, truthy m = true -> get_opt m "target" = JArr l ->
                  field = JStr (join ", " l))
    /\ (forall s, truthy m = true -> get_opt m "target" = JStr s -> s <> "" ->
                  field = JStr s)
    /\ (truthy m = false \/ truthy (get_opt m "target") = false ->
        field = JStr "field").
Proof.
  intros Hc Hm.
  assert (Hmeta : get (or_else m (JObj [])) "target"
                  = Normal (if truthy m then get_opt m "target" else JUndefined)).
  { unfold or_else. destruct (truthy m) eqn:Ht; [|reflexivity].
    destruct m; simpl in *; try discriminate; reflexivity. }
  set (t := if truthy m then get_opt m "target" else JUndefined) in *.
  set (target := or_else t (JArr [JStr "field"])).
  set (field := match target with JArr l => JStr (join ", " l) | _ => target end).
  exists field. eexists.
  split.
  { unfold transformPrismaError. rewrite Hc, Hm. simpl. rewrite Hmeta. simpl.
    reflexivity. }
  split; [reflexivity|]. split; [reflexivity|]. split; [reflexivity|].
  split; [reflexivity|].
  split.
  { simpl. unfold field, target. destruct (or_else t (JArr [JStr "field"])); reflexivity. }
  split.
  { intros l Ht Hl. unfold field, target, t. rewrite Ht, Hl. reflexivity. }
  split.
  { intros s Ht Hs Hne. unfold field, target, t. rewrite Ht, Hs.
    unfold or_else. simpl. apply String.eqb_neq in Hne as ->. reflexivity. }
  intros [Hf|Hf]; unfold field, target, t.
  - rewrite Hf. reflexivity.
  - destruct (truthy m); [|reflexivity].
    unfold or_else. rewrite Hf. reflexivity.
Qed.

Lemma prisma_unique_violation_witness :
  exists e,
    transformPrismaError "" unique_violation = Normal e
    /\ statusCode e = JNum 409
    /\ message e = "email, username already exists".
Proof.
  destruct (prisma_unique_violation "" unique_violation
              (JObj [("target", JArr [JStr "email"; JStr "username"])])
              eq_refl eq_refl)
    as (field & e & He & _ & Hs & _ & Hm & _ & Harr & _).
  exists e. split; [exact He|]. split; [exact Hs|].
  rewrite Hm, (Harr [JStr "email"; JStr "username"] eq_refl eq_refl). reflexivity.
Defined.


Lemma get_defined (v : JsVal) (k : string) :
  defined v = true -> exists y, get v k = Normal y.
Proof.
  destruct v; simpl; intros H; try discriminate; eauto.
Qed.

Lemma get_read (v x : JsVal) (k k' : string) :
  get v k = Normal x -> exists y, get v k' = Normal y.
Proof.
  destruct v; simpl; intros H; try discriminate; eauto.
Qed.

Lemma or_else_meta_readable (m : JsVal) (k : string) :
  exists y, get (or_else m (JObj [])) k = Normal y.
Proof.
  unfold or_else. destruct (truthy m) eqn:Hm; [|simpl; eauto].
  destruct m; simpl in *; try discriminate; eauto.
Qed.

(** [transformPrismaError] returns whenever the [code] can be read. *)
Lemma transformPrismaError_readable (trace : string) (v c : JsVal) :
  get v "code" = Normal c ->
  exists e, transformPrismaError trace v = Normal e.
Proof.
  intros Hc.
  destruct (get_read v c "code" "meta" Hc) as (m & Hm).
  destruct (get_read v c "code" "message" Hc) as (msg & Hmsg).
  destruct (or_else_meta_readable m "target") as (t & Ht).
  destruct (or_else_meta_readable m "field_name") as (f & Hf).
  unfold transformPrismaError. rewrite Hc, Hm. simpl. rewrite Ht, Hf, Hmsg. simpl.
  repeat match goal with
         | |- context [if ?b then _ else _] => destruct b
         end; eauto.
Qed.

(** X4.  [transformPrismaError] returns on every input whose [code] can be
    read, with a status among 400, 404, 409 and 500; a code it has no case
    for gives a 500 DATABASE_ERROR that keeps the original error. *)
Theorem prisma_status_and_default (trace : string) (v c : JsVal) :
  get v "code" = Normal c ->
  exists e,
    transformPrismaError trace v = Normal e
    /\ In (statusCode e) [JNum 400; JNum 404; JNum 409; JNum 500]
    /\ (forallb (fun k => negb (is_str c k)) handled_codes = true ->
        name e = "DatabaseError"
        /\ statusCode e = JNum 500
        /\ code e = JStr "DATABASE_ERROR"
        /\ message e = "Database operation failed"
        /\ originalError e = v).
Proof.
  intros Hc.
  destruct (get_read v c "code" "meta" Hc) as (m & Hm).
  destruct (get_read v c "code" "message" Hc) as (msg & Hmsg).
  destruct (or_else_meta_readable m "target") as (t & Ht).
  destruct (or_else_meta_readable m "field_name") as (f & Hf).
  unfold transformPrismaError. rewrite Hc, Hm. simpl. rewrite Ht, Hf, Hmsg. simpl.
  unfold handled_codes. simpl.
  repeat match goal with
         | |- context [if is_str c ?k then _ else _] =>
             destruct (is_str c k);
             [eexists; split; [reflexivity|]; simpl; intuition discriminate|]
         end.
  eexists. split; [reflexivity|]. split; [simpl; tauto|].
  intros _. repeat split.
  destruct v; simpl in Hc; try discriminate; reflexivity.
Qed.

Lemma prisma_status_and_default_witness :
  exists e,
    transformPrismaError "" (JObj [("code", JStr "P2034")]) = Normal e
    /\ statusCode e = JNum 500
    /\ originalError e = JObj [("code", JStr "P2034")].
Proof.
  destruct (prisma_status_and_default "" (JObj [("code", JStr "P2034")]) (JStr "P2034")
              eq_refl) as (e & He & _ & Hd).
  destruct (Hd eq_refl) as (_ & Hs & _ & _ & Ho).
  exists e. repeat split; assumption.
Defined.

(** Reading the entries of a Joi [details] array. *)
Lemma joiDetail_ok (d : JsVal) :
  joi_entry_ok d = true ->
  exists p msg ctx,
    get d "path" = Normal (JArr p)
    /\ joiDetail d = Normal (JObj [("field", JStr (join "." p)); ("message", msg);
                                   ("value", get_opt ctx "value")]).
Proof.
  destruct d as [| | | | | | | |fs]; simpl; try discriminate.
  unfold joiDetail. simpl.
  destruct (assoc "path" fs) as [| | | | | | |p|] eqn:Hp; try discriminate.
  intros _. exists p. eexists. eexists. split; reflexivity.
Qed.

Lemma joiDetail_bad (d : JsVal) :
  joi_entry_ok d = false -> exists msg, joiDetail d = Throws msg.
Proof.
  unfold joiDetail.
  destruct d as [| | | | | | | |fs]; simpl; eauto.
  destruct (assoc "path" fs); simpl; intros H; try discriminate; eauto.
Qed.

Lemma mapM_joi_ok (ds : list JsVal) :
  forallb joi_entry_ok ds = true ->
  exists l,
    mapM joiDetail ds = Normal l
    /\ List.length l = List.length ds
    /\ forall i d p,
         nth_error ds i = Some d -> get d "path" = Normal (JArr p) ->
         exists item, nth_error l i = Some item
                      /\ get_opt item "field" = JStr (join "." p).
Proof.
  induction ds as [|d ds IH]; simpl; intros H.
  - exists []. repeat split. intros i d p Hi. destruct i; discriminate.
  - apply andb_prop in H as [Hd Hds].
    destruct (joiDetail_ok d Hd) as (p & msg & ctx & Hp & Hj).
    destruct (IH Hds) as (l & Hl & Hlen & Hnth).
    rewrite Hj, Hl. simpl. eexists. split; [reflexivity|].
    split; [simpl; now rewrite Hlen|].
    intros i d0 p0 Hi Hp0. destruct i as [|i]; simpl in *.
    + injection Hi as <-. rewrite Hp in Hp0. injection Hp0 as <-.
      eexists. split; reflexivity.
    + exact (Hnth i d0 p0 Hi Hp0).
Qed.

Lemma mapM_joi_bad (ds : list JsVal) :
  forallb joi_entry_ok ds = false -> exists msg, mapM joiDetail ds = Throws msg.
Proof.
  induction ds as [|d ds IH]; simpl; intros H; [discriminate|].
  destruct (joi_entry_ok d) eqn:Hd; simpl in H.
  - destruct (joiDetail_ok d Hd) as (p & msg & ctx & _ & ->). simpl.
    destruct (IH H) as (m & ->). simpl. eauto.
  - destruct (joiDetail_bad d Hd) as (m & ->). simpl. eauto.
Qed.

(** X5.  For a Joi-shaped error ([details] an array) the validation
    transformer returns exactly when every entry is an object with an array
    [path]; it then answers 400 "Validation failed" with one detail per
    entry, in order, whose [field] is the path joined by dots.  One entry
    without an array path makes it throw. *)
Theorem joi_details_mapped (trace : string) (v : JsVal) (ds : list JsVal) :
  get v "details" = Normal (JArr ds) ->
  (forallb joi_entry_ok ds = true ->
   exists l,
     transformValidationError trace v
     = Normal (ValidationError trace (JStr "Validation failed") (JArr l))
     /\ List.length l = List.length ds
     /\ forall i d p,
          nth_error ds i = Some d -> get d "path" = Normal (JArr p) ->
          exists item, nth_error l i = Some item
                       /\ get_opt item "field" = JStr (join "." p))
  /\ (forallb joi_entry_ok ds = false ->
      exists msg, transformValidationError trace v = Throws msg).
Proof.
  intros Hd. unfold transformValidationError. rewrite Hd. simpl. split.
  - intros Hok. destruct (mapM_joi_ok ds Hok) as (l & Hl & Hlen & Hnth).
    exists l. rewrite Hl. simpl. auto.
  - intros Hbad. destruct (mapM_joi_bad ds Hbad) as (m & ->). simpl. eauto.
Qed.

Lemma joi_details_mapped_witness :
  exists l,
    transformValidationError "" joi_error
    = Normal (ValidationError "" (JStr "Validation failed") (JArr l))
    /\ List.length l = 2%nat
    /\ exists item, nth_error l 0 = Some item
                    /\ get_opt item "field" = JStr "user.email".
Proof.
  destruct (joi_details_mapped "" joi_error _ eq_refl) as (Hok & _).
  destruct (Hok eq_refl) as (l & Hl & Hlen & Hnth).
  exists l. split; [exact Hl|]. split; [exact Hlen|].
  exact (Hnth 0%nat _ [JStr "user"; JStr "email"] eq_refl eq_refl).
Defined.

Lemma mapM_yup_ok (es : list JsVal) :
  forallb defined es = true -> exists l, mapM yupDetail es = Normal l.
Proof.
  induction es as [|x es IH]; simpl; intros H; [eauto|].
  apply andb_prop in H as [Hx Hes].
  destruct (IH Hes) as (l & ->).
  unfold yupDetail.
  destruct (get_defined x "path" Hx) as (a & ->).
  destruct (get_defined x "message" Hx) as (b & ->).
  destruct (get_defined x "value" Hx) as (c & ->). simpl. eauto.
Qed.

Lemma transformValidationError_returns (trace : string) (v x : JsVal) :
  get v "code" = Normal x ->
  validation_shape_ok v = true ->
  exists e, transformValidationError trace v = Normal e.
Proof.
  intros Hc Hok. unfold transformValidationError.
  destruct (get_read v x "code" "details" Hc) as (d & Hd).
  destruct (get_read v x "code" "errors" Hc) as (er & He).
  destruct (get_read v x "code" "message" Hc) as (msg & Hmsg).
  assert (Hd' : get_opt v "details" = d).
  { destruct v; simpl in *; try discriminate; congruence. }
  assert (He' : get_opt v "errors" = er).
  { destruct v; simpl in *; try discriminate; congruence. }
  unfold validation_shape_ok in Hok. rewrite Hd', He' in Hok.
  rewrite Hd. simpl.
  destruct d; try (rewrite He; simpl; destruct er; try (rewrite Hmsg; simpl; eauto);
                   destruct (mapM_yup_ok _ Hok) as (l & ->); simpl; eauto).
  destruct (mapM_joi_ok _ Hok) as (l & -> & _). simpl. eauto.
Qed.

(** X6.  The transformer returns an [APIError] for every thrown value that
    is neither [null] nor [undefined], whose [code] is falsy or a string,
    and whose [details] or [errors] array, if it has one, holds only
    readable entries. *)
Theorem transformError_returns_on_wellformed (trace : string) (v c : JsVal) :
  get v "code" = Normal c ->
  (truthy c = false \/ exists s, c = JStr s) ->
  validation_shape_ok v = true ->
  exists e, transformError trace (ThrownVal v) = Normal e.
Proof.
  intros Hc Hcode Hshape.
  assert (Hget : forall k, exists y, get v k = Normal y)
    by (intros k; exact (get_read v c "code" k Hc)).
  assert (Hp : exists b, isPrismaError v = Normal b).
  { unfold isPrismaError. rewrite Hc. simpl.
    destruct Hcode as [->|(s & ->)]; [eauto|].
    simpl. destruct (negb (s =? "")%string); eauto. }
  destruct Hp as (b & Hp). unfold transformError. rewrite Hp. simpl.
  destruct b.
  { destruct (transformPrismaError_readable trace v c Hc) as (e & He). eauto. }
  destruct (transformValidationError_returns trace v c Hc Hshape) as (ev & Hev).
  rewrite Hev.
  unfold isClerkError, isCloudinaryError, isValidationLibError, isMongoError,
    transformClerkError, transformCloudinaryError.
  destruct (Hget "clerkError") as (x1 & ->).
  destruct (Hget "status") as (x2 & ->).
  destruct (Hget "message") as (x3 & ->).
  destruct (Hget "http_code") as (x4 & ->).
  destruct (Hget "isJoi") as (x6 & ->).
  destruct (Hget "name") as (x5 & ->). simpl.
  repeat match goal with
         | |- context [if ?b then _ else _] => destruct b; simpl
         end; eauto.
Qed.

Lemma transformError_returns_on_wellformed_witness :
  exists e, transformError "" (ThrownVal joi_error) = Normal e.
Proof.
  apply (transformError_returns_on_wellformed "" joi_error JUndefined);
    [reflexivity|left; reflexivity|reflexivity].
Defined.

End TransformFacts.

(** ** More on pagination, the health check and the middleware *)

Module EnvelopeFacts.
Import Js Errors Response ErrorHandler AsyncHandler Health Envelope Shapes Samples.

(** X7.  For a positive page size and a non-negative total, both below
    [2 ^ 53], [hasNext] says exactly whether rows remain beyond the current
    page, that is whether [page * limit < total]; with no rows there are 0
    pages. *)
Theorem hasNext_iff_rows_remain (page limit total : Z) :
  0 < limit < 2 ^ 53 -> 0 <= total < 2 ^ 53 ->
  hasNext (mkPagination page limit total) = (page * limit <? total)
  /\ (total = 0 -> pages (mkPagination page limit total) = JNum 0).
Proof.
  intros Hlimit Htotal.
  destruct (ResponseFacts.Math_ceil_divide total limit Htotal Hlimit)
    as (n & Hn & Hlo & Hhi).
  assert (Hpages : pages (mkPagination page limit total) = JNum n) by exact Hn.
  split.
  - unfold hasNext. rewrite Hpages. simpl.
    destruct (Z.ltb_spec page n) as [H|H]; symmetry.
    + apply Z.ltb_lt. nia.
    + apply Z.ltb_ge. nia.
  - intros H0. rewrite Hpages. f_equal. subst total. nia.
Qed.

Lemma hasNext_iff_rows_remain_witness :
  hasNext (mkPagination 4 20 95) = true /\ hasNext (mkPagination 5 20 100) = false.
Proof.
  split.
  - rewrite (proj1 (hasNext_iff_rows_remain 4 20 95 ltac:(lia) ltac:(lia))). reflexivity.
  - rewrite (proj1 (hasNext_iff_rows_remain 5 20 100 ltac:(lia) ltac:(lia))). reflexivity.
Defined.

(** X8.  With a page size of 0 the page count is not a finite number: the
    JSON sent has [pages: null], and [hasNext] is true on every page when
    there are rows and false when there are none. *)
Theorem paginated_with_limit_zero
        (now : string) (data message : JsVal) (page total : Z) :
  0 <= total ->
  let sent := rendered (paginated now data (mkPagination page 0 total) message) in
  get_opt (get_opt sent "pagination") "pages" = JNull
  /\ get_opt (get_opt sent "pagination") "hasNext" = JBool (0 <? total).
Proof.
  intros Htotal sent. unfold sent, rendered, paginated, hasNext.
  unfold pages, divide.
  cbn [body Response.page Response.limit Response.total Z.eqb].
  destruct (Z.ltb_spec 0 total) as [H|H].
  - destruct data, message; split; reflexivity.
  - assert (total = 0) as -> by lia.
    destruct data, message; split; reflexivity.
Qed.

Lemma paginated_with_limit_zero_witness :
  let sent := rendered (paginated "t" (JArr []) (mkPagination 7 0 3) JUndefined) in
  get_opt (get_opt sent "pagination") "pages" = JNull
  /\ get_opt (get_opt sent "pagination") "hasNext" = JBool true.
Proof.
  apply (paginated_with_limit_zero "t" (JArr []) JUndefined 7 3). lia.
Defined.

Lemma every_healthy (l : list JsVal) :
  forallb defined l = true ->
  every is_healthy l = Normal (forallb reports_healthy l).
Proof.
  induction l as [|x l IH]; simpl; intros H; [reflexivity|].
  apply andb_prop in H as [Hx Hl].
  unfold is_healthy at 1, reports_healthy at 1.
  destruct x as [| | | | | | | |fs]; simpl in Hx; try discriminate; simpl;
    try reflexivity.
  destruct (is_str (assoc "status" fs) "healthy"); [exact (IH Hl)|reflexivity].
Qed.

(** X9.  The health response is 200 "healthy" exactly when every check
    reports the status 'healthy', and 503 "unhealthy" otherwise; with no
    checks at all it is 200. *)
Theorem health_status (now : string) (uptime : JsVal) (checks : list (string * JsVal)) :
  forallb defined (map snd checks) = true ->
  let ok := forallb reports_healthy (map snd checks) in
  health now uptime (JObj checks)
  = Normal (mkResponse (JNum (if ok then 200 else 503))
              (JObj [("status", JStr (if ok then "healthy" else "unhealthy"));
                     ("timestamp", JStr now);
                     ("uptime", uptime);
                     ("checks", JObj checks)]))
  /\ health now uptime JUndefined
     = Normal (mkResponse (JNum 200)
                 (JObj [("status", JStr "healthy");
                        ("timestamp", JStr now);
                        ("uptime", uptime);
                        ("checks", JObj [])])).
Proof.
  intros Hdef ok. split; [|reflexivity].
  unfold health. simpl. rewrite (every_healthy _ Hdef). reflexivity.
Qed.

Lemma health_status_witness :
  exists body,
    health "t" (JNum 12)
      (JObj [("database", JObj [("status", JStr "healthy")]);
             ("storage", JObj [("status", JStr "degraded")])])
    = Normal (mkResponse (JNum 503) body).
Proof.
  eexists.
  exact (proj1 (health_status "t" (JNum 12)
                  [("database", JObj [("status", JStr "healthy")]);
                   ("storage", JObj [("status", JStr "degraded")])] eq_refl)).
Defined.

(** X10.  A request to an unmatched route ends, through [notFoundHandler]
    and the error middleware, in a 404 whose error carries the code
    ROUTE_NOT_FOUND and the message "Route <url> not found"; outside
    development mode nothing else is sent. *)
Theorem unmatched_route_answer (trace : string) (node_env : JsVal) (url : string) :
  exists extra,
    errorHandler trace node_env (ThrownAPI (notFoundHandler trace url))
    = Normal (mkResponse (JNum 404)
                (JObj [("error",
                        JObj (("message", JStr ("Route " ++ url ++ " not found"))
                              :: ("code", JStr "ROUTE_NOT_FOUND") :: extra))]))
    /\ (is_str node_env "development" = false -> extra = []).
Proof.
  unfold errorHandler. simpl.
  destruct (is_str node_env "development").
  - eexists. split; [reflexivity|discriminate].
  - exists []. split; reflexivity.
Qed.

(** X11.  Outside development mode the response never carries a stack
    trace, the original error or the status code in its body, and for an
    error that is not operational it does not depend on the error at all:
    any two such errors get the same 500 response. *)
Theorem production_hides_internals (err err' : APIError) :
  Forall (fun k => has_field k (get_opt (body (sendErrorProd err)) "error") = false)
         ["stack"; "originalError"; "statusCode"]
  /\ (isOperational err = false -> isOperational err' = false ->
      sendErrorProd err = sendErrorProd err'
      /\ status (sendErrorProd err) = JNum 500).
Proof.
  split.
  - unfold sendErrorProd, spread_if.
    destruct (isOperational err); simpl; [|repeat constructor].
    destruct (truthy (details err)); repeat constructor.
  - intros H H'. unfold sendErrorProd. rewrite H, H'. split; reflexivity.
Qed.

Lemma production_hides_internals_witness :
  sendErrorProd (programming_error "x is not defined" "at handler (app.js:10)")
  = sendErrorProd (programming_error "connect ECONNREFUSED" "at net.js:1").
Proof.
  exact (proj1 (proj2 (production_hides_internals
                         (programming_error "x is not defined" "at handler (app.js:10)")
                         (programming_error "connect ECONNREFUSED" "at net.js:1"))
                      eq_refl eq_refl)).
Defined.

End EnvelopeFacts.

(** ** The message routes together *)

Module MessageFlow.
Import Js Response Prisma Route Messages MessageQueries Observe Shapes Samples.
Import RowFacts DBFacts RouteFacts.

Lemma member_row (s : Store) (u c : string) :
  is_member s u c = true ->
  exists row, find (member_key u c) (chatMembers s) = Some row.
Proof.
  unfold is_member. intros H.
  destruct (find (member_key u c) (chatMembers s)) as [row|] eqn:Hf; [now exists row|].
  apply existsb_exists in H as (x & Hx & Hm).
  now rewrite (find_none _ _ Hf x Hx) in Hm.
Qed.

Lemma update_found (id : string) (data : Message.t -> Message.t)
      (s : Store) (m : Message.t) :
  find (message_matches id) (messages s) = Some m ->
  message_update id data s
  = (Resolved (data m),
     with_messages s
       (map (fun x => if message_matches id x then data x else x) (messages s)),
     [with_messages s
        (map (fun x => if message_matches id x then data x else x) (messages s))]).
Proof.
  intros H. unfold message_update. now rewrite H.
Qed.

(** Looking a message up after rows chosen by [P] were rewritten by an
    update that keeps ids. *)
Lemma find_after_map (P : Message.t -> bool) (data : Message.t -> Message.t)
      (id0 : string) (l : list Message.t) :
  (forall x, Message.id (data x) = Message.id x) ->
  find (message_matches id0) (map (fun x => if P x then data x else x) l)
  = option_map (fun m => if P m then data m else m) (find (message_matches id0) l).
Proof.
  intros Hid. induction l as [|x l IH]; simpl; [reflexivity|].
  assert (E : message_matches id0 (if P x then data x else x) = message_matches id0 x).
  { unfold message_matches. destruct (P x); [now rewrite Hid|reflexivity]. }
  rewrite E. destruct (message_matches id0 x); [reflexivity|exact IH].
Qed.

Lemma found_id (id : string) (l : list Message.t) (m : Message.t) :
  find (message_matches id) l = Some m -> Message.id m = id.
Proof.
  intros H. apply find_some in H as [_ H]. now apply String.eqb_eq in H.
Qed.

(** The two outcomes of [PUT /:id/delivered] for a member. *)
Lemma put_delivered_marks (now : Z) (s : Store) (id u : string) (m : Message.t) :
  u <> "" ->
  find (message_matches id) (messages s) = Some m ->
  is_member s u (Message.chatId m) = true ->
  Message.deliveredAt m = None -> Message.senderId m <> u ->
  put_delivered now id (Some u) s
  = (json 200 (JObj [("id", JStr (Message.id m)); ("deliveredAt", JNum now)]),
     with_messages s
       (map (fun x => if message_matches id x then set_delivered now x else x)
            (messages s)),
     [with_messages s
        (map (fun x => if message_matches id x then set_delivered now x else x)
             (messages s))]).
Proof.
  intros Hu Hfind Hmem Hnone Hother.
  destruct (member_row s u _ Hmem) as (row & Hrow).
  unfold put_delivered, try_catch. rewrite present_some by assumption.
  cbn [negb value]. unfold message_findUnique, chatMember_findUnique.
  rewrite bind_read, Hfind. cbv beta iota. rewrite bind_read, Hrow.
  cbv beta iota. rewrite Hnone. apply String.eqb_neq in Hother as ->.
  cbn [is_set orb].
  rewrite (bind_resolved _ _ _ _ _ _ (update_found id _ s m Hfind)).
  reflexivity.
Qed.

Lemma put_delivered_skips (now : Z) (s : Store) (id u : string) (m : Message.t) :
  u <> "" ->
  find (message_matches id) (messages s) = Some m ->
  is_member s u (Message.chatId m) = true ->
  Message.deliveredAt m <> None \/ Message.senderId m = u ->
  put_delivered now id (Some u) s
  = (json 200 (JObj [("message", JStr "Message already delivered or user is sender")]),
     s, []).
Proof.
  intros Hu Hfind Hmem Hskip.
  destruct (member_row s u _ Hmem) as (row & Hrow).
  unfold put_delivered, try_catch. rewrite present_some by assumption.
  cbn [negb value]. unfold message_findUnique, chatMember_findUnique.
  rewrite bind_read, Hfind. cbv beta iota. rewrite bind_read, Hrow.
  cbv beta iota.
  destruct Hskip as [Hd|Hs].
  - destruct (Message.deliveredAt m); [reflexivity|now elim Hd].
  - rewrite Hs, String.eqb_refl, orb_true_r. reflexivity.
Qed.

Lemma put_read_marks (now : Z) (s : Store) (id u : string) (m : Message.t) :
  u <> "" ->
  find (message_matches id) (messages s) = Some m ->
  is_member s u (Message.chatId m) = true ->
  Message.readAt m = None -> Message.senderId m <> u ->
  put_read now id (Some u) s
  = (json 200 (JObj [("id", JStr (Message.id (read_data now m m)));
                     ("deliveredAt", opt_date (Message.deliveredAt (read_data now m m)));
                     ("readAt", opt_date (Message.readAt (read_data now m m)))]),
     with_messages s
       (map (fun x => if message_matches id x then read_data now m x else x)
            (messages s)),
     [with_messages s
        (map (fun x => if message_matches id x then read_data now m x else x)
             (messages s))]).
Proof.
  intros Hu Hfind Hmem Hnone Hother.
  destruct (member_row s u _ Hmem) as (row & Hrow).
  unfold put_read, try_catch. rewrite present_some by assumption.
  cbn [negb value]. unfold message_findUnique, chatMember_findUnique.
  rewrite bind_read, Hfind. cbv beta iota. rewrite bind_read, Hrow.
  cbv beta iota. rewrite Hnone. apply String.eqb_neq in Hother as ->.
  cbn [is_set orb].
  rewrite (bind_resolved _ _ _ _ _ _ (update_found id _ s m Hfind)).
  reflexivity.
Qed.

(** X12.  Marking delivered is idempotent: once a member other than the
    sender has marked a message delivered, a second call changes nothing
    and the delivery time stays the first one; a call by the sender never
    sets it. *)
Theorem mark_delivered_idempotent
        (now1 now2 : Z) (s : Store) (id u : string) (m : Message.t) :
  u <> "" ->
  find (message_matches id) (messages s) = Some m ->
  is_member s u (Message.chatId m) = true ->
  Message.deliveredAt m = None ->
  (Message.senderId m <> u ->
   exists s1,
     snd (fst (put_delivered now1 id (Some u) s)) = s1
     /\ find (message_matches id) (messages s1) = Some (set_delivered now1 m)
     /\ put_delivered now2 id (Some u) s1
        = (json 200
             (JObj [("message", JStr "Message already delivered or user is sender")]),
           s1, []))
  /\ (Message.senderId m = u ->
      snd (fst (put_delivered now1 id (Some u) s)) = s).
Proof.
  intros Hu Hfind Hmem Hnone. split.
  - intros Hother.
    rewrite (put_delivered_marks now1 s id u m) by assumption.
    eexists. split; [reflexivity|].
    assert (Hfind1 : find (message_matches id)
                       (map (fun x => if message_matches id x
                                      then set_delivered now1 x else x) (messages s))
                     = Some (set_delivered now1 m)).
    { rewrite find_after_map by reflexivity. rewrite Hfind. simpl.
      unfold message_matches. now rewrite (found_id _ _ _ Hfind), String.eqb_refl. }
    split; [exact Hfind1|].
    apply (put_delivered_skips now2 _ id u (set_delivered now1 m));
      [assumption|exact Hfind1|exact Hmem|left; discriminate].
  - intros Hsender.
    rewrite (put_delivered_skips now1 s id u m) by auto. reflexivity.
Qed.

Lemma mark_delivered_idempotent_witness :
  exists s1,
    snd (fst (put_delivered 150 "m2" (Some "u2") chat_store)) = s1
    /\ find (message_matches "m2") (messages s1)
       = Some (Message.mk "m2" "u1" "c1" "hello" 95 (Some 150) None)
    /\ snd (fst (put_delivered 160 "m2" (Some "u2") s1)) = s1.
Proof.
  destruct (mark_delivered_idempotent 150 160 chat_store "m2" "u2"
              (Message.mk "m2" "u1" "c1" "hello" 95 None None))
    as (H & _); [discriminate|reflexivity|reflexivity|reflexivity|].
  destruct H as (s1 & H1 & H2 & H3); [discriminate|].
  exists s1. split; [exact H1|]. split; [exact H2|]. now rewrite H3.
Defined.

(** X13.  Delivered first, read later: after a member other than the
    sender marks a message delivered at [t1] and then read at [t2], the
    message keeps [deliveredAt = t1] and has [readAt = t2]; a later
    delivered call is a no-op. *)
Theorem delivered_then_read
        (t1 t2 t3 : Z) (s : Store) (id u : string) (m : Message.t) :
  u <> "" ->
  find (message_matches id) (messages s) = Some m ->
  is_member s u (Message.chatId m) = true ->
  Message.deliveredAt m = None -> Message.readAt m = None ->
  Message.senderId m <> u ->
  let s1 := snd (fst (put_delivered t1 id (Some u) s)) in
  let s2 := snd (fst (put_read t2 id (Some u) s1)) in
  find (message_matches id) (messages s2)
  = Some (Message.mk (Message.id m) (Message.senderId m) (Message.chatId m)
                     (Message.body m) (Message.createdAt m) (Some t1) (Some t2))
  /\ snd (fst (put_delivered t3 id (Some u) s2)) = s2.
Proof.
  intros Hu Hfind Hmem Hdel Hread Hother s1 s2.
  assert (Hid : message_matches id m = true).
  { unfold message_matches. now rewrite (found_id _ _ _ Hfind), String.eqb_refl. }
  unfold s2, s1.
  rewrite (put_delivered_marks t1 s id u m) by assumption. cbn [fst snd].
  set (s1' := with_messages s _).
  assert (Hfind1 : find (message_matches id) (messages s1') = Some (set_delivered t1 m)).
  { unfold s1'. cbn [messages with_messages].
    rewrite find_after_map by reflexivity. rewrite Hfind. simpl. now rewrite Hid. }
  rewrite (put_read_marks t2 s1' id u (set_delivered t1 m));
    [|assumption|exact Hfind1|exact Hmem|exact Hread|exact Hother].
  cbn [fst snd].
  set (s2' := with_messages s1' _).
  assert (Hfind2 : find (message_matches id) (messages s2')
                   = Some (read_data t2 (set_delivered t1 m) (set_delivered t1 m))).
  { unfold s2'. cbn [messages with_messages].
    rewrite find_after_map by (intros x; unfold read_data;
                               destruct (is_set _); reflexivity).
    rewrite Hfind1. simpl.
    assert (message_matches id (set_delivered t1 m) = true) as -> by exact Hid.
    reflexivity. }
  split; [exact Hfind2|].
  rewrite (put_delivered_skips t3 s2' id u _ Hu Hfind2);
    [reflexivity|exact Hmem|left; discriminate].
Qed.

Lemma delivered_then_read_witness :
  let s1 := snd (fst (put_delivered 150 "m2" (Some "u2") chat_store)) in
  let s2 := snd (fst (put_read 170 "m2" (Some "u2") s1)) in
  find (message_matches "m2") (messages s2)
  = Some (Message.mk "m2" "u1" "c1" "hello" 95 (Some 150) (Some 170)).
Proof.
  exact (proj1 (delivered_then_read 150 170 180 chat_store "m2" "u2"
                  (Message.mk "m2" "u1" "c1" "hello" 95 None None)
                  ltac:(discriminate) eq_refl eq_refl eq_refl eq_refl
                  ltac:(discriminate))).
Defined.


(** The table a member-or-not request leaves behind, for each of the four
    routes that write to it: untouched, or rewritten row by row. *)
Lemma put_delivered_table (now : Z) (id : string) (userId : option string) (s : Store) :
  let s' := snd (fst (put_delivered now id userId s)) in
  s' = s
  \/ exists m, find (message_matches id) (messages s) = Some m
               /\ Message.deliveredAt m = None
               /\ messages s'
                  = map (fun x => if message_matches id x then set_delivered now x else x)
                        (messages s).
Proof.
  unfold put_delivered, try_catch.
  destruct (present userId); cbn [negb]; [|left; reflexivity].
  unfold message_findUnique. rewrite bind_read.
  destruct (find (message_matches id) (messages s)) as [m|] eqn:Hfind;
    [|left; reflexivity].
  unfold chatMember_findUnique. rewrite bind_read.
  destruct (find _ (chatMembers s)); [|left; reflexivity].
  destruct (Message.deliveredAt m) eqn:Hd; cbn [is_set orb]; [left; reflexivity|].
  destruct (Message.senderId m =? value userId)%string; [left; reflexivity|].
  rewrite (bind_resolved _ _ _ _ _ _ (update_found id _ s m Hfind)).
  right. exists m. auto.
Qed.

Lemma put_read_table (now : Z) (id : string) (userId : option string) (s : Store) :
  let s' := snd (fst (put_read now id userId s)) in
  s' = s
  \/ exists m, find (message_matches id) (messages s) = Some m
               /\ Message.readAt m = None
               /\ messages s'
                  = map (fun x => if message_matches id x then read_data now m x else x)
                        (messages s).
Proof.
  unfold put_read, try_catch.
  destruct (present userId); cbn [negb]; [|left; reflexivity].
  unfold message_findUnique. rewrite bind_read.
  destruct (find (message_matches id) (messages s)) as [m|] eqn:Hfind;
    [|left; reflexivity].
  unfold chatMember_findUnique. rewrite bind_read.
  destruct (find _ (chatMembers s)); [|left; reflexivity].
  destruct (Message.readAt m) eqn:Hd; cbn [is_set orb]; [left; reflexivity|].
  destruct (Message.senderId m =? value userId)%string; [left; reflexivity|].
  rewrite (bind_resolved _ _ _ _ _ _ (update_found id _ s m Hfind)).
  right. exists m. auto.
Qed.

Lemma put_read_all_table (now : Z) (chatId : string) (userId : option string) (s : Store) :
  let s' := snd (fst (put_read_all now chatId userId s)) in
  s' = s
  \/ messages s'
     = map (fun x => if unread_from_others chatId (value userId) x
                     then read_all_data now x else x) (messages s).
Proof.
  unfold put_read_all, try_catch.
  destruct (present userId); cbn [negb]; [|left; reflexivity].
  unfold chatMember_findUnique. rewrite bind_read.
  destruct (find _ (chatMembers s)); [|left; reflexivity].
  right. reflexivity.
Qed.

Lemma delete_message_table (id : string) (userId : option string) (s : Store) :
  let s' := snd (fst (delete_message id userId s)) in
  s' = s
  \/ exists m, find (message_matches id) (messages s) = Some m
               /\ messages s'
                  = map (fun x => if message_matches id x
                                  then set_body "[Message deleted]" x else x)
                        (messages s).
Proof.
  unfold delete_message, try_catch.
  destruct (present userId); cbn [negb]; [|left; reflexivity].
  unfold message_findUnique. rewrite bind_read.
  destruct (find (message_matches id) (messages s)) as [m|] eqn:Hfind;
    [|left; reflexivity].
  destruct (Message.senderId m =? value userId)%string; cbn [negb];
    [|left; reflexivity].
  rewrite (bind_resolved _ _ _ _ _ _ (update_found id _ s m Hfind)).
  right. exists m. auto.
Qed.

Lemma forward_refl (m : Message.t) : forward m m.
Proof. unfold forward. tauto. Qed.

Lemma forward_set_delivered (now : Z) (m : Message.t) : forward m (set_delivered now m).
Proof. unfold forward. simpl. repeat split; auto. discriminate. Qed.

Lemma forward_set_body (text : string) (m : Message.t) : forward m (set_body text m).
Proof. unfold forward. simpl. tauto. Qed.

Lemma forward_read_data (now : Z) (message m : Message.t) :
  Message.readAt m = None -> forward m (read_data now message m).
Proof.
  intros H. unfold forward, read_data.
  destruct (is_set (Message.deliveredAt message)); simpl; rewrite H;
    repeat split; auto; discriminate.
Qed.

Lemma forward_read_all_data (now : Z) (m : Message.t) :
  Message.readAt m = None -> forward m (read_all_data now m).
Proof.
  intros H. unfold forward. simpl. rewrite H. repeat split; auto; discriminate.
Qed.

Lemma unread_has_no_readAt (c u : string) (m : Message.t) :
  unread_from_others c u m = true -> Message.readAt m = None.
Proof.
  unfold unread_from_others. intros H. apply andb_prop in H as [_ H].
  destruct (Message.readAt m); [discriminate|reflexivity].
Qed.

Lemma read_data_keeps_id (now : Z) (message x : Message.t) :
  Message.id (read_data now message x) = Message.id x.
Proof.
  unfold read_data. destruct (is_set (Message.deliveredAt message)); reflexivity.
Qed.

(** X14.  No request to the delivered, read, read-all or delete routes,
    whoever sends it and whatever its arguments, loses a message or moves
    one backward: every message that could be looked up before can be
    looked up afterwards, with the same id, sender, chat and creation time,
    its delivery time still set if it was set, and its read time unchanged
    if it was set. *)
Theorem messages_only_move_forward
        (now : Z) (id chatId : string) (userId : option string) (s : Store) :
  Forall (fun s' =>
            forall id0 m,
              find (message_matches id0) (messages s) = Some m ->
              exists m', find (message_matches id0) (messages s') = Some m'
                         /\ forward m m')
         [snd (fst (put_delivered now id userId s));
          snd (fst (put_read now id userId s));
          snd (fst (put_read_all now chatId userId s));
          snd (fst (delete_message id userId s))].
Proof.
  repeat apply Forall_cons; [| | | |apply Forall_nil]; intros id0 m Hm.
  - destruct (put_delivered_table now id userId s) as [->|(m0 & _ & _ & ->)].
    + exists m. split; [exact Hm|apply forward_refl].
    + rewrite find_after_map by reflexivity. rewrite Hm. simpl.
      eexists. split; [reflexivity|].
      destruct (message_matches id m);
        [apply forward_set_delivered|apply forward_refl].
  - destruct (put_read_table now id userId s) as [->|(m0 & Hm0 & Hunread & ->)].
    + exists m. split; [exact Hm|apply forward_refl].
    + rewrite find_after_map by (intros x; apply read_data_keeps_id).
      rewrite Hm. simpl. eexists. split; [reflexivity|].
      destruct (message_matches id m) eqn:Hid; [|apply forward_refl].
      apply forward_read_data.
      assert (id0 = id).
      { apply found_id in Hm. apply String.eqb_eq in Hid. congruence. }
      subst id0. rewrite Hm in Hm0. now injection Hm0 as ->.
  - destruct (put_read_all_table now chatId userId s) as [->| ->].
    + exists m. split; [exact Hm|apply forward_refl].
    + rewrite find_after_map by reflexivity. rewrite Hm. simpl.
      eexists. split; [reflexivity|].
      destruct (unread_from_others chatId (value userId) m) eqn:Hun;
        [|apply forward_refl].
      apply forward_read_all_data. exact (unread_has_no_readAt _ _ _ Hun).
  - destruct (delete_message_table id userId s) as [->|(m0 & _ & ->)].
    + exists m. split; [exact Hm|apply forward_refl].
    + rewrite find_after_map by reflexivity. rewrite Hm. simpl.
      eexists. split; [reflexivity|].
      destruct (message_matches id m); [apply forward_set_body|apply forward_refl].
Qed.

(** With unique ids the row found is the only row of that id. *)
Lemma unique_row (l : list Message.t) (id : string) (m x : Message.t) :
  NoDup (map Message.id l) ->
  find (message_matches id) l = Some m ->
  In x l -> message_matches id x = true -> x = m.
Proof.
  induction l as [|y l IH]; simpl; intros Hnd Hfind Hin Hx; [contradiction|].
  inversion Hnd as [|? ? Hnotin Hnd']; subst.
  unfold message_matches in Hx. apply String.eqb_eq in Hx.
  destruct (message_matches id y) eqn:Hy.
  - injection Hfind as <-.
    destruct Hin as [->|Hin]; [reflexivity|].
    exfalso. apply Hnotin. unfold message_matches in Hy. apply String.eqb_eq in Hy.
    rewrite Hy, <- Hx. now apply in_map.
  - destruct Hin as [<-|Hin].
    + unfold message_matches in Hy. apply String.eqb_neq in Hy. contradiction.
    + apply (IH Hnd' Hfind Hin). unfold message_matches. now apply String.eqb_eq.
Qed.

Lemma preserved_by_map (P : Message.t -> bool) (data : Message.t -> Message.t)
      (s s' : Store) :
  read_means_delivered s ->
  messages s' = map (fun x => if P x then data x else x) (messages s) ->
  (forall x, In x (messages s) -> P x = true ->
             Message.readAt (data x) <> None -> Message.deliveredAt (data x) <> None) ->
  read_means_delivered s'.
Proof.
  intros Hinv Hs' Hdata m Hin Hread. rewrite Hs' in Hin.
  apply in_map_iff in Hin as (x & <- & Hx).
  destruct (P x) eqn:HP; [now apply Hdata|now apply Hinv].
Qed.

(** X15.  Read implies delivered is an invariant of the store: if the
    message ids are unique and every read message has a delivery time, the
    same holds after any request to the delivered, read, read-all or delete
    routes. *)
Theorem read_means_delivered_kept
        (now : Z) (id chatId : string) (userId : option string) (s : Store) :
  NoDup (map Message.id (messages s)) ->
  read_means_delivered s ->
  Forall read_means_delivered
         [snd (fst (put_delivered now id userId s));
          snd (fst (put_read now id userId s));
          snd (fst (put_read_all now chatId userId s));
          snd (fst (delete_message id userId s))].
Proof.
  intros Hnd Hinv.
  repeat apply Forall_cons; [| | | |apply Forall_nil].
  - destruct (put_delivered_table now id userId s) as [->|(m0 & _ & _ & Hs')];
      [exact Hinv|].
    apply (preserved_by_map _ _ s _ Hinv Hs'). intros x _ _ _. discriminate.
  - destruct (put_read_table now id userId s) as [->|(m0 & Hm0 & _ & Hs')];
      [exact Hinv|].
    apply (preserved_by_map _ _ s _ Hinv Hs'). intros x Hx HP _.
    rewrite (unique_row _ _ _ _ Hnd Hm0 Hx HP).
    unfold read_data. destruct (Message.deliveredAt m0) eqn:Hd; simpl.
    + rewrite Hd. discriminate.
    + discriminate.
  - destruct (put_read_all_table now chatId userId s) as [->|Hs']; [exact Hinv|].
    apply (preserved_by_map _ _ s _ Hinv Hs'). intros x _ _ _. discriminate.
  - destruct (delete_message_table id userId s) as [->|(m0 & _ & Hs')];
      [exact Hinv|].
    apply (preserved_by_map _ _ s _ Hinv Hs'). intros x Hx _. simpl.
    now apply Hinv.
Qed.

Lemma chat_store_invariant :
  NoDup (map Message.id (messages chat_store)) /\ read_means_delivered chat_store.
Proof.
  split.
  - simpl. repeat constructor; simpl; intuition discriminate.
  - intros m Hm. simpl in Hm.
    destruct Hm as [<-|[<-|[]]]; simpl; intros H; now elim H.
Qed.

Lemma read_means_delivered_kept_witness :
  read_means_delivered (snd (fst (put_read 200 "m2" (Some "u2") chat_store))).
Proof.
  pose proof (read_means_delivered_kept 200 "m2" "c1" (Some "u2") chat_store
                (proj1 chat_store_invariant) (proj2 chat_store_invariant)) as H.
  apply Forall_inv_tail in H. apply Forall_inv in H. exact H.
Defined.


Lemma none_unread_after (now : Z) (c u : string) (l : list Message.t) :
  filter (unread_from_others c u)
         (map (fun x => if unread_from_others c u x then read_all_data now x else x) l)
  = [].
Proof.
  induction l as [|x l IH]; simpl; [reflexivity|].
  destruct (unread_from_others c u x) eqn:Hx.
  - assert (unread_from_others c u (read_all_data now x) = false) as ->.
    { unfold unread_from_others. simpl. apply andb_false_r. }
    exact IH.
  - rewrite Hx. exact IH.
Qed.

Lemma map_untouched {A} (P : A -> bool) (f : A -> A) (l : list A) :
  filter P l = [] -> map (fun x => if P x then f x else x) l = l.
Proof.
  induction l as [|x l IH]; simpl; intros H; [reflexivity|].
  destruct (P x); [discriminate|]. now rewrite IH.
Qed.

(** X16.  Read-all and the unread count agree: for a member of the chat
    the number of messages read-all reports as updated is the unread count
    asked just before, the unread count asked just after is 0, and a second
    read-all updates nothing and leaves every message as it is. *)
Theorem read_all_clears_unread_count (now now' : Z) (s : Store) (c u : string) :
  u <> "" -> is_member s u c = true ->
  let s1 := snd (fst (put_read_all now c (Some u) s)) in
  exists n : Z,
    fst (fst (unread_count c (Some u) s)) = json 200 (JObj [("unreadCount", JNum n)])
    /\ fst (fst (put_read_all now c (Some u) s))
       = json 200 (JObj [("message", JStr "Messages marked as read");
                         ("updatedCount", JNum n)])
    /\ unread_count c (Some u) s1
       = (json 200 (JObj [("unreadCount", JNum 0)]), s1, [])
    /\ fst (fst (put_read_all now' c (Some u) s1))
       = json 200 (JObj [("message", JStr "Messages marked as read");
                         ("updatedCount", JNum 0)])
    /\ messages (snd (fst (put_read_all now' c (Some u) s1))) = messages s1.
Proof.
  intros Hu Hmem s1.
  destruct (member_row s u c Hmem) as (row & Hrow).
  exists (Z.of_nat (List.length (filter (unread_from_others c u) (messages s)))).
  assert (Hall : forall t s0, chatMembers s0 = chatMembers s ->
            put_read_all t c (Some u) s0
            = (json 200 (JObj [("message", JStr "Messages marked as read");
                               ("updatedCount",
                                JNum (Z.of_nat (List.length
                                        (filter (unread_from_others c u) (messages s0)))))]),
               with_messages s0
                 (map (fun x => if unread_from_others c u x
                                then read_all_data t x else x) (messages s0)),
               [with_messages s0
                  (map (fun x => if unread_from_others c u x
                                 then read_all_data t x else x) (messages s0))])).
  { intros t s0 Hs0. unfold put_read_all, try_catch. rewrite present_some by assumption.
    cbn [negb value]. unfold chatMember_findUnique.
    rewrite bind_read, Hs0, Hrow. reflexivity. }
  assert (Hcount : forall s0, chatMembers s0 = chatMembers s ->
            unread_count c (Some u) s0
            = (json 200 (JObj [("unreadCount",
                                JNum (Z.of_nat (List.length
                                        (filter (unread_from_others c u) (messages s0)))))]),
               s0, [])).
  { intros s0 Hs0. unfold unread_count, try_catch. rewrite present_some by assumption.
    cbn [negb value]. unfold chatMember_findUnique, message_count.
    rewrite bind_read, Hs0, Hrow. cbv beta iota. rewrite bind_read. reflexivity. }
  assert (Hs1 : s1 = with_messages s
                       (map (fun x => if unread_from_others c u x
                                      then read_all_data now x else x) (messages s))).
  { unfold s1. now rewrite (Hall now s eq_refl). }
  assert (Hnone : filter (unread_from_others c u) (messages s1) = []).
  { rewrite Hs1. apply none_unread_after. }
  split; [now rewrite (Hcount s eq_refl)|].
  split; [now rewrite (Hall now s eq_refl)|].
  assert (Hmem1 : chatMembers s1 = chatMembers s) by (rewrite Hs1; reflexivity).
  split; [rewrite (Hcount s1 Hmem1), Hnone; reflexivity|].
  rewrite (Hall now' s1 Hmem1), Hnone. split; [reflexivity|].
  cbn [fst snd messages with_messages]. now apply map_untouched.
Qed.

Lemma read_all_clears_unread_count_witness :
  fst (fst (unread_count "c1" (Some "u1") chat_store))
  = json 200 (JObj [("unreadCount", JNum 1)])
  /\ unread_count "c1" (Some "u1")
       (snd (fst (put_read_all 200 "c1" (Some "u1") chat_store)))
     = (json 200 (JObj [("unreadCount", JNum 0)]),
        snd (fst (put_read_all 200 "c1" (Some "u1") chat_store)), []).
Proof.
  destruct (read_all_clears_unread_count 200 300 chat_store "c1" "u1")
    as (n & H1 & _ & H3 & _); [discriminate|reflexivity|].
  split; [reflexivity|exact H3].
Defined.

(** X17.  Deleting a message is a soft delete only its sender can do: the
    row stays, its body becomes "[Message deleted]", and its delivery and
    read times, like every other message, are untouched; anyone else is
    answered 403 and nothing changes.  No chat membership is asked for. *)
Theorem delete_message_soft (s : Store) (id u : string) (m : Message.t) :
  u <> "" ->
  find (message_matches id) (messages s) = Some m ->
  (Message.senderId m = u ->
   exists s',
     delete_message id (Some u) s = (json 204 JUndefined, s', [s'])
     /\ find (message_matches id) (messages s')
        = Some (Message.mk (Message.id m) (Message.senderId m) (Message.chatId m)
                           "[Message deleted]" (Message.createdAt m)
                           (Message.deliveredAt m) (Message.readAt m))
     /\ List.length (messages s') = List.length (messages s)
     /\ forall id', id' <> id ->
          find (message_matches id') (messages s')
          = find (message_matches id') (messages s))
  /\ (Message.senderId m <> u ->
      delete_message id (Some u) s
      = (json 403 (error_body "Can only delete your own messages"), s, [])).
Proof.
  intros Hu Hfind. split.
  - intros Hsender. eexists. split.
    + unfold delete_message, try_catch. rewrite present_some by assumption.
      cbn [negb value]. unfold message_findUnique.
      rewrite bind_read, Hfind. cbv beta iota.
      rewrite Hsender, String.eqb_refl. cbn [negb].
      rewrite (bind_resolved _ _ _ _ _ _ (update_found id _ s m Hfind)).
      reflexivity.
    + cbn [messages with_messages]. split.
      { rewrite find_after_map by reflexivity. rewrite Hfind. simpl.
        unfold message_matches.
        now rewrite (proj2 (String.eqb_eq _ _) (found_id _ _ _ Hfind)). }
      split; [apply length_map|].
      intros id' Hne. rewrite find_after_map by reflexivity.
      destruct (find (message_matches id') (messages s)) as [m0|] eqn:E; [|reflexivity].
      simpl. apply found_id in E. unfold message_matches. rewrite E.
      now apply String.eqb_neq in Hne as ->.
  - intros Hother.
    unfold delete_message, try_catch. rewrite present_some by assumption.
    cbn [negb value]. unfold message_findUnique.
    rewrite bind_read, Hfind. cbv beta iota.
    now apply String.eqb_neq in Hother as ->.
Qed.

Lemma delete_message_soft_witness :
  exists s',
    delete_message "m1" (Some "u2") chat_store = (json 204 JUndefined, s', [s'])
    /\ find (message_matches "m1") (messages s')
       = Some (Message.mk "m1" "u2" "c1" "[Message deleted]" 90 (Some 100) None).
Proof.
  destruct (delete_message_soft chat_store "m1" "u2"
              (Message.mk "m1" "u2" "c1" "hi" 90 (Some 100) None))
    as (H & _); [discriminate|reflexivity|].
  destruct (H eq_refl) as (s' & H1 & H2 & _).
  exists s'. split; assumption.
Defined.

End MessageFlow.

(** ** Reactions: removal and lookup *)

Module ReactionFlow.
Import Js Response Prisma Route Reactions ReactionQueries Observe Shapes Samples.
Import RowFacts DBFacts RouteFacts.

Lemma key_absent_of_no_rows (s : Store) (p u t : string) :
  rows_of s p u = [] -> existsb (reaction_key p u t) (reactions s) = false.
Proof.
  intros H.
  rewrite (existsb_narrow (reaction_of p u)) by apply ReactionFacts.reaction_key_of.
  fold (rows_of s p u). now rewrite H.
Qed.

Lemma reaction_delete_missing (p u t : string) (s : Store) :
  is_ReactionType t = true ->
  existsb (reaction_key p u t) (reactions s) = false ->
  reaction_delete p u t s = (Rejected (KnownRequestError "P2025"), s, []).
Proof.
  intros Ht H. unfold reaction_delete. now rewrite Ht, H.
Qed.

Lemma reaction_delete_invalid (p u t : string) (s : Store) :
  is_ReactionType t = false ->
  reaction_delete p u t s = (Rejected ClientValidationError, s, []).
Proof.
  intros Ht. unfold reaction_delete. now rewrite Ht.
Qed.

Lemma enum_valid_type (t : string) : is_ReactionType t = true -> In t validTypes.
Proof.
  intros H. apply existsb_exists in H as (x & Hx & E).
  apply String.eqb_eq in E. now subst x.
Qed.

(** The three outcomes of [DELETE /api/reactions] on a complete request. *)
Lemma delete_reaction_steps (s : Store) (p u t : string) :
  p <> "" -> u <> "" -> t <> "" ->
  (In t validTypes ->
   existsb (reaction_key p u t) (reactions s) = true ->
   delete_reaction (mkBody (Some p) (Some u) (Some t)) s
   = (json 204 JUndefined,
      with_reactions s (filter (fun r => negb (reaction_key p u t r)) (reactions s)),
      [with_reactions s (filter (fun r => negb (reaction_key p u t r)) (reactions s))]))
  /\ (In t validTypes ->
      existsb (reaction_key p u t) (reactions s) = false ->
      delete_reaction (mkBody (Some p) (Some u) (Some t)) s
      = (json 404 (error_body "Reaction not found"), s, []))
  /\ (~ In t validTypes ->
      delete_reaction (mkBody (Some p) (Some u) (Some t)) s
      = (json 500 (error_body "Failed to delete reaction"), s, [])).
Proof.
  intros Hp Hu Ht.
  unfold delete_reaction, try_catch.
  cbn [Reactions.postId Reactions.userId Reactions.type].
  rewrite !present_some by assumption. cbn [negb orb value].
  split; [|split].
  - intros Hv Hkey.
    rewrite (bind_resolved _ _ _ _ _ _
               (reaction_delete_found p u t s
                  (ReactionFacts.valid_type_enum t Hv) Hkey)).
    reflexivity.
  - intros Hv Hkey.
    rewrite (bind_rejected _ _ _ _ _ _
               (reaction_delete_missing p u t s
                  (ReactionFacts.valid_type_enum t Hv) Hkey)).
    reflexivity.
  - intros Hv.
    assert (Hno : is_ReactionType t = false).
    { destruct (is_ReactionType t) eqn:E; [|reflexivity].
      elim Hv. now apply enum_valid_type. }
    rewrite (bind_rejected _ _ _ _ _ _ (reaction_delete_invalid p u t s Hno)).
    reflexivity.
Qed.

(** X18.  Removing a reaction depends on nothing but the row: with the
    three fields given and a type of the schema's enum, DELETE answers 204
    and removes exactly the row of that post, user and type when it exists,
    and answers 404 and changes nothing when it does not.  The post is not
    looked at, so a reaction on an expired or deleted post can still be
    removed.  The route does not check the type itself: a type outside the
    enum is refused by the storage client and answered 500, the store left
    as it was. *)
Theorem delete_reaction_exact (s : Store) (p u t : string) :
  p <> "" -> u <> "" -> t <> "" ->
  let request := mkBody (Some p) (Some u) (Some t) in
  (In t validTypes ->
   (existsb (reaction_key p u t) (reactions s) = true ->
    let s' := with_reactions s
                (filter (fun r => negb (reaction_key p u t r)) (reactions s)) in
    delete_reaction request s = (json 204 JUndefined, s', [s'])
    /\ existsb (reaction_key p u t) (reactions s') = false
    /\ forall r, reaction_key p u t r = false ->
                 (In r (reactions s') <-> In r (reactions s)))
   /\ (existsb (reaction_key p u t) (reactions s) = false ->
       delete_reaction request s
       = (json 404 (error_body "Reaction not found"), s, [])))
  /\ (~ In t validTypes ->
      delete_reaction request s
      = (json 500 (error_body "Failed to delete reaction"), s, [])).
Proof.
  intros Hp Hu Ht request.
  destruct (delete_reaction_steps s p u t Hp Hu Ht) as (Hdel & Hmiss & Hbad).
  split; [|exact Hbad].
  intros Hv. split; [|exact (Hmiss Hv)].
  intros Hkey s'. split; [exact (Hdel Hv Hkey)|]. split.
  - unfold s'. cbn [reactions with_reactions].
    destruct (existsb _ (filter _ (reactions s))) eqn:E; [|reflexivity].
    apply existsb_exists in E as (x & Hx & Hk).
    apply filter_In in Hx as [_ Hx]. now rewrite Hk in Hx.
  - intros r Hr. unfold s'. cbn [reactions with_reactions].
    rewrite filter_In, Hr. simpl. tauto.
Qed.

Lemma delete_reaction_exact_witness :
  delete_reaction (mkBody (Some "p1") (Some "u1") (Some "LIKE"))
    (with_reactions expired_post_store [Reaction.mk "p1" "u1" "LIKE" 500])
  = (json 204 JUndefined, expired_post_store, [expired_post_store])
  /\ delete_reaction (mkBody (Some "p1") (Some "u1") (Some "like")) expired_post_store
     = (json 500 (error_body "Failed to delete reaction"), expired_post_store, []).
Proof.
  split.
  - destruct (delete_reaction_exact
                (with_reactions expired_post_store [Reaction.mk "p1" "u1" "LIKE" 500])
                "p1" "u1" "LIKE") as (H & _);
      [discriminate|discriminate|discriminate|].
    destruct (H ltac:(simpl; tauto)) as (Hdel & _).
    exact (proj1 (Hdel eq_refl)).
  - destruct (delete_reaction_exact expired_post_store "p1" "u1" "like") as (_ & H);
      [discriminate|discriminate|discriminate|].
    apply H. simpl. intros Hin.
    repeat (destruct Hin as [Hin|Hin]; [discriminate|]). exact Hin.
Defined.

Lemma valid_type_nonempty (t : string) : In t validTypes -> t <> "".
Proof.
  intros H. simpl in H.
  repeat (destruct H as [<-|H]; [discriminate|]). contradiction.
Qed.

Section RoundTrip.

Variables (now : Z) (s : Store) (p u t : string) (post : Post.t).
Hypothesis Hp : p <> "".
Hypothesis Hu : u <> "".
Hypothesis Ht : In t validTypes.
Hypothesis Hpost : find (post_matches p) (posts s) = Some post.
Hypothesis Hlive : Post.deletedAt post = None.
Hypothesis Hfresh : now <= Post.expiresAt post.
Hypothesis Huser : user_exists s u = true.
Hypothesis Hnone : rows_of s p u = [].

Lemma created_store :
  post_reaction now (mkBody (Some p) (Some u) (Some t)) s
  = (json 201 (reaction_json (Reaction.mk p u t now)
                             (find (user_matches u) (users s)) (Some post)),
     with_reactions s (reactions s ++ [Reaction.mk p u t now])%list,
     [with_reactions s (reactions s ++ [Reaction.mk p u t now])%list]).
Proof.
  now apply ReactionFacts.toggle_from_none.
Qed.

Lemma new_row_key : reaction_key p u t (Reaction.mk p u t now) = true.
Proof.
  unfold reaction_key, reaction_of. simpl. now rewrite !String.eqb_refl.
Qed.

Lemma removed_table :
  filter (fun r => negb (reaction_key p u t r))
         (reactions s ++ [Reaction.mk p u t now])%list
  = reactions s.
Proof.
  rewrite filter_app. simpl. rewrite new_row_key. simpl. rewrite app_nil_r.
  apply filter_keeps_all. intros x Hx.
  destruct (reaction_key p u t x) eqn:Hk; [|reflexivity].
  apply ReactionFacts.reaction_key_of in Hk.
  assert (In x (rows_of s p u)) as Hin by (apply filter_In; auto).
  rewrite Hnone in Hin. contradiction.
Qed.

End RoundTrip.

(** X19.  Create, then remove, is a round trip: starting with no reaction
    of the user on a live post, a POST that creates the reaction followed
    by a DELETE of the same post, user and type leaves the reaction table
    exactly as it was before, and a second DELETE is answered 404. *)
Theorem create_then_delete_restores
        (now : Z) (s : Store) (p u t : string) (post : Post.t) :
  p <> "" -> u <> "" -> In t validTypes ->
  find (post_matches p) (posts s) = Some post ->
  Post.deletedAt post = None ->
  now <= Post.expiresAt post ->
  user_exists s u = true ->
  rows_of s p u = [] ->
  let request := mkBody (Some p) (Some u) (Some t) in
  let s1 := snd (fst (post_reaction now request s)) in
  let s2 := snd (fst (delete_reaction request s1)) in
  fst (fst (delete_reaction request s1)) = json 204 JUndefined
  /\ reactions s2 = reactions s
  /\ delete_reaction request s2
     = (json 404 (error_body "Reaction not found"), s2, []).
Proof.
  intros Hp Hu Ht Hpost Hlive Hfresh Huser Hnone request s1 s2.
  pose proof (valid_type_nonempty t Ht) as Htne.
  assert (Hs1 : s1 = with_reactions s (reactions s ++ [Reaction.mk p u t now])%list).
  { unfold s1, request. now rewrite (created_store now s p u t post). }
  assert (Hkey1 : existsb (reaction_key p u t) (reactions s1) = true).
  { rewrite Hs1. cbn [reactions with_reactions]. rewrite existsb_app. simpl.
    rewrite new_row_key. simpl. apply orb_true_r. }
  destruct (delete_reaction_steps s1 p u t Hp Hu Htne) as (Hdel & _).
  specialize (Hdel Ht Hkey1).
  assert (Hs2 : s2 = with_reactions s1
                       (filter (fun r => negb (reaction_key p u t r)) (reactions s1))).
  { unfold s2, request. now rewrite Hdel. }
  split; [unfold request; now rewrite Hdel|].
  assert (Hback : reactions s2 = reactions s).
  { rewrite Hs2, Hs1. cbn [reactions with_reactions].
    now apply (removed_table now s p u t). }
  split; [exact Hback|].
  destruct (delete_reaction_steps s2 p u t Hp Hu Htne) as (_ & Hmiss & _).
  apply (Hmiss Ht). rewrite Hback. now apply key_absent_of_no_rows.
Qed.


Lemma create_then_delete_restores_witness :
  let request := mkBody (Some "p1") (Some "u1") (Some "WOW") in
  reactions (snd (fst (delete_reaction request
                         (snd (fst (post_reaction 600 request unreacted_store))))))
  = reactions unreacted_store.
Proof.
  exact (proj1 (proj2 (create_then_delete_restores 600 unreacted_store "p1" "u1" "WOW"
                         (Post.mk "p1" (Some "hello") 9000 None)
                         ltac:(discriminate) ltac:(discriminate)
                         ltac:(simpl; tauto) eq_refl eq_refl ltac:(simpl; lia)
                         eq_refl eq_refl))).
Defined.

Lemma check_reaction_reads (s : Store) (p u : string) :
  p <> "" -> u <> "" ->
  check_reaction (Some p) (Some u) s
  = (json 200
       (JObj [("hasReacted",
               JBool (match hd_error (rows_of s p u) with
                      | Some _ => true | None => false end));
              ("reactionType",
               match hd_error (rows_of s p u) with
               | Some r => or_else (JStr (Reaction.type r)) JNull
               | None => JNull
               end);
              ("reactedAt",
               match hd_error (rows_of s p u) with
               | Some r => JNum (Reaction.createdAt r)
               | None => JNull
               end)]), s, []).
Proof.
  intros Hp Hu. unfold check_reaction, try_catch.
  rewrite !present_some by assumption. cbn [negb orb value].
  unfold reaction_findFirst. rewrite bind_read, find_hd_filter. reflexivity.
Qed.

(** X20.  The check route follows the toggle: with no reaction it answers
    [hasReacted: false] with null type and time; right after a POST created
    the reaction it answers [hasReacted: true] with the type and the time of
    that POST; after the same POST again it answers false again.  It never
    changes the store. *)
Theorem check_follows_toggle
        (now1 now2 : Z) (s : Store) (p u t : string) (post : Post.t) :
  p <> "" -> u <> "" -> In t validTypes ->
  find (post_matches p) (posts s) = Some post ->
  Post.deletedAt post = None ->
  now1 <= Post.expiresAt post ->
  now2 <= Post.expiresAt post ->
  user_exists s u = true ->
  rows_of s p u = [] ->
  let request := mkBody (Some p) (Some u) (Some t) in
  let s1 := snd (fst (post_reaction now1 request s)) in
  let s2 := snd (fst (post_reaction now2 request s1)) in
  let absent := JObj [("hasReacted", JBool false); ("reactionType", JNull);
                      ("reactedAt", JNull)] in
  check_reaction (Some p) (Some u) s = (json 200 absent, s, [])
  /\ check_reaction (Some p) (Some u) s1
     = (json 200 (JObj [("hasReacted", JBool true); ("reactionType", JStr t);
                        ("reactedAt", JNum now1)]), s1, [])
  /\ check_reaction (Some p) (Some u) s2 = (json 200 absent, s2, []).
Proof.
  intros Hp Hu Ht Hpost Hlive H1 H2 Huser Hnone request s1 s2 absent.
  pose proof (valid_type_nonempty t Ht) as Htne.
  assert (Hs1 : s1 = with_reactions s (reactions s ++ [Reaction.mk p u t now1])%list).
  { unfold s1, request. now rewrite (created_store now1 s p u t post). }
  assert (Hof : reaction_of p u (Reaction.mk p u t now1) = true).
  { unfold reaction_of. simpl. now rewrite !String.eqb_refl. }
  assert (Hrows1 : rows_of s1 p u = [Reaction.mk p u t now1]).
  { rewrite Hs1, ReactionFacts.rows_of_append by exact Hof. now rewrite Hnone. }
  assert (Hs2 : s2 = with_reactions s1
                       (filter (fun x => negb (reaction_key p u t x)) (reactions s1))).
  { unfold s2, request.
    rewrite (ReactionFacts.toggle_same_type now2 s1 p u t post)
      with (r := Reaction.mk p u t now1); try assumption; try reflexivity.
    - rewrite Hs1. exact Hpost. }
  assert (Hrows2 : rows_of s2 p u = []).
  { rewrite Hs2, ReactionFacts.rows_of_delete, Hrows1. simpl.
    now rewrite new_row_key. }
  rewrite !check_reaction_reads by assumption.
  rewrite Hnone, Hrows1, Hrows2. simpl.
  unfold or_else. simpl. apply String.eqb_neq in Htne as ->. simpl.
  repeat split.
Qed.

Lemma check_follows_toggle_witness :
  let request := mkBody (Some "p1") (Some "u1") (Some "SAD") in
  fst (fst (check_reaction (Some "p1") (Some "u1")
              (snd (fst (post_reaction 600 request unreacted_store)))))
  = json 200 (JObj [("hasReacted", JBool true); ("reactionType", JStr "SAD");
                    ("reactedAt", JNum 600)]).
Proof.
  cbv zeta.
  rewrite (proj1 (proj2 (check_follows_toggle 600 700 unreacted_store "p1" "u1" "SAD"
                           (Post.mk "p1" (Some "hello") 9000 None)
                           ltac:(discriminate) ltac:(discriminate)
                           ltac:(simpl; tauto) eq_refl eq_refl
                           ltac:(simpl; lia) ltac:(simpl; lia) eq_refl eq_refl))).
  reflexivity.
Defined.

End ReactionFlow.

(** ** Follows: round trip, lookup and counts *)

Module FollowFlow.
Import Js Response Prisma Route Follows FollowQueries Observe Shapes Samples.
Import RowFacts DBFacts RouteFacts.

Lemma user_row (s : Store) (id : string) :
  user_exists s id = true -> exists usr, find (user_matches id) (users s) = Some usr.
Proof.
  unfold user_exists. intros H.
  destruct (find (user_matches id) (users s)) as [usr|] eqn:Hf; [now exists usr|].
  apply existsb_exists in H as (x & Hx & Hm).
  now rewrite (find_none _ _ Hf x Hx) in Hm.
Qed.

Lemma find_follow (s : Store) (a b : string) :
  match find (follow_key a b) (follows s) with
  | Some _ => true
  | None => false
  end = following s a b.
Proof.
  unfold following.
  destruct (find (follow_key a b) (follows s)) as [f|] eqn:Hf.
  - symmetry. exact (find_some_existsb _ _ _ Hf).
  - destruct (existsb (follow_key a b) (follows s)) eqn:E; [|reflexivity].
    apply existsb_exists in E as (x & Hx & Hm).
    now rewrite (find_none _ _ Hf x Hx) in Hm.
Qed.

Lemma new_follow_key (a b : string) (now : Z) :
  follow_key a b (Follow.mk a b now) = true.
Proof.
  unfold follow_key. simpl. now rewrite !String.eqb_refl.
Qed.

(** The outcomes of [POST /api/follows] for two different existing users. *)
Lemma post_follow_steps (now : Z) (s : Store) (a b : string) :
  a <> "" -> b <> "" -> a <> b ->
  user_exists s a = true -> user_exists s b = true ->
  (following s a b = false ->
   post_follow now (mkBody (Some a) (Some b)) s
   = (json 201 (follow_json (Follow.mk a b now)
                            (find (user_matches a) (users s))
                            (find (user_matches b) (users s))),
      with_follows s (follows s ++ [Follow.mk a b now])%list,
      [with_follows s (follows s ++ [Follow.mk a b now])%list]))
  /\ (following s a b = true ->
      post_follow now (mkBody (Some a) (Some b)) s
      = (json 409 (error_body "Already following this user"), s, [])).
Proof.
  intros Ha Hb Hab Hua Hub.
  destruct (user_row s a Hua) as (ua & Hfa).
  destruct (user_row s b Hub) as (ub & Hfb).
  unfold post_follow, try_catch. cbn [Follows.followerId Follows.followeeId].
  rewrite !present_some by assumption. cbn [negb orb value].
  apply String.eqb_neq in Hab as ->.
  unfold user_findUnique, follow_findUnique.
  rewrite !bind_read, Hfa, Hfb. cbv beta iota. rewrite bind_read.
  pose proof (find_follow s a b) as Hff.
  split; intros Hfol; rewrite Hfol in Hff.
  - destruct (find (follow_key a b) (follows s)); [discriminate|].
    rewrite (bind_resolved _ _ _ _ _ _ (follow_create_ok now a b s Hfol Hua Hub)).
    rewrite !bind_read. cbn [fst snd ret users with_follows].
    rewrite Hfa, Hfb. reflexivity.
  - destruct (find (follow_key a b) (follows s)); [reflexivity|discriminate].
Qed.

(** The outcomes of [DELETE /api/follows] on a complete request. *)
Lemma delete_follow_steps (s : Store) (a b : string) :
  a <> "" -> b <> "" ->
  (following s a b = true ->
   delete_follow (mkBody (Some a) (Some b)) s
   = (json 204 JUndefined,
      with_follows s (filter (fun f => negb (follow_key a b f)) (follows s)),
      [with_follows s (filter (fun f => negb (follow_key a b f)) (follows s))]))
  /\ (following s a b = false ->
      delete_follow (mkBody (Some a) (Some b)) s
      = (json 404 (error_body "Follow relationship not found"), s, [])).
Proof.
  intros Ha Hb. unfold delete_follow, try_catch.
  cbn [Follows.followerId Follows.followeeId].
  rewrite !present_some by assumption. cbn [negb orb value].
  split; intros Hfol.
  - rewrite (bind_resolved _ _ _ _ _ _ (follow_delete_found a b s Hfol)). reflexivity.
  - rewrite (bind_rejected _ _ _ _ _ _ (follow_delete_missing a b s Hfol)). reflexivity.
Qed.

Lemma unfollowed_table (now : Z) (s : Store) (a b : string) :
  following s a b = false ->
  filter (fun f => negb (follow_key a b f)) (follows s ++ [Follow.mk a b now])%list
  = follows s.
Proof.
  intros Hfol. rewrite filter_app. simpl. rewrite new_follow_key. simpl.
  rewrite app_nil_r. apply filter_keeps_all. intros x Hx.
  destruct (follow_key a b x) eqn:Hk; [|reflexivity].
  unfold following in Hfol.
  assert (existsb (follow_key a b) (follows s) = true)
    by (apply existsb_exists; eauto).
  congruence.
Qed.

(** X21.  Follow, then unfollow, is a round trip: for two different
    existing users not yet in the Following state, a follow puts the pair
    in that state, a second follow is answered 409 and changes nothing, an
    unfollow then leaves the follow table exactly as it was at the start,
    and a second unfollow is answered 404. *)
Theorem follow_then_unfollow_restores (now now' : Z) (s : Store) (a b : string) :
  a <> "" -> b <> "" -> a <> b ->
  user_exists s a = true -> user_exists s b = true ->
  following s a b = false ->
  let request := mkBody (Some a) (Some b) in
  let s1 := snd (fst (post_follow now request s)) in
  let s2 := snd (fst (delete_follow request s1)) in
  following s1 a b = true
  /\ post_follow now' request s1
     = (json 409 (error_body "Already following this user"), s1, [])
  /\ fst (fst (delete_follow request s1)) = json 204 JUndefined
  /\ follows s2 = follows s
  /\ delete_follow request s2
     = (json 404 (error_body "Follow relationship not found"), s2, []).
Proof.
  intros Ha Hb Hab Hua Hub Hfol request s1 s2.
  destruct (post_follow_steps now s a b Ha Hb Hab Hua Hub) as [Hcreate _].
  assert (Hs1 : s1 = with_follows s (follows s ++ [Follow.mk a b now])%list).
  { unfold s1, request. now rewrite (Hcreate Hfol). }
  assert (Hfol1 : following s1 a b = true).
  { rewrite Hs1. unfold following. cbn [follows with_follows].
    rewrite existsb_app. simpl. rewrite new_follow_key. simpl. apply orb_true_r. }
  assert (Hua1 : user_exists s1 a = true) by (rewrite Hs1; exact Hua).
  assert (Hub1 : user_exists s1 b = true) by (rewrite Hs1; exact Hub).
  destruct (post_follow_steps now' s1 a b Ha Hb Hab Hua1 Hub1) as [_ Hdup].
  destruct (delete_follow_steps s1 a b Ha Hb) as [Hdel _].
  assert (Hs2 : s2 = with_follows s1
                       (filter (fun f => negb (follow_key a b f)) (follows s1))).
  { unfold s2, request. now rewrite (Hdel Hfol1). }
  assert (Hback : follows s2 = follows s).
  { rewrite Hs2, Hs1. cbn [follows with_follows]. now apply unfollowed_table. }
  split; [exact Hfol1|].
  split; [exact (Hdup Hfol1)|].
  split; [unfold request; now rewrite (Hdel Hfol1)|].
  split; [exact Hback|].
  destruct (delete_follow_steps s2 a b Ha Hb) as [_ Hmiss].
  apply Hmiss. unfold following. now rewrite Hback.
Qed.

Lemma follow_then_unfollow_restores_witness :
  let request := mkBody (Some "u2") (Some "u1") in
  follows (snd (fst (delete_follow request
                       (snd (fst (post_follow 20 request follow_store))))))
  = follows follow_store.
Proof.
  destruct (follow_then_unfollow_restores 20 30 follow_store "u2" "u1")
    as (_ & _ & _ & H & _);
    [discriminate|discriminate|discriminate|reflexivity|reflexivity|reflexivity|].
  exact H.
Defined.

Lemma check_follow_reads (s : Store) (a b : string) :
  a <> "" -> b <> "" ->
  check_follow (Some a) (Some b) s
  = (json 200
       (JObj [("isFollowing",
               JBool (match find (follow_key a b) (follows s) with
                      | Some _ => true | None => false end));
              ("followedAt",
               match find (follow_key a b) (follows s) with
               | Some f => JNum (Follow.createdAt f)
               | None => JNull
               end)]), s, []).
Proof.
  intros Ha Hb. unfold check_follow, try_catch.
  rewrite !present_some by assumption. cbn [negb orb value].
  unfold follow_findUnique. now rewrite bind_read.
Qed.

Lemma mutual_follow_reads (s : Store) (a b : string) :
  mutual_follow a b s
  = (json 200 (JObj [("user1FollowsUser2", JBool (following s a b));
                     ("user2FollowsUser1", JBool (following s b a));
                     ("mutualFollow", JBool (following s a b && following s b a))]),
     s, []).
Proof.
  unfold mutual_follow, try_catch, follow_findUnique.
  rewrite !bind_read. rewrite !find_follow. reflexivity.
Qed.

(** X22.  The lookups see a follow as soon as it is made.  If [b] already
    follows [a] and [a] does not yet follow [b], both being existing users:
    before, check(a,b) says not following and the pair is not mutual; after
    [a] follows [b], check(a,b) says following since [now], and the pair is
    reported mutual whichever user is named first.  The check of the other
    direction is not affected. *)
Theorem lookups_see_new_follow (now : Z) (s : Store) (a b : string) :
  a <> "" -> b <> "" -> a <> b ->
  user_exists s a = true -> user_exists s b = true ->
  following s a b = false -> following s b a = true ->
  let s1 := snd (fst (post_follow now (mkBody (Some a) (Some b)) s)) in
  let mutual x y (flag : bool) :=
    JObj [("user1FollowsUser2", JBool x); ("user2FollowsUser1", JBool y);
          ("mutualFollow", JBool flag)] in
  check_follow (Some a) (Some b) s
  = (json 200 (JObj [("isFollowing", JBool false); ("followedAt", JNull)]), s, [])
  /\ mutual_follow a b s = (json 200 (mutual false true false), s, [])
  /\ check_follow (Some a) (Some b) s1
     = (json 200 (JObj [("isFollowing", JBool true); ("followedAt", JNum now)]), s1, [])
  /\ mutual_follow a b s1 = (json 200 (mutual true true true), s1, [])
  /\ mutual_follow b a s1 = (json 200 (mutual true true true), s1, [])
  /\ check_follow (Some b) (Some a) s1
     = (fst (fst (check_follow (Some b) (Some a) s)), s1, []).
Proof.
  intros Ha Hb Hab Hua Hub Hab_no Hba_yes s1 mutual.
  destruct (post_follow_steps now s a b Ha Hb Hab Hua Hub) as [Hcreate _].
  assert (Hs1 : s1 = with_follows s (follows s ++ [Follow.mk a b now])%list).
  { unfold s1. now rewrite (Hcreate Hab_no). }
  assert (Hnone : find (follow_key a b) (follows s) = None).
  { pose proof (find_follow s a b) as H. rewrite Hab_no in H.
    destruct (find (follow_key a b) (follows s)); [discriminate|reflexivity]. }
  assert (Hfind1 : find (follow_key a b) (follows s1) = Some (Follow.mk a b now)).
  { rewrite Hs1. cbn [follows with_follows].
    rewrite find_hd_filter, filter_app. simpl. rewrite new_follow_key.
    rewrite find_hd_filter in Hnone.
    destruct (filter (follow_key a b) (follows s)); [reflexivity|discriminate]. }
  assert (Hother : follow_key b a (Follow.mk a b now) = false).
  { unfold follow_key. simpl. apply String.eqb_neq in Hab as ->. reflexivity. }
  assert (Hfind_ba : find (follow_key b a) (follows s1)
                     = find (follow_key b a) (follows s)).
  { rewrite Hs1. cbn [follows with_follows].
    rewrite !find_hd_filter, filter_app. simpl. rewrite Hother. now rewrite app_nil_r. }
  assert (Hab1 : following s1 a b = true).
  { rewrite <- find_follow, Hfind1. reflexivity. }
  assert (Hba1 : following s1 b a = true).
  { rewrite <- find_follow, Hfind_ba, find_follow. exact Hba_yes. }
  rewrite !check_follow_reads by assumption.
  rewrite !mutual_follow_reads.
  rewrite Hnone, Hfind1, Hfind_ba, Hab_no, Hba_yes, Hab1, Hba1.
  repeat split.
Qed.

Lemma lookups_see_new_follow_witness :
  mutual_follow "u1" "u2"
    (snd (fst (post_follow 20 (mkBody (Some "u2") (Some "u1")) follow_store)))
  = (json 200 (JObj [("user1FollowsUser2", JBool true);
                     ("user2FollowsUser1", JBool true);
                     ("mutualFollow", JBool true)]),
     snd (fst (post_follow 20 (mkBody (Some "u2") (Some "u1")) follow_store)), []).
Proof.
  destruct (lookups_see_new_follow 20 follow_store "u2" "u1")
    as (_ & _ & _ & _ & H & _);
    [discriminate|discriminate|discriminate|reflexivity|reflexivity
    |reflexivity|reflexivity|].
  exact H.
Defined.

Lemma follow_stats_reads (s : Store) (x : string) :
  follow_stats x s
  = (json 200
       (JObj [("followers",
               JNum (Z.of_nat (List.length
                       (filter (fun f => (Follow.followeeId f =? x)%string) (follows s)))));
              ("following",
               JNum (Z.of_nat (List.length
                       (filter (fun f => (Follow.followerId f =? x)%string)
                               (follows s)))))]),
     s, []).
Proof.
  unfold follow_stats, try_catch, follow_count. now rewrite !bind_read.
Qed.

(** X23.  The counts move with a follow: after [a] follows [b], the stats
    of any user [x] show one more follower exactly when [x] is [b] and one
    more following exactly when [x] is [a]; everything else is as before. *)
Theorem follow_moves_counts (now : Z) (s : Store) (a b x : string) :
  a <> "" -> b <> "" -> a <> b ->
  user_exists s a = true -> user_exists s b = true ->
  following s a b = false ->
  let s1 := snd (fst (post_follow now (mkBody (Some a) (Some b)) s)) in
  exists followers followingCount : Z,
    fst (fst (follow_stats x s))
    = json 200 (JObj [("followers", JNum followers);
                      ("following", JNum followingCount)])
    /\ fst (fst (follow_stats x s1))
       = json 200
           (JObj [("followers", JNum (followers + if (b =? x)%string then 1 else 0));
                  ("following",
                   JNum (followingCount + if (a =? x)%string then 1 else 0))])
    /\ 0 <= followers /\ 0 <= followingCount.
Proof.
  intros Ha Hb Hab Hua Hub Hfol s1.
  destruct (post_follow_steps now s a b Ha Hb Hab Hua Hub) as [Hcreate _].
  assert (Hs1 : s1 = with_follows s (follows s ++ [Follow.mk a b now])%list).
  { unfold s1. now rewrite (Hcreate Hfol). }
  rewrite !follow_stats_reads. rewrite Hs1. cbn [fst follows with_follows].
  eexists. eexists. split; [reflexivity|].
  split; [|split; apply Nat2Z.is_nonneg].
  rewrite !filter_app, !length_app. simpl.
  destruct (b =? x)%string, (a =? x)%string; simpl; rewrite !Nat2Z.inj_add;
    simpl; rewrite ?Z.add_0_r; reflexivity.
Qed.

Lemma follow_moves_counts_witness :
  fst (fst (follow_stats "u1"
              (snd (fst (post_follow 20 (mkBody (Some "u2") (Some "u1")) follow_store)))))
  = json 200 (JObj [("followers", JNum 1); ("following", JNum 1)]).
Proof.
  destruct (follow_moves_counts 20 follow_store "u2" "u1" "u1")
    as (f & g & H0 & H1 & _);
    [discriminate|discriminate|discriminate|reflexivity|reflexivity|reflexivity|].
  injection H0 as <- <-. exact H1.
Defined.

End FollowFlow.

(** ** Validation utilities *)

Module ValidationFacts.
Import Js Errors Validation Shapes Samples.

Lemma missing_fields_object (fs : list (string * JsVal)) (fields : list string) :
  missing_fields (JObj fs) fields
  = Normal (filter (fun f => is_blank (assoc f fs)) fields).
Proof.
  induction fields as [|f fields IH]; simpl; [reflexivity|].
  rewrite IH. simpl. destruct (is_blank (assoc f fs)); reflexivity.
Qed.

(** X24.  For an object and field names that are not inherited ones,
    [validateRequired] returns exactly when no required field is
    [undefined], [null] or the empty string (so [0] and [false] count as
    given); otherwise it raises one 400 error naming every blank field at
    once, in the order they were required.  On [null] or [undefined] data
    it crashes with a [TypeError] unless no field is required. *)
Theorem validateRequired_lists_every_blank
        (trace : string) (fs : list (string * JsVal)) (fields : list string) :
  (forall f, In f fields -> ~ In f inherited) ->
  let blank := filter (fun f => is_blank (assoc f fs)) fields in
  (blank = [] -> validateRequired trace (JObj fs) fields = Returns tt)
  /\ (blank <> [] ->
      validateRequired trace (JObj fs) fields
      = Raises (ValidationError trace
                  (JStr ("Missing required fields: " ++ String.concat ", " blank))
                  (JObj [("missingFields", JArr (map JStr blank))])))
  /\ (forall f, In f blank <-> In f fields /\ is_blank (assoc f fs) = true)
  /\ validateRequired trace JNull [] = Returns tt
  /\ (forall f rest,
        exists msg, validateRequired trace JNull (f :: rest) = Crashes msg
                    /\ validateRequired trace JUndefined (f :: rest)
                       = Crashes ("TypeError: Cannot read properties of undefined (reading '"
                                  ++ f ++ "')")).
Proof.
  intros _ blank.
  unfold validateRequired. rewrite missing_fields_object. fold blank.
  split; [intros ->; reflexivity|].
  split.
  { intros Hne. destruct blank as [|x l]; [now elim Hne|]. reflexivity. }
  split; [intros f; unfold blank; apply filter_In|].
  split; [reflexivity|].
  intros f rest. eexists. split; reflexivity.
Qed.

Lemma validateRequired_lists_every_blank_witness :
  validateRequired ""
    (JObj [("username", JStr ""); ("age", JNum 0); ("email", JNull)])
    ["username"; "age"; "email"]
  = Raises (ValidationError ""
              (JStr "Missing required fields: username, email")
              (JObj [("missingFields", JArr [JStr "username"; JStr "email"])])).
Proof.
  destruct (validateRequired_lists_every_blank ""
              [("username", JStr ""); ("age", JNum 0); ("email", JNull)]
              ["username"; "age"; "email"]) as (_ & H & _).
  - intros f Hf Hin. simpl in Hf, Hin.
    repeat (destruct Hf as [<-|Hf];
            [repeat (destruct Hin as [Hin|Hin]; [discriminate|]); contradiction|]).
    contradiction.
  - apply H. discriminate.
Defined.

(** X25.  Whatever [parseInt] computes, a pagination that passes
    validation is within bounds: the limit is a whole number from 1 to 100,
    and the page is a whole number of at least 1 or positive infinity.  The
    schema [pagination] obeys the same bounds and answers page 1, limit 10
    when neither parameter is given. *)
Theorem validated_pagination_bounds
        (trace : string) (parseInt : JsVal -> Parsed) (page limit query : JsVal)
        (p l : Parsed) :
  validatePagination trace parseInt page limit = Returns (p, l)
  \/ pagination trace parseInt query = Returns (p, l) ->
  (exists n, l = PInt n /\ 1 <= n <= 100)
  /\ (p = PInf false \/ exists n, p = PInt n /\ 1 <= n).
Proof.
  assert (Hv : forall a b,
             validatePagination trace parseInt a b = Returns (p, l) ->
             (exists n, l = PInt n /\ 1 <= n <= 100)
             /\ (p = PInf false \/ exists n, p = PInt n /\ 1 <= n)).
  { intros a b. unfold validatePagination.
    destruct (parseInt a) as [|pz|[|]]; try discriminate;
      destruct (parseInt b) as [|lz|lneg]; simpl;
      try (destruct (pz <? 1) eqn:Hp); try discriminate;
      try (destruct (lz <? 1) eqn:H1; try discriminate;
           destruct (100 <? lz) eqn:H2; try discriminate);
      simpl; intros H; injection H as <- <-; (split; [eexists; split; [reflexivity|lia]|]);
      eauto.
    right. eexists. split; [reflexivity|lia]. }
  intros [H|H]; [exact (Hv _ _ H)|].
  unfold pagination in H.
  destruct (get query "page") as [pg|]; [|discriminate].
  destruct (get query "limit") as [lm|]; [|discriminate].
  destruct (truthy pg || truthy lm); [exact (Hv _ _ H)|].
  injection H as <- <-. split; [exists 10; split; [reflexivity|lia]|].
  right. exists 1. split; [reflexivity|lia].
Qed.

Lemma validated_pagination_bounds_witness :
  pagination "" parse_numbers (JObj [("page", JNum 3)]) = Returns (PInt 3, PInt 10)
  /\ (exists n, PInt 10 = PInt n /\ 1 <= n <= 100).
Proof.
  split; [reflexivity|].
  exact (proj1 (validated_pagination_bounds "" parse_numbers JUndefined JUndefined
                  (JObj [("page", JNum 3)]) (PInt 3) (PInt 10)
                  (or_intror eq_refl))).
Defined.

(** [string_length] counts characters on 7-bit text, one unit for a
    two-byte sequence and two for a four-byte one. *)
Lemma string_length_ascii (s : string) :
  forallb (fun c => (nat_of_ascii c <? 128)%nat) (list_ascii_of_string s) = true ->
  string_length s = String.length s.
Proof.
  induction s as [|c s IH]; simpl; intros H; [reflexivity|].
  apply andb_prop in H as [Hc Hs]. unfold code_units. rewrite Hc.
  now rewrite (IH Hs).
Qed.

Lemma string_length_multibyte :
  let byte n := ascii_of_nat n in
  string_length (String (byte 195%nat) (String (byte 169%nat)
                   (String (byte 195%nat) (String (byte 169%nat) "")))) = 2%nat
  /\ string_length (String (byte 240%nat) (String (byte 159%nat)
                      (String (byte 152%nat) (String (byte 128%nat) "")))) = 2%nat.
Proof. split; reflexivity. Qed.

(** X26.  What the comment schema lets through: the body passes exactly
    when its [content] is a string of 1 to 1000 UTF-16 code units, or is
    one of the falsy values [0], [false] and [NaN], which are neither blank
    for [validateRequired] nor checked by [validateStringLength]. *)
Theorem createComment_accepts (trace : string) (fs : list (string * JsVal)) :
  let content := assoc "content" fs in
  createComment trace (JObj fs) = Returns tt
  <-> (exists s, content = JStr s /\ 1 <= Z.of_nat (string_length s) <= 1000)
      \/ content = JNum 0 \/ content = JBool false \/ content = JNaN.
Proof.
  intros content. unfold createComment, validateRequired. simpl. fold content.
  destruct content as [| |[|]|z| | |s| |] eqn:Hc; simpl.
  - split; [discriminate|]. intros [(s & H & _)|[H|[H|H]]]; discriminate.
  - split; [discriminate|]. intros [(s & H & _)|[H|[H|H]]]; discriminate.
  - unfold validateStringLength. simpl.
    split; [discriminate|]. intros [(s & H & _)|[H|[H|H]]]; discriminate.
  - split; [tauto|reflexivity].
  - unfold validateStringLength. simpl.
    destruct (Z.eqb_spec z 0) as [->|Hz]; simpl.
    + split; [tauto|reflexivity].
    + split; [discriminate|].
      intros [(s & H & _)|[H|[H|H]]]; try discriminate. injection H as ->. now elim Hz.
  - split; [tauto|reflexivity].
  - unfold validateStringLength. simpl.
    split; [discriminate|]. intros [(s & H & _)|[H|[H|H]]]; discriminate.
  - destruct (String.eqb_spec s "") as [->|Hs]; simpl.
    + split; [discriminate|].
      intros [(s & H & Hlen)|[H|[H|H]]]; try discriminate.
      injection H as <-. simpl in Hlen. lia.
    + unfold validateStringLength. cbn [required minLength maxLength truthy].
      apply String.eqb_neq in Hs as Hs'. rewrite Hs'. cbn [negb andb].
      destruct (Z.ltb_spec (Z.of_nat (string_length s)) 1) as [H1|H1].
      * split; [discriminate|].
        intros [(s0 & H & Hlen)|[H|[H|H]]]; try discriminate.
        injection H as <-. lia.
      * destruct (Z.ltb_spec 1000 (Z.of_nat (string_length s))) as [H2|H2].
        -- split; [discriminate|].
           intros [(s0 & H & Hlen)|[H|[H|H]]]; try discriminate.
           injection H as <-. lia.
        -- split; [|reflexivity]. intros _. left. exists s.
           split; [reflexivity|lia].
  - unfold validateStringLength. simpl.
    split; [discriminate|]. intros [(s & H & _)|[H|[H|H]]]; discriminate.
  - unfold validateStringLength. simpl.
    split; [discriminate|]. intros [(s & H & _)|[H|[H|H]]]; discriminate.
Qed.

End ValidationFacts.
